(** * HackerNews scraper: a shallow embedding of the fetch-parse-persist pipeline

    The development follows the Python sources:
    - [models/story.py]          the [Story] dataclass and its validation,
    - [core/storage.py]          the JSON file store,
    - [core/scraper.py]          the sequential scraper,
    - [core/async_scraper.py]    the asynchronous scraper.

    Python values are modelled with the types the annotations give them:
    [int] as [Z], [str] as [string] (byte strings), [Optional[_]] as [option],
    [dict] as a [gmap] with string keys.  Exceptions are explicit results;
    the clock, the network, the log and the progress callback are threaded
    through a world state. *)

From Stdlib Require Import NArith ZArith QArith Lia.
From Stdlib Require Import Ascii String DecimalString.
From stdpp Require Import base option list strings gmap.

Local Open Scope string_scope.
Local Open Scope Z_scope.
Local Open Scope list_scope.

(** ** Exceptions and results *)

(** The exception classes the modelled code raises or catches.  The classes
    of [exceptions/exceptions.py] keep their names; [ScrapingError] and
    [RobotsTxtError] are subclasses of [ScraperError]. *)
Inductive exn_class :=
  | ValueError | TypeError | AttributeError | IndexError | RuntimeError
  | RequestException
  | ScraperError | ScrapingError | RobotsTxtError
  | StorageError.

#[global] Instance exn_class_eq_dec : EqDecision exn_class.
Proof. solve_decision. Defined.

Record exn := mkExn { exn_kind : exn_class; exn_msg : string }.

(** [str(e)] *)
Definition str_exn (e : exn) : string := exn_msg e.

Inductive result (A : Type) :=
  | Ok (a : A)
  | Raise (e : exn).
Arguments Ok {A} a.
Arguments Raise {A} e.

Definition raised {A} (r : result A) : bool :=
  match r with Ok _ => false | Raise _ => true end.

Definition rbind {A B} (r : result A) (k : A -> result B) : result B :=
  match r with Ok a => k a | Raise e => Raise e end.

(** ** Strings, as the builtins the code calls *)

Module Py.

(** [str.isspace] on one ASCII character: TAB, LF, VT, FF, CR, the four
    separators FS GS RS US, and the space. *)
Definition isspace (c : ascii) : bool :=
  let n := nat_of_ascii c in
  ((9 <=? n) && (n <=? 13) || (28 <=? n) && (n <=? 32))%nat.

Fixpoint lstrip (s : string) : string :=
  match s with
  | String c s' => if isspace c then lstrip s' else s
  | EmptyString => EmptyString
  end.

Fixpoint rstrip (s : string) : string :=
  match s with
  | String c s' =>
      match rstrip s' with
      | EmptyString => if isspace c then EmptyString else String c EmptyString
      | r => String c r
      end
  | EmptyString => EmptyString
  end.

(** [s.strip()] *)
Definition strip (s : string) : string := rstrip (lstrip s).

(** [s.split()]: the maximal runs of non-blank characters.  [cur] is the
    token being read, in reverse. *)
Fixpoint split_aux (cur : list ascii) (s : string) : list string :=
  let flush rest :=
    match cur with
    | [] => rest
    | _ => string_of_list_ascii (rev cur) :: rest
    end in
  match s with
  | EmptyString => flush []
  | String c s' =>
      if isspace c then flush (split_aux [] s') else split_aux (c :: cur) s'
  end.

Definition split (s : string) : list string := split_aux [] s.

(** [l[0]] on a list *)
Definition first {A} (l : list A) : result A :=
  match l with
  | x :: _ => Ok x
  | [] => Raise (mkExn IndexError "list index out of range")
  end.

Definition digit (c : ascii) : option Z :=
  let n := nat_of_ascii c in
  if ((48 <=? n) && (n <=? 57))%nat then Some (Z.of_nat n - 48) else None.

(** Digits of an integer literal after the sign: a digit, then digits each
    optionally preceded by one underscore.  [acc] is the value read so
    far. *)
Fixpoint int_digits (acc : Z) (s : string) : option Z :=
  match s with
  | EmptyString => Some acc
  | String "_" (String c s') =>
      match digit c with
      | Some d => int_digits (10 * acc + d) s'
      | None => None
      end
  | String c s' =>
      match digit c with
      | Some d => int_digits (10 * acc + d) s'
      | None => None
      end
  end.

Definition int_unsigned (s : string) : option Z :=
  match s with
  | String c s' =>
      match digit c with
      | Some d => int_digits d s'
      | None => None
      end
  | EmptyString => None
  end.

(** [int(s)] for a string: surrounding blanks, an optional sign, decimal
    digits.  Anything else is a [ValueError]. *)
Definition int (s : string) : result Z :=
  let body :=
    match strip s with
    | String "-" s' => option_map Z.opp (int_unsigned s')
    | String "+" s' => int_unsigned s'
    | s' => int_unsigned s'
    end in
  match body with
  | Some z => Ok z
  | None => Raise (mkExn ValueError ("invalid literal for int() with base 10: " +:+ s))
  end.

(** [str(n)] for an integer *)
Definition str_int (z : Z) : string := NilZero.string_of_int (Z.to_int z).

Definition lower_char (c : ascii) : ascii :=
  let n := nat_of_ascii c in
  if ((65 <=? n) && (n <=? 90))%nat then ascii_of_nat (n + 32) else c.

(** [s.lower()] *)
Fixpoint lower (s : string) : string :=
  match s with
  | String c s' => String (lower_char c) (lower s')
  | EmptyString => EmptyString
  end.

Fixpoint startswith (p s : string) : bool :=
  match p, s with
  | EmptyString, _ => true
  | String a p', String b s' => if decide (a = b) then startswith p' s' else false
  | String _ _, EmptyString => false
  end.

(** [p in s] for strings *)
Fixpoint contains (p s : string) : bool :=
  startswith p s ||
  match s with
  | String _ s' => contains p s'
  | EmptyString => false
  end.

(** [c in s] for one character *)
Fixpoint mem (c : ascii) (s : string) : bool :=
  match s with
  | String a s' => if decide (a = c) then true else mem c s'
  | EmptyString => false
  end.

(** [s.replace(old, new)] where [old] and [new] are one character each *)
Fixpoint replace_char (old new : ascii) (s : string) : string :=
  match s with
  | String c s' =>
      String (if decide (c = old) then new else c) (replace_char old new s')
  | EmptyString => EmptyString
  end.

(** [l[:n]]: the first [n] elements, or all but the last [-n] when [n] is
    negative. *)
Definition slice_to {A} (n : Z) (l : list A) : list A :=
  if n <? 0 then take (Z.to_nat (Z.of_nat (length l) + n)) l
  else take (Z.to_nat n) l.

(** [sorted(l, key=key, reverse=True)].  The key function is called once
    on every element, in order, before anything is compared; an exception
    it raises ends the call.  The sort is stable: elements with equal keys
    keep their order. *)
Fixpoint keyed {A K} (key : A -> result K) (l : list A) : result (list (K * A)) :=
  match l with
  | [] => Ok []
  | x :: l' =>
      rbind (key x) (fun k =>
      rbind (keyed key l') (fun r => Ok ((k, x) :: r)))
  end.

Fixpoint insert_desc {A} (k : Z) (x : A) (l : list (Z * A)) : list (Z * A) :=
  match l with
  | [] => [(k, x)]
  | (k', y) :: l' =>
      if k' <=? k then (k, x) :: l else (k', y) :: insert_desc k x l'
  end.

Definition sort_desc {A} (l : list (Z * A)) : list (Z * A) :=
  fold_right (fun p acc => insert_desc (fst p) (snd p) acc) [] l.

Definition sorted_reverse {A} (key : A -> result Z) (l : list A) : result (list A) :=
  rbind (keyed key l) (fun kl => Ok (map snd (sort_desc kl))).

End Py.

(** ** [urllib.parse]: the network location of a URL

    [urlparse(url).netloc], following [urlsplit]: leading control characters
    and blanks are dropped, TAB, CR and LF are removed, a scheme is split off
    at the first colon when everything in front of it is a scheme character,
    and after a leading double slash the network location runs to the first
    slash, question mark or hash.  Unbalanced square brackets in it are a
    [ValueError]. *)
Module Urllib.

Definition c0_or_space (c : ascii) : bool := (nat_of_ascii c <=? 32)%nat.

Fixpoint lstrip_c0 (s : string) : string :=
  match s with
  | String c s' => if c0_or_space c then lstrip_c0 s' else s
  | EmptyString => EmptyString
  end.

Definition unsafe_byte (c : ascii) : bool :=
  let n := nat_of_ascii c in ((n =? 9) || (n =? 10) || (n =? 13))%nat.

Fixpoint remove_unsafe (s : string) : string :=
  match s with
  | String c s' =>
      if unsafe_byte c then remove_unsafe s' else String c (remove_unsafe s')
  | EmptyString => EmptyString
  end.

Definition isalpha (c : ascii) : bool :=
  let n := nat_of_ascii c in
  ((65 <=? n) && (n <=? 90) || (97 <=? n) && (n <=? 122))%nat.

Definition scheme_char (c : ascii) : bool :=
  let n := nat_of_ascii c in
  isalpha c || ((48 <=? n) && (n <=? 57))%nat
  || Py.mem c "+-.".

(** What follows the scheme, when the text up to the first colon is made
    of scheme characters; [None] when there is no such prefix. *)
Fixpoint after_scheme (s : string) : option string :=
  match s with
  | String ":" s' => Some s'
  | String c s' => if scheme_char c then after_scheme s' else None
  | EmptyString => None
  end.

Definition drop_scheme (url : string) : string :=
  match url with
  | String c s' =>
      if isalpha c then
        match after_scheme s' with
        | Some rest => rest
        | None => url
        end
      else url
  | EmptyString => url
  end.

(** [_splitnetloc]: up to the first of [/], [?], [#] *)
Fixpoint splitnetloc (s : string) : string :=
  match s with
  | String c s' => if Py.mem c "/?#" then EmptyString else String c (splitnetloc s')
  | EmptyString => EmptyString
  end.

Definition netloc (url : string) : result string :=
  let url := remove_unsafe (lstrip_c0 url) in
  match drop_scheme url with
  | String "/" (String "/" rest) =>
      let n := splitnetloc rest in
      if xorb (Py.mem "[" n) (Py.mem "]" n)
      then Raise (mkExn ValueError "Invalid IPv6 URL")
      else Ok n
  | _ => Ok EmptyString
  end.

(** [urljoin(base, rel)] for a relative path [rel] without dot segments:
    the last segment of the base is replaced by [rel]. *)
Fixpoint up_to_last_slash (s : string) : option string :=
  match s with
  | String c s' =>
      match up_to_last_slash s' with
      | Some r => Some (String c r)
      | None => if decide (c = "/"%char) then Some (String c EmptyString) else None
      end
  | EmptyString => None
  end.

Definition urljoin (base rel : string) : string :=
  match up_to_last_slash base with
  | Some dir => dir +:+ rel
  | None => rel
  end.

End Urllib.

(** ** [datetime]

    The standard library's [datetime] is an interface here: the two
    conversions the code calls, with the documented law that
    [fromisoformat] inverts [isoformat]. *)
Class DateTime := {
  datetime : Type;
  isoformat : datetime -> string;
  (** [datetime.fromisoformat(s)]; [None] stands for its [ValueError] *)
  fromisoformat : string -> option datetime;
  fromisoformat_isoformat : forall d, fromisoformat (isoformat d) = Some d;
  isoformat_nonempty : forall d, isoformat d <> EmptyString
}.

(** ** models/story.py *)

Module Story.
Section WithDateTime.
Context `{DT : DateTime}.

(** The dataclass fields.  [url] and [story_id] are [None] when the
    markup lacks the attribute; [time] may be [None] (see [to_dict]). *)
Record Story := mkStory {
  title : string;
  url : option string;
  points : Z;
  username : string;
  comment_count : Z;
  story_id : option string;
  time : option datetime
}.

(** [not s] for a string or [None] *)
Definition falsy (o : option string) : bool :=
  match o with
  | None | Some EmptyString => true
  | Some _ => false
  end.

(** [f"{x}"] where [x] is a string or [None] *)
Definition fmt (o : option string) : string :=
  match o with Some s => s | None => "None" end.

Definition default_url (id : option string) : string :=
  "https://news.ycombinator.com/item?id=" +:+ fmt id.

(** The [domain] property. *)
Definition domain (s : Story) : option string :=
  if falsy (url s) then None
  else
    match Urllib.netloc (fmt (url s)) with
    | Ok n => Some n
    | Raise _ => Some EmptyString
    end.

(** [__post_init__], statement by statement. *)
Definition check_title (s : Story) : result Story :=
  if decide (title s = EmptyString)
  then Raise (mkExn ValueError "Story title cannot be empty")
  else Ok s.

Definition fill_url (s : Story) : Story :=
  if falsy (url s)
  then mkStory (title s) (Some (default_url (story_id s))) (points s)
               (username s) (comment_count s) (story_id s) (time s)
  else s.

Definition clamp_points (s : Story) : Story :=
  if points s <? 0
  then mkStory (title s) (url s) 0 (username s) (comment_count s)
               (story_id s) (time s)
  else s.

Definition fill_username (s : Story) : Story :=
  if decide (username s = EmptyString)
  then mkStory (title s) (url s) (points s) "unknown" (comment_count s)
               (story_id s) (time s)
  else s.

Definition clamp_comment_count (s : Story) : Story :=
  if comment_count s <? 0
  then mkStory (title s) (url s) (points s) (username s) 0
               (story_id s) (time s)
  else s.

Definition check_story_id (s : Story) : result Story :=
  if falsy (story_id s)
  then Raise (mkExn ValueError "Story ID cannot be empty")
  else Ok s.

Definition __post_init__ (s : Story) : result Story :=
  rbind (check_title s) (fun s =>
  check_story_id
    (clamp_comment_count (fill_username (clamp_points (fill_url s))))).

(** The constructor [Story(title=..., ...)]: the generated [__init__]
    stores the arguments and runs [__post_init__]. *)
Definition new (title : string) (url : option string) (points : Z)
    (username : string) (comment_count : Z) (story_id : option string)
    (time : option datetime) : result Story :=
  __post_init__ (mkStory title url points username comment_count story_id time).

(** Values stored in the dictionaries [to_dict] builds and [from_dict]
    reads: what JSON can hold in a flat object, and [datetime] objects. *)
Inductive pyval :=
  | VNone
  | VBool (b : bool)
  | VInt (z : Z)
  | VStr (s : string)
  | VDatetime (d : datetime).

(** [bool(v)] *)
Definition truthy (v : pyval) : bool :=
  match v with
  | VNone => false
  | VBool b => b
  | VInt z => negb (z =? 0)
  | VStr s => negb (bool_decide (s = EmptyString))
  | VDatetime _ => true
  end.

Definition of_optstr (o : option string) : pyval :=
  match o with Some s => VStr s | None => VNone end.

Definition to_dict (s : Story) : gmap string pyval :=
  <["title" := VStr (title s)]>
  (<["url" := of_optstr (url s)]>
  (<["points" := VInt (points s)]>
  (<["username" := VStr (username s)]>
  (<["comment_count" := VInt (comment_count s)]>
  (<["story_id" := of_optstr (story_id s)]>
  (<["time" := match time s with
               | Some d => VStr (isoformat d)
               | None => VNone
               end]>
  (<["domain" := of_optstr (domain s)]> ∅))))))).

(** The keyword parameters of the generated [__init__]. *)
Definition fields : gset string :=
  {[ "title"; "url"; "points"; "username"; "comment_count"; "story_id"; "time" ]}.

(** Reading an argument at its annotated type.  A value of another type
    is outside this model and is reported as a [TypeError]. *)
Definition ill_typed {A} (k : string) : result A :=
  Raise (mkExn TypeError ("field outside its annotated type: " +:+ k)).

Definition arg_str (data : gmap string pyval) (k : string) : result string :=
  match data !! k with
  | Some (VStr s) => Ok s
  | _ => ill_typed k
  end.

Definition arg_optstr (data : gmap string pyval) (k : string)
    : result (option string) :=
  match data !! k with
  | Some (VStr s) => Ok (Some s)
  | Some VNone => Ok None
  | _ => ill_typed k
  end.

Definition arg_int (data : gmap string pyval) (k : string) : result Z :=
  match data !! k with
  | Some (VInt z) => Ok z
  | _ => ill_typed k
  end.

Definition arg_time (data : gmap string pyval) (k : string)
    : result (option datetime) :=
  match data !! k with
  | Some (VDatetime d) => Ok (Some d)
  | Some VNone => Ok None
  | _ => ill_typed k
  end.

(** [cls] called with the dictionary as keyword arguments: the keys must
    be exactly the parameters. *)
Definition cls (data : gmap string pyval) : result Story :=
  if decide (dom data = fields) then
    rbind (arg_str data "title") (fun title =>
    rbind (arg_optstr data "url") (fun url =>
    rbind (arg_int data "points") (fun points =>
    rbind (arg_str data "username") (fun username =>
    rbind (arg_int data "comment_count") (fun comment_count =>
    rbind (arg_optstr data "story_id") (fun story_id =>
    rbind (arg_time data "time") (fun time =>
    new title url points username comment_count story_id time)))))))
  else Raise (mkExn TypeError "__init__() got unexpected or missing keyword arguments").

(** [data['time'] = datetime.fromisoformat(data['time'])] *)
Definition parse_time (data : gmap string pyval) : result (gmap string pyval) :=
  match data !! "time" with
  | Some v =>
      if truthy v then
        match v with
        | VStr t =>
            match fromisoformat t with
            | Some d => Ok (<["time" := VDatetime d]> data)
            | None => Raise (mkExn ValueError ("Invalid isoformat string: " +:+ t))
            end
        | _ => Raise (mkExn TypeError "fromisoformat: argument must be str")
        end
      else Ok data
  | None => Ok data
  end.

(** [from_dict]: the comprehension that keeps every key but ['domain'] is
    the deletion of that key. *)
Definition from_dict (data : gmap string pyval) : result Story :=
  let data := delete "domain" data in
  rbind (parse_time data) cls.

End WithDateTime.
End Story.

(** ** core/storage.py *)

Module FileStorage.
Section WithDateTime.
Context `{DT : DateTime}.
Import Story.

(** The file at [stories_path]: absent, holding a JSON array of flat
    objects, or holding anything else. *)
Inductive file :=
  | Missing
  | Document (objs : list (gmap string pyval))
  | Garbled.

Definition storage_error {A} (what : string) (e : exn) : result A :=
  Raise (mkExn StorageError (what +:+ str_exn e)).

(** [json.dump] accepts the values JSON has; a [datetime] is not
    serializable. *)
Definition serializable (v : pyval) : bool :=
  match v with VDatetime _ => false | _ => true end.

Definition json_dump (objs : list (gmap string pyval)) : result file :=
  if forallb (fun o => bool_decide (map_Forall (fun _ v => serializable v = true) o)) objs
  then Ok (Document objs)
  else Raise (mkExn TypeError "Object of type datetime is not JSON serializable").

(** [save_stories]: opening the file for writing truncates it, so a
    failed dump leaves it garbled. *)
Definition save_stories (stories : list Story) (f : file) : result unit * file :=
  let stories_data := map to_dict stories in
  match json_dump stories_data with
  | Ok f' => (Ok tt, f')
  | Raise e => (storage_error "Failed to save stories: " e, Garbled)
  end.

(** [[Story.from_dict(data) for data in stories_data]] *)
Fixpoint from_dicts (objs : list (gmap string pyval)) : result (list Story) :=
  match objs with
  | [] => Ok []
  | o :: rest =>
      rbind (from_dict o) (fun s =>
      rbind (from_dicts rest) (fun l => Ok (s :: l)))
  end.

Definition load_stories (f : file) : result (list Story) :=
  match f with
  | Missing => Ok []
  | Garbled =>
      storage_error "Failed to load stories: "
        (mkExn ValueError "Expecting an array of objects")
  | Document objs =>
      match from_dicts objs with
      | Ok l => Ok l
      | Raise e => storage_error "Failed to load stories: " e
      end
  end.

(** [get_story_by_id] *)
Definition get_story_by_id (id : string) (f : file) : result (option Story) :=
  match load_stories f with
  | Ok l => Ok (List.find (fun s => bool_decide (fmt (story_id s) = id)) l)
  | Raise e => storage_error "Failed to get story by ID: " e
  end.

(** [clear_storage] *)
Definition clear_storage (f : file) : result unit * file := (Ok tt, Missing).

(** [get_story_count] *)
Definition get_story_count (f : file) : result Z :=
  match load_stories f with
  | Ok stories => Ok (Z.of_nat (length stories))
  | Raise e => storage_error "Failed to get story count: " e
  end.


(** [x.timestamp] for a story [x]: the dataclass declares the seven fields
    above, the property [domain] and the two conversions, and nothing
    called [timestamp]. *)
Definition timestamp (x : Story) : result Z :=
  Raise (mkExn AttributeError "'Story' object has no attribute 'timestamp'").

(** [get_latest_stories] *)
Definition get_latest_stories (limit : Z) (f : file) : result (list Story) :=
  let body :=
    rbind (load_stories f) (fun stories =>
    rbind (Py.sorted_reverse timestamp stories) (fun sorted_stories =>
    Ok (Py.slice_to limit sorted_stories))) in
  match body with
  | Ok l => Ok l
  | Raise e => storage_error "Failed to get latest stories: " e
  end.

End WithDateTime.
End FileStorage.

(** ** utils/utils.py *)

Module Utils.

(** The characters of the literal [invalid_chars]: less-than, greater-than,
    colon, double quote, slash, backslash, bar, question mark, star. *)
Definition invalid_chars : list ascii :=
  [ "<"; ">"; ":"; "034"; "/"; "\"; "|"; "?"; "*" ]%char.

(** [clean_filename]: one [replace] per invalid character, in order. *)
Definition clean_filename (filename : string) : string :=
  fold_left (fun filename char => Py.replace_char char "_" filename)
            invalid_chars filename.

End Utils.

(** ** config/settings.py *)

(** Times are counted in ticks of one millisecond: [time.time()], the
    rate limit and every sleep are integers of that unit. *)
Definition second : Z := 1000.

Record ScraperConfig := mkConfig {
  base_url : string;
  rate_limit : Z;
  timeout : Z;
  max_retries : Z;
  user_agents : list string
}.

Definition default_config : ScraperConfig :=
  {| base_url := "https://news.ycombinator.com/";
     rate_limit := 1 * second;
     timeout := 30 * second;
     max_retries := 3;
     user_agents :=
       [ "Mozilla/5.0 (Windows NT 10.0; Win64; x64) AppleWebKit/537.36 (KHTML, like Gecko) Chrome/91.0.4472.124 Safari/537.36";
         "Mozilla/5.0 (Macintosh; Intel Mac OS X 10_15_7) AppleWebKit/537.36 (KHTML, like Gecko) Chrome/91.0.4472.124 Safari/537.36";
         "Mozilla/5.0 (Windows NT 10.0; Win64; x64; rv:89.0) Gecko/20100101 Firefox/89.0" ] |}.

(** ** The markup of a listing page, as the selectors see it *)

(** The [.subtext] cell of the row after an item. *)
Record Subtext := mkSubtext {
  score_text : option string;          (* text of [.score], if present *)
  hnuser_text : option string;         (* text of [.hnuser], if present *)
  age_title : option (option string);  (* [.age] and its [title] attribute *)
  link_texts : list string             (* texts of the [a] elements *)
}.

(** One [tr.athing] row. *)
Record Item := mkItem {
  title_anchor : option (string * option string);  (* [.titleline > a]: text, [href] *)
  id_attr : option string;                         (* the [id] attribute *)
  next_row : option (option Subtext)               (* next sibling [tr], its [.subtext] *)
}.

(** ** The world the scrapers run in *)

Inductive Outcome :=
  | Response (status : Z) (text : string)
  | Failure (msg : string).      (* connection error or timeout *)

Inductive Level := DEBUG | INFO | WARNING | ERROR.

Record LogRecord := mkLog { log_level : Level; log_msg : string }.

(** What [_calculate_stats] returns. *)
Record Stats := mkStats { avg_points : Q; avg_comments : Q }.

Section World.
Context `{DT : DateTime}.

(** The environment: the answers of the site, the durations of requests,
    the overshoot of sleeps, the random draws, the local calendar, and the
    HTML parser ([select_athing text] stands for the rows
    [BeautifulSoup(text, 'html.parser').select('tr.athing')]).  Requests,
    sleeps and draws are numbered in the order they happen. *)
Record Env := mkEnv {
  respond : nat -> string -> Outcome;
  latency : nat -> nat;
  oversleep : nat -> nat;
  draw : nat -> nat;
  localtime : Z -> datetime;
  select_athing : string -> list Item
}.

Record World := mkWorld {
  clock : Z;                      (* what [time.time()] returns *)
  requests : list (Z * string);   (* start time and URL of each GET, latest first *)
  sleeps : nat;                   (* sleeps so far *)
  draws : nat;                    (* random draws so far *)
  log : list LogRecord;           (* logging calls, latest first *)
  progress : list (Z * Stats);    (* progress callback calls, latest first *)
  delivered : list (list Story.Story)
                                  (* lists handed to a completion callback *)
}.

(** Computations over the object [self] and the world, which may raise.
    The state reached is kept when an exception is raised. *)
Definition M (Self A : Type) : Type := Self * World -> result A * (Self * World).

Definition ret {Self A} (a : A) : M Self A := fun st => (Ok a, st).

Definition bind {Self A B} (m : M Self A) (k : A -> M Self B) : M Self B :=
  fun st =>
    match m st with
    | (Ok a, st') => k a st'
    | (Raise e, st') => (Raise e, st')
    end.

Definition raise {Self A} (e : exn) : M Self A := fun st => (Raise e, st).

Definition lift {Self A} (r : result A) : M Self A := fun st => (r, st).

(** [try: m  except Exception as e: h e] *)
Definition try_except {Self A} (m : M Self A) (h : exn -> M Self A) : M Self A :=
  fun st =>
    match m st with
    | (Ok a, st') => (Ok a, st')
    | (Raise e, st') => h e st'
    end.

(** [try: m  except (c1, c2, ...) as e: h e]; other exceptions
    propagate. *)
Definition try_except_class {Self A} (cs : list exn_class) (m : M Self A)
    (h : exn -> M Self A) : M Self A :=
  try_except m (fun e => if bool_decide (exn_kind e ∈ cs) then h e else raise e).

(** [try: m  finally: f] *)
Definition try_finally {Self A} (m : M Self A) (f : M Self unit) : M Self A :=
  fun st =>
    match m st with
    | (r, st') =>
        match f st' with
        | (Ok _, st'') => (r, st'')
        | (Raise e, st'') => (Raise e, st'')
        end
    end.

Definition get_self {Self} : M Self Self := fun st => (Ok (fst st), st).
Definition put_self {Self} (s : Self) : M Self unit := fun st => (Ok tt, (s, snd st)).
Definition get_world {Self} : M Self World := fun st => (Ok (snd st), st).
Definition put_world {Self} (w : World) : M Self unit := fun st => (Ok tt, (fst st, w)).

End World.

Notation "'let*' x ':=' m 'in' k" := (bind m (fun x => k))
  (at level 10, x pattern, m at level 100, k at level 200).
Notation "'do*' m 'in' k" := (bind m (fun _ => k))
  (at level 10, m at level 100, k at level 200).

Section Effects.
Context `{DT : DateTime}.
Variable E : Env.
Context {Self : Type}.

(** [time.time()] *)
Definition time_time : M Self Z :=
  let* w := get_world in ret (clock w).

(** [datetime.now()] *)
Definition datetime_now : M Self datetime :=
  let* w := get_world in ret (localtime E (clock w)).

Definition pass_time (d : Z) : M Self unit :=
  let* w := get_world in
  put_world (mkWorld (clock w + d + Z.of_nat (oversleep E (sleeps w)))
                     (requests w) (S (sleeps w)) (draws w) (log w) (progress w) (delivered w)).

(** [time.sleep(d)]: at least [d]; a negative [d] is a [ValueError]. *)
Definition time_sleep (d : Z) : M Self unit :=
  if d <? 0 then raise (mkExn ValueError "sleep length must be non-negative")
  else pass_time d.

(** [await asyncio.sleep(d)]: at least [d]; returns at once for [d <= 0]. *)
Definition asyncio_sleep (d : Z) : M Self unit :=
  if d <=? 0 then ret tt else pass_time d.

(** One HTTP GET: it is recorded with its start time, the environment
    answers, and the clock advances by the time the exchange took. *)
Definition http_get (url : string) : M Self (Z * string) :=
  let* w := get_world in
  let k := length (requests w) in
  do* put_world (mkWorld (clock w + Z.of_nat (latency E k))
                     ((clock w, url) :: requests w)
                     (sleeps w) (draws w) (log w) (progress w) (delivered w)) in
  match respond E k url with
  | Response status text => ret (status, text)
  | Failure msg => raise (mkExn RequestException msg)
  end.

(** [response.raise_for_status()] *)
Definition raise_for_status (r : Z * string) : M Self unit :=
  if (400 <=? fst r) && (fst r <? 600)
  then raise (mkExn RequestException (Py.str_int (fst r) +:+ " Error"))
  else ret tt.

(** [random.choice(l)] *)
Definition random_choice (l : list string) : M Self string :=
  match l with
  | [] => raise (mkExn IndexError "Cannot choose from an empty sequence")
  | x :: _ =>
      let* w := get_world in
      do* put_world (mkWorld (clock w) (requests w) (sleeps w) (S (draws w))
                         (log w) (progress w) (delivered w)) in
      ret (nth (draw E (draws w) mod length l)%nat l x)
  end.

(** A call of a logging method. *)
Definition logging (lvl : Level) (msg : string) : M Self unit :=
  let* w := get_world in
  put_world (mkWorld (clock w) (requests w) (sleeps w) (draws w)
                     (mkLog lvl msg :: log w) (progress w) (delivered w)).

(** A call of the progress callback. *)
Definition progress_callback (n : Z) (stats : Stats) : M Self unit :=
  let* w := get_world in
  put_world (mkWorld (clock w) (requests w) (sleeps w) (draws w)
                     (log w) ((n, stats) :: progress w) (delivered w)).

(** A completion callback receives the scraped list. *)
Definition deliver (stories : list Story.Story) : M Self unit :=
  let* w := get_world in
  put_world (mkWorld (clock w) (requests w) (sleeps w) (draws w)
                     (log w) (progress w) (stories :: delivered w)).

(** [range(a, b)] *)
Definition range (a b : Z) : list Z :=
  map (fun i => a + Z.of_nat i) (seq 0 (Z.to_nat (b - a))).

End Effects.

(** ** Parsing one listing row

    [_parse_item] and the item loop of [scrape_page] are written twice in
    the sources, with the same text in [scraper.py] and [async_scraper.py];
    they are modelled once. *)
Section Parsing.
Context `{DT : DateTime}.
Variable E : Env.
Context {Self : Type}.
Import Story.

(** [points = int(score_elem.text.split()[0])], or 0 without [.score] *)
Definition parse_points (st : Subtext) : M Self Z :=
  match score_text st with
  | Some t => lift (rbind (Py.first (Py.split t)) Py.int)
  | None => ret 0
  end.

Definition parse_username (st : Subtext) : string :=
  match hnuser_text st with
  | Some t => t
  | None => "unknown"
  end.

(** The posting time: now, unless [.age] carries a non-empty [title]
    whose first token is an ISO timestamp. *)
Definition parse_post_time (st : Subtext) : M Self datetime :=
  let* post_time := datetime_now E in
  match age_title st with
  | Some attr =>
      let time_str := default EmptyString attr in
      if decide (time_str = EmptyString) then ret post_time
      else
        try_except_class [ValueError; IndexError]
          (let* iso_time := lift (Py.first (Py.split time_str)) in
           match fromisoformat iso_time with
           | Some d => ret d
           | None =>
               raise (mkExn ValueError ("Invalid isoformat string: " +:+ iso_time))
           end)
          (fun e =>
             do* logging WARNING ("Failed to parse time string: " +:+ time_str) in
             ret post_time)
  | None => ret post_time
  end.

(** The first link whose lower-cased text contains "comment". *)
Definition find_comment_elem (st : Subtext) : option string :=
  List.find (fun t => Py.contains "comment" (Py.lower t)) (link_texts st).

Definition parse_comment_count (st : Subtext) : M Self Z :=
  match find_comment_elem st with
  | Some t =>
      try_except_class [ValueError; IndexError]
        (lift (rbind (Py.first (Py.split t)) Py.int))
        (fun e => ret 0)
  | None => ret 0
  end.

Definition _parse_item_body (item : Item) : M Self (option Story) :=
  match title_anchor item with
  | None => ret None
  | Some (text, href) =>
      let title := Py.strip text in
      let url := href in
      let story_id := id_attr item in
      match next_row item with
      | None =>
          raise (mkExn AttributeError
                   "'NoneType' object has no attribute 'select_one'")
      | Some None => ret None
      | Some (Some subtext) =>
          let* points := parse_points subtext in
          let username := parse_username subtext in
          let* post_time := parse_post_time subtext in
          let* comment_count := parse_comment_count subtext in
          let* story :=
            lift (new title url points username comment_count story_id
                      (Some post_time)) in
          ret (Some story)
      end
  end.

Definition _parse_item (item : Item) : M Self (option Story) :=
  try_except (_parse_item_body item)
    (fun e =>
       do* logging ERROR ("Failed to parse story item: " +:+ str_exn e) in
       ret None).

Definition failed_item_msg (item : Item) : string :=
  "Failed to parse story item with ID: " +:+ default "unknown" (id_attr item).

(** The loop [for item in story_items] of [scrape_page]; [stories] is the
    list built so far. *)
Fixpoint parse_items (story_items : list Item) (stories : list Story)
    : M Self (list Story) :=
  match story_items with
  | [] => ret stories
  | item :: rest =>
      let* stories :=
        try_except
          (let* story := _parse_item item in
           match story with
           | Some s =>
               do* logging DEBUG ("Successfully parsed story: " +:+ title s) in
               ret (stories ++ [s])%list
           | None =>
               do* logging WARNING (failed_item_msg item) in
               ret stories
           end)
          (fun e =>
             do* logging ERROR ("Error parsing story item: " +:+ str_exn e) in
             ret stories) in
      parse_items rest stories
  end.

(** [_calculate_stats] *)
Definition _calculate_stats (stories : list Story) : Stats :=
  match stories with
  | [] => mkStats 0%Q 0%Q
  | _ =>
      let total_points := fold_right Z.add 0 (map points stories) in
      let total_comments := fold_right Z.add 0 (map comment_count stories) in
      let count := Z.of_nat (length stories) in
      mkStats (inject_Z total_points / inject_Z count)%Q
              (inject_Z total_comments / inject_Z count)%Q
  end.

End Parsing.

(** ** core/scraper.py: the sequential scraper *)

Module HackerNewsScraper.
Section WithEnv.
Context `{DT : DateTime}.
Variable E : Env.
Import Story.

Record Scraper := mkScraper {
  config : ScraperConfig;
  session_user_agent : option string;  (* the session's User-Agent header *)
  last_request_time : Z;
  robot_parser : option string;        (* the rules text parsed, if any *)
  _scraping : bool;
  _scrape_thread : bool;               (* a thread object has been stored *)
  _stop_flag : bool
}.

Definition set_last_request_time (t : Z) : M Scraper unit :=
  let* s := get_self in
  put_self (mkScraper (config s) (session_user_agent s) t (robot_parser s)
                      (_scraping s) (_scrape_thread s) (_stop_flag s)).

Definition set_robot_parser (rules : string) : M Scraper unit :=
  let* s := get_self in
  put_self (mkScraper (config s) (session_user_agent s) (last_request_time s)
                      (Some rules) (_scraping s) (_scrape_thread s) (_stop_flag s)).

Definition set_user_agent (ua : string) : M Scraper unit :=
  let* s := get_self in
  put_self (mkScraper (config s) (Some ua) (last_request_time s)
                      (robot_parser s) (_scraping s) (_scrape_thread s)
                      (_stop_flag s)).

Definition set_scraping (b : bool) : M Scraper unit :=
  let* s := get_self in
  put_self (mkScraper (config s) (session_user_agent s) (last_request_time s)
                      (robot_parser s) b (_scrape_thread s) (_stop_flag s)).

Definition set_scrape_thread (b : bool) : M Scraper unit :=
  let* s := get_self in
  put_self (mkScraper (config s) (session_user_agent s) (last_request_time s)
                      (robot_parser s) (_scraping s) b (_stop_flag s)).

Definition set_stop_flag (b : bool) : M Scraper unit :=
  let* s := get_self in
  put_self (mkScraper (config s) (session_user_agent s) (last_request_time s)
                      (robot_parser s) (_scraping s) (_scrape_thread s) b).

(** [_load_robots_txt]: one GET on the session, outside the rate limiter;
    any failure becomes a [RobotsTxtError]. *)
Definition _load_robots_txt : M Scraper unit :=
  try_except
    (let* s := get_self in
     let robots_url := Urllib.urljoin (base_url (config s)) "robots.txt" in
     let* response := http_get E robots_url in
     set_robot_parser (snd response))
    (fun e =>
       raise (mkExn RobotsTxtError ("Failed to load robots.txt: " +:+ str_exn e))).

Definition _rotate_user_agent : M Scraper unit :=
  let* s := get_self in
  let* ua := random_choice E (user_agents (config s)) in
  set_user_agent ua.

Definition _respect_rate_limit : M Scraper unit :=
  let* s := get_self in
  let* current_time := time_time in
  let time_since_last := current_time - last_request_time s in
  do* (if time_since_last <? rate_limit (config s)
       then time_sleep E (rate_limit (config s) - time_since_last)
       else ret tt) in
  let* now := time_time in
  set_last_request_time now.

Definition attempt_msg (attempt max : Z) : string :=
  "(attempt " +:+ Py.str_int (attempt + 1) +:+ "/" +:+ Py.str_int max +:+ ")".

(** The loop of [_make_request] over the remaining attempts.  Leaving the
    loop without a [return] yields [None]. *)
Fixpoint _make_request_loop (url : string) (attempts : list Z)
    : M Scraper (option (Z * string)) :=
  match attempts with
  | [] => ret None
  | attempt :: rest =>
      let* s := get_self in
      let* returned :=
        try_except_class [RequestException]
          (do* _respect_rate_limit in
           do* logging DEBUG ("Making request to " +:+ url +:+ " "
                              +:+ attempt_msg attempt (max_retries (config s))) in
           let* response := http_get E url in
           do* raise_for_status response in
           do* logging DEBUG ("Request successful: " +:+ Py.str_int (fst response)) in
           ret (Some response))
          (fun e =>
             do* logging WARNING ("Request failed (attempt "
                                  +:+ Py.str_int (attempt + 1) +:+ "): "
                                  +:+ str_exn e) in
             if decide (attempt = max_retries (config s) - 1)
             then raise (mkExn ScrapingError
                           ("Failed to fetch " +:+ url +:+ ": " +:+ str_exn e))
             else
               do* time_sleep E (2 ^ attempt * second) in
               ret None) in
      match returned with
      | Some response => ret (Some response)
      | None => _make_request_loop url rest
      end
  end.

Definition _make_request (url : string) : M Scraper (option (Z * string)) :=
  let* s := get_self in
  _make_request_loop url (range 0 (max_retries (config s))).

Definition page_url (cfg : ScraperConfig) (page_num : Z) : string :=
  base_url cfg +:+ "news?p=" +:+ Py.str_int page_num.

Definition scrape_page (page_num : Z) : M Scraper (list Story) :=
  try_except
    (let* s := get_self in
     let url := page_url (config s) page_num in
     do* logging INFO ("Scraping page " +:+ Py.str_int page_num
                       +:+ " from " +:+ url) in
     let* response := _make_request url in
     match response with
     | None =>
         raise (mkExn AttributeError "'NoneType' object has no attribute 'text'")
     | Some (_, text) =>
         let story_items := select_athing E text in
         do* logging INFO ("Found " +:+ Py.str_int (Z.of_nat (length story_items))
                           +:+ " story items on page " +:+ Py.str_int page_num) in
         let* stories := parse_items E story_items [] in
         do* logging INFO ("Successfully scraped "
                           +:+ Py.str_int (Z.of_nat (length stories))
                           +:+ " stories from page " +:+ Py.str_int page_num) in
         ret stories
     end)
    (fun e =>
       let msg := "Failed to scrape page " +:+ Py.str_int page_num
                  +:+ ": " +:+ str_exn e in
       do* logging ERROR msg in
       raise (mkExn ScrapingError msg)).

(** The loop of [scrape_stories] over the remaining pages; [cb] tells
    whether a progress callback was given. *)
Fixpoint scrape_loop (num_pages : Z) (cb : bool) (pages : list Z)
    (stories : list Story) (stories_scraped : Z) : M Scraper (list Story) :=
  match pages with
  | [] => ret stories
  | page :: rest =>
      let* s := get_self in
      if _stop_flag s then ret stories
      else
        let* page_stories := scrape_page page in
        let stories := (stories ++ page_stories)%list in
        let stories_scraped := stories_scraped + Z.of_nat (length page_stories) in
        do* (if cb
             then progress_callback stories_scraped (_calculate_stats stories)
             else ret tt) in
        do* (if page <? num_pages
             then time_sleep E (rate_limit (config s))
             else ret tt) in
        scrape_loop num_pages cb rest stories stories_scraped
  end.

Definition scrape_stories (num_pages : Z) (cb : bool) : M Scraper (list Story) :=
  try_except
    (scrape_loop num_pages cb (range 1 (num_pages + 1)) [] 0)
    (fun e =>
       let msg := "Failed to scrape stories: " +:+ str_exn e in
       do* logging ERROR msg in
       raise (mkExn ScrapingError msg)).

(** [start_scraping]: the thread is modelled as running to completion as
    soon as it is started.  An exception inside the thread ends the thread
    and does not reach the caller. *)
Definition start_scraping (callback : bool) (num_pages : Z) : M Scraper unit :=
  let* s := get_self in
  if _scraping s
  then raise (mkExn ScrapingError "Scraping is already in progress")
  else
    do* set_scraping true in
    do* set_scrape_thread true in
    try_except
      (try_finally
         (let* stories := scrape_stories num_pages false in
          if callback then deliver stories else ret tt)
         (set_scraping false))
      (fun e => ret tt).

(** [stop_scraping]; joining a finished thread does nothing. *)
Definition stop_scraping : M Scraper unit :=
  do* set_scraping false in
  set_stop_flag true.

(** [__init__]; [_setup_logging] only configures the logger. *)
Definition __init__ (config : option ScraperConfig) (w : World)
    : result Scraper * World :=
  let self :=
    mkScraper (default default_config config) None 0 None false false false in
  match (do* _load_robots_txt in _rotate_user_agent) (self, w) with
  | (Ok _, (self, w)) => (Ok self, w)
  | (Raise e, (_, w)) => (Raise e, w)
  end.

End WithEnv.
End HackerNewsScraper.

(** ** core/async_scraper.py: the asynchronous scraper *)

Module AsyncHackerNewsScraper.
Section WithEnv.
Context `{DT : DateTime}.
Variable E : Env.
Import Story.

(** [self.session]: [None], the session of the run in progress, or the
    closed session of an earlier run. *)
Inductive Session := NoSession | OpenSession | ClosedSession.

Record Scraper := mkScraper {
  config : ScraperConfig;
  session : Session;
  last_request_time : Z;
  robot_parser : option string;        (* the rules text parsed, if any *)
  _scraping : bool;
  _stop_flag : bool
}.

(** Calling a function declared [async def] builds a coroutine object and
    runs nothing of its body; the body runs when the object is awaited. *)
Definition coroutine (A : Type) : Type := M Scraper A.

Definition await {A} (c : coroutine A) : M Scraper A := c.

(** An expression statement [f()] in a function that is not [async]: the
    coroutine object is built and dropped. *)
Definition not_awaited {A} (c : coroutine A) : M Scraper unit := ret tt.

Definition set_session (x : Session) : M Scraper unit :=
  let* s := get_self in
  put_self (mkScraper (config s) x (last_request_time s) (robot_parser s)
                      (_scraping s) (_stop_flag s)).

Definition set_last_request_time (t : Z) : M Scraper unit :=
  let* s := get_self in
  put_self (mkScraper (config s) (session s) t (robot_parser s)
                      (_scraping s) (_stop_flag s)).

Definition set_robot_parser (rules : string) : M Scraper unit :=
  let* s := get_self in
  put_self (mkScraper (config s) (session s) (last_request_time s)
                      (Some rules) (_scraping s) (_stop_flag s)).

Definition set_scraping (b : bool) : M Scraper unit :=
  let* s := get_self in
  put_self (mkScraper (config s) (session s) (last_request_time s)
                      (robot_parser s) b (_stop_flag s)).

Definition set_stop_flag (b : bool) : M Scraper unit :=
  let* s := get_self in
  put_self (mkScraper (config s) (session s) (last_request_time s)
                      (robot_parser s) (_scraping s) b).

(** [async def _load_robots_txt]: a GET on a session of its own; a
    failure is logged as a warning. *)
Definition _load_robots_txt : coroutine unit :=
  try_except
    (let* s := get_self in
     let robots_url := Urllib.urljoin (base_url (config s)) "robots.txt" in
     let* response := http_get E robots_url in
     set_robot_parser (snd response))
    (fun e => logging WARNING ("Failed to load robots.txt: " +:+ str_exn e)).

Definition _respect_rate_limit : coroutine unit :=
  let* s := get_self in
  let* current_time := time_time in
  let time_since_last := current_time - last_request_time s in
  do* (if time_since_last <? rate_limit (config s)
       then asyncio_sleep E (rate_limit (config s) - time_since_last)
       else ret tt) in
  let* now := time_time in
  set_last_request_time now.

(** [self.session.get(url, ...)] *)
Definition session_get (url : string) : M Scraper (Z * string) :=
  let* s := get_self in
  match session s with
  | NoSession =>
      raise (mkExn AttributeError "'NoneType' object has no attribute 'get'")
  | ClosedSession => raise (mkExn RuntimeError "Session is closed")
  | OpenSession => http_get E url
  end.

Fixpoint _make_request_loop (url : string) (attempts : list Z)
    : M Scraper (option string) :=
  match attempts with
  | [] => ret None
  | attempt :: rest =>
      let* s := get_self in
      let* returned :=
        try_except
          (do* await _respect_rate_limit in
           let* user_agent := random_choice E (user_agents (config s)) in
           let* response := session_get url in
           do* raise_for_status response in
           ret (Some (snd response)))
          (fun e =>
             if decide (attempt = max_retries (config s) - 1)
             then raise (mkExn ScraperError
                           ("Failed to fetch " +:+ url +:+ ": " +:+ str_exn e))
             else
               do* asyncio_sleep E (2 ^ attempt * second) in
               ret None) in
      match returned with
      | Some html => ret (Some html)
      | None => _make_request_loop url rest
      end
  end.

Definition _make_request (url : string) : coroutine (option string) :=
  let* s := get_self in
  _make_request_loop url (range 0 (max_retries (config s))).

Definition page_url (cfg : ScraperConfig) (page_num : Z) : string :=
  base_url cfg +:+ "news?p=" +:+ Py.str_int page_num.

Definition scrape_page (page_num : Z) : coroutine (list Story) :=
  try_except
    (let* s := get_self in
     let url := page_url (config s) page_num in
     do* logging INFO ("Scraping page " +:+ Py.str_int page_num
                       +:+ " from " +:+ url) in
     let* html := await (_make_request url) in
     match html with
     | None =>
         raise (mkExn TypeError "object of type 'NoneType' has no len()")
     | Some text =>
         let story_items := select_athing E text in
         do* logging INFO ("Found " +:+ Py.str_int (Z.of_nat (length story_items))
                           +:+ " story items on page " +:+ Py.str_int page_num) in
         let* stories := parse_items E story_items [] in
         do* logging INFO ("Successfully scraped "
                           +:+ Py.str_int (Z.of_nat (length stories))
                           +:+ " stories from page " +:+ Py.str_int page_num) in
         ret stories
     end)
    (fun e =>
       do* logging ERROR ("Failed to scrape page " +:+ Py.str_int page_num
                          +:+ ": " +:+ str_exn e) in
       ret []).

Fixpoint scrape_loop (num_pages : Z) (cb : bool) (pages : list Z)
    (stories : list Story) (stories_scraped : Z) : M Scraper (list Story) :=
  match pages with
  | [] => ret stories
  | page :: rest =>
      let* s := get_self in
      if _stop_flag s then ret stories
      else
        let* page_stories := await (scrape_page page) in
        let stories := (stories ++ page_stories)%list in
        let stories_scraped := stories_scraped + Z.of_nat (length page_stories) in
        do* (if cb
             then progress_callback stories_scraped (_calculate_stats stories)
             else ret tt) in
        do* (if page <? num_pages
             then asyncio_sleep E (rate_limit (config s))
             else ret tt) in
        scrape_loop num_pages cb rest stories stories_scraped
  end.

(** [async with aiohttp.ClientSession() as session: self.session = session;
    body]: the session is closed however the body ends. *)
Definition with_client_session {A} (body : M Scraper A) : M Scraper A :=
  do* set_session OpenSession in
  try_finally body (set_session ClosedSession).

Definition scrape_stories (num_pages : Z) (cb : bool) : coroutine (list Story) :=
  try_except
    (with_client_session
       (let* stories :=
          scrape_loop num_pages cb (range 1 (num_pages + 1)) [] 0 in
        do* logging INFO ("Successfully scraped "
                          +:+ Py.str_int (Z.of_nat (length stories))
                          +:+ " stories total") in
        ret stories))
    (fun e =>
       let msg := "Failed to scrape stories: " +:+ str_exn e in
       do* logging ERROR msg in
       raise (mkExn ScraperError msg)).

Definition start_scraping (callback : bool) (num_pages : Z) : coroutine unit :=
  let* s := get_self in
  if _scraping s
  then raise (mkExn ScraperError "Scraping is already in progress")
  else
    do* set_scraping true in
    try_finally
      (let* stories := await (scrape_stories num_pages false) in
       if callback then deliver stories else ret tt)
      (set_scraping false).

Definition stop_scraping : M Scraper unit :=
  do* set_stop_flag true in
  set_scraping false.

(** [__init__]: a plain function, so the call [self._load_robots_txt()]
    is not awaited. *)
Definition __init__ (config : option ScraperConfig) (w : World)
    : result Scraper * World :=
  let self :=
    mkScraper (default default_config config) NoSession 0 None true false in
  match not_awaited _load_robots_txt (self, w) with
  | (Ok _, (self, w)) => (Ok self, w)
  | (Raise e, (_, w)) => (Raise e, w)
  end.

End WithEnv.
End AsyncHackerNewsScraper.

(** ** main.py: scraping and saving *)

Module Main.
Section WithEnv.
Context `{DT : DateTime}.
Variable E : Env.
Import Story.








End WithEnv.
End Main.

(** ** A concrete [datetime]: naive timestamps with a resolution of one second

    Used to run the model on concrete inputs.  [isoformat] prints
    [YYYY-MM-DDTHH:MM:SS]; [fromisoformat] reads that form back. *)

Module NaiveDateTime.

Record civil := mkCivil {
  year : N; month : N; day : N;
  hour : N; minute : N; sec : N
}.

Local Open Scope N_scope.

Definition is_leap (y : N) : bool :=
  (y mod 4 =? 0) && negb (y mod 100 =? 0) || (y mod 400 =? 0).

Definition days_in_month (y m : N) : N :=
  if m =? 2 then (if is_leap y then 29 else 28)
  else if (m =? 4) || (m =? 6) || (m =? 9) || (m =? 11) then 30
  else 31.

Definition valid (c : civil) : bool :=
  (1 <=? year c) && (year c <=? 9999)
  && (1 <=? month c) && (month c <=? 12)
  && (1 <=? day c) && (day c <=? days_in_month (year c) (month c))
  && (hour c <? 24) && (minute c <? 60) && (sec c <? 60).

Definition digit_char (n : N) : ascii := ascii_of_N (48 + n).

Definition digit_val (c : ascii) : option N :=
  let n := N_of_ascii c in
  if (48 <=? n) && (n <=? 57) then Some (n - 48) else None.

Definition pad2 (n : N) (rest : string) : string :=
  String (digit_char (n / 10 mod 10)) (String (digit_char (n mod 10)) rest).

Definition pad4 (n : N) (rest : string) : string :=
  String (digit_char (n / 1000 mod 10))
    (String (digit_char (n / 100 mod 10)) (pad2 n rest)).

Definition print (c : civil) : string :=
  pad4 (year c) (String "-" (pad2 (month c) (String "-" (pad2 (day c)
    (String "T" (pad2 (hour c) (String ":" (pad2 (minute c)
      (String ":" (pad2 (sec c) EmptyString)))))))))).

Definition take2 (s : string) : option (N * string) :=
  match s with
  | String a (String b rest) =>
      match digit_val a, digit_val b with
      | Some x, Some y => Some (10 * x + y, rest)
      | _, _ => None
      end
  | _ => None
  end.

Definition take4 (s : string) : option (N * string) :=
  match take2 s with
  | Some (hi, rest) =>
      match take2 rest with
      | Some (lo, rest) => Some (100 * hi + lo, rest)
      | None => None
      end
  | None => None
  end.

Definition expect (c : ascii) (s : string) : option string :=
  match s with
  | String a rest => if decide (a = c) then Some rest else None
  | EmptyString => None
  end.

Definition read (s : string) : option civil :=
  '(y, s) ← take4 s; s ← expect "-" s;
  '(m, s) ← take2 s; s ← expect "-" s;
  '(d, s) ← take2 s; s ← expect "T" s;
  '(h, s) ← take2 s; s ← expect ":" s;
  '(i, s) ← take2 s; s ← expect ":" s;
  '(x, s) ← take2 s;
  match s with
  | EmptyString => Some (mkCivil y m d h i x)
  | _ => None
  end.

(** A [datetime] object always denotes a valid calendar time. *)
Definition t : Type := { c : civil | Is_true (valid c) }.

Definition isoformat (d : t) : string := print (proj1_sig d).

Definition fromisoformat (s : string) : option t :=
  match read s with
  | Some c =>
      match decide (Is_true (valid c)) with
      | left H => Some (exist _ c H)
      | right _ => None
      end
  | None => None
  end.

Lemma digit_val_char n : n < 10 -> digit_val (digit_char n) = Some n.
Proof.
  intros H. destruct n as [|p]; [reflexivity|].
  do 4 (try destruct p as [p|p|]; try reflexivity; try lia).
Qed.

Lemma take2_pad2 n rest : n < 100 -> take2 (pad2 n rest) = Some (n, rest).
Proof.
  intros Hn. unfold take2, pad2.
  rewrite !digit_val_char by (apply N.mod_upper_bound; lia).
  do 2 f_equal.
  rewrite (N.mod_small (n / 10)) by (apply N.Div0.div_lt_upper_bound; lia).
  symmetry. apply N.div_mod. lia.
Qed.

Lemma pad2_mod100 n rest : pad2 n rest = pad2 (n mod 100) rest.
Proof.
  unfold pad2. f_equal; [f_equal | do 2 f_equal].
  - change 100 with (10 * 10). rewrite N.Div0.mod_mul_r.
    rewrite (N.mul_comm 10 (n / 10 mod 10)), N.div_add by lia.
    rewrite (N.div_small (n mod 10)) by (apply N.mod_upper_bound; lia).
    rewrite N.add_0_l, N.Div0.mod_mod. reflexivity.
  - change 100 with (10 * 10). rewrite N.Div0.mod_mul_r.
    rewrite (N.mul_comm 10 (n / 10 mod 10)), N.Div0.mod_add.
    rewrite N.Div0.mod_mod. reflexivity.
Qed.

Lemma take4_pad4 n rest : n < 10000 -> take4 (pad4 n rest) = Some (n, rest).
Proof.
  intros Hn. unfold take4, pad4.
  assert (Hhi : n / 100 < 100) by (apply N.Div0.div_lt_upper_bound; lia).
  pose proof (take2_pad2 (n / 100) (pad2 n rest) Hhi) as Hq.
  unfold pad2 at 1 in Hq.
  rewrite N.Div0.div_div in Hq. change (100 * 10) with 1000 in Hq.
  rewrite Hq, (pad2_mod100 n).
  rewrite take2_pad2 by (apply N.mod_upper_bound; lia).
  do 2 f_equal. symmetry. apply N.div_mod. lia.
Qed.

Lemma expect_head c rest : expect c (String c rest) = Some rest.
Proof. unfold expect. rewrite decide_True by reflexivity. reflexivity. Qed.

Lemma days_in_month_le y m : days_in_month y m <= 31.
Proof.
  unfold days_in_month.
  destruct (m =? 2); [destruct (is_leap y); lia|].
  destruct ((m =? 4) || (m =? 6) || (m =? 9) || (m =? 11)); lia.
Qed.

Lemma valid_bounds c :
  Is_true (valid c) ->
  year c < 10000 /\ month c < 100 /\ day c < 100
  /\ hour c < 100 /\ minute c < 100 /\ sec c < 100.
Proof.
  intros H. apply Is_true_true in H. unfold valid in H.
  repeat (apply andb_prop in H as [H ?]).
  repeat match goal with
         | H : (_ <=? _) = true |- _ => apply N.leb_le in H
         | H : (_ <? _) = true |- _ => apply N.ltb_lt in H
         end.
  pose proof (days_in_month_le (year c) (month c)). lia.
Qed.

Lemma read_print c : Is_true (valid c) -> read (print c) = Some c.
Proof.
  intros H. apply valid_bounds in H as (Hy & Hm & Hd & Hh & Hi & Hs).
  destruct c as [y m d h i s]. unfold year, month, day, hour, minute, sec in *.
  unfold read, print. unfold year, month, day, hour, minute, sec.
  rewrite take4_pad4 by assumption. cbn [mbind option_bind].
  repeat (rewrite expect_head; cbn [mbind option_bind];
          rewrite take2_pad2 by assumption; cbn [mbind option_bind]).
  reflexivity.
Qed.

Lemma fromisoformat_isoformat d : fromisoformat (isoformat d) = Some d.
Proof.
  destruct d as [c H]. unfold fromisoformat, isoformat. cbn [proj1_sig].
  rewrite (read_print c H).
  destruct (decide (Is_true (valid c))) as [H'|]; [|contradiction].
  f_equal. apply sig_eq_pi; [apply _|reflexivity].
Qed.

Lemma isoformat_nonempty d : isoformat d <> EmptyString.
Proof. destruct d as [c H]. unfold isoformat, print, pad4. discriminate. Qed.

End NaiveDateTime.

#[local] Instance naive_datetime : DateTime := {|
  datetime := NaiveDateTime.t;
  isoformat := NaiveDateTime.isoformat;
  fromisoformat := NaiveDateTime.fromisoformat;
  fromisoformat_isoformat := NaiveDateTime.fromisoformat_isoformat;
  isoformat_nonempty := NaiveDateTime.isoformat_nonempty
|}.

(** ** The defaulting rules, as the specification words them

    The record obtained from the constructor's arguments when the URL is
    synthesized from the identifier, the author defaults to "unknown" and
    negative counts are clamped to zero.  [Story.__post_init__] is compared
    with it below. *)
Section DefaultingRules.
Context `{DT : DateTime}.
Import Story.

(** The host of the link synthesized for a story without URL. *)
Definition default_host : string := "news.ycombinator.com".

Definition defaulting_rules (title : string) (url : option string) (points : Z)
    (username : string) (comment_count : Z) (story_id : option string)
    (time : option datetime) : Story :=
  {| title := title;
     url := if falsy url
            then Some ("https://news.ycombinator.com/item?id=" +:+ fmt story_id)
            else url;
     points := Z.max 0 points;
     username := if decide (username = EmptyString) then "unknown" else username;
     comment_count := Z.max 0 comment_count;
     story_id := story_id;
     time := time |}.

(** A Record is a story the constructor returned. *)
Definition is_record (s : Story) : Prop :=
  exists title url points username comment_count story_id time,
    new title url points username comment_count story_id time = Ok s.

End DefaultingRules.

(** ** The functional reading of the parser

    What [_parse_item] returns for an item when the clock shows [now],
    written without effects.  The scrapers' [_parse_item] is proved to
    compute it. *)
Section Extract.
Context `{DT : DateTime}.
Import Story.

Definition points_of (st : Subtext) : result Z :=
  match score_text st with
  | Some t => rbind (Py.first (Py.split t)) Py.int
  | None => Ok 0
  end.

Definition time_of (now : datetime) (st : Subtext) : datetime :=
  match age_title st with
  | Some (Some t) =>
      match Py.split t with
      | tok :: _ => default now (fromisoformat tok)
      | [] => now
      end
  | _ => now
  end.

Definition comments_of (st : Subtext) : Z :=
  match find_comment_elem st with
  | Some t =>
      match rbind (Py.first (Py.split t)) Py.int with
      | Ok z => z
      | Raise _ => 0
      end
  | None => 0
  end.

Definition extract (now : datetime) (item : Item) : option Story :=
  match title_anchor item, next_row item with
  | Some (text, href), Some (Some st) =>
      match points_of st with
      | Ok p =>
          match new (Py.strip text) href p (parse_username st) (comments_of st)
                    (id_attr item) (Some (time_of now st)) with
          | Ok s => Some s
          | Raise _ => None
          end
      | Raise _ => None
      end
  | _, _ => None
  end.

(** The Records of the rows of a page parsed when the clock shows [now]. *)
Definition parse_body_items (now : datetime) (items : list Item) : list Story :=
  omap (extract now) items.

Definition parse_body (E : Env) (now : datetime) (text : string) : list Story :=
  parse_body_items now (select_athing E text).

(** The text of an answer a request can use: a response whose status
    [raise_for_status] accepts. *)
Definition good (o : Outcome) : option string :=
  match o with
  | Response status text =>
      if (400 <=? status) && (status <? 600) then None else Some text
  | Failure _ => None
  end.

(** The site served [text] for [url] at some request. *)
Definition served (E : Env) (url text : string) : Prop :=
  exists k, good (respond E k url) = Some text.

(** The logging call the item loop makes for an item that gave no story. *)
Definition is_item_failure (r : LogRecord) : bool :=
  match log_level r with
  | WARNING => Py.startswith "Failed to parse story item with ID: " (log_msg r)
  | _ => false
  end.

Definition item_failures (l : list LogRecord) : nat :=
  length (List.filter is_item_failure l).

(** The items of a page that give no story. *)
Definition failed_items (now : datetime) (items : list Item) : list Item :=
  List.filter (fun i => bool_decide (extract now i = None)) items.

(** Only the log differs between two worlds. *)
Definition same_but_log (w w' : World) : Prop :=
  clock w' = clock w /\ requests w' = requests w /\ sleeps w' = sleeps w
  /\ draws w' = draws w /\ progress w' = progress w /\ delivered w' = delivered w.

End Extract.

(** ** Request traces *)

(** The start times of requests, latest first, are in order and at least
    [rl] apart from one request to the next. *)
Fixpoint spaced (rl : Z) (ts : list Z) : Prop :=
  match ts with
  | t1 :: rest =>
      match rest with
      | t2 :: _ => t2 + rl <= t1 /\ t2 <= t1
      | [] => True
      end /\ spaced rl rest
  | [] => True
  end.

Section Traces.
Context `{DT : DateTime}.

(** The requests made since the world was [w0]. *)
Definition requests_since (w0 w : World) (new : list (Z * string)) : Prop :=
  requests w = new ++ requests w0.

(** The invariant of the rate limiter, for the requests made since [w0]:
    they are spaced, and the latest of them started no later than the
    present time and, for a non-negative rate limit, no later than the time
    [lrt] held by [last_request_time]. *)
Definition paced (rl : Z) (w0 : World) (lrt : Z) (w : World) : Prop :=
  exists new,
    requests_since w0 w new
    /\ spaced rl (map fst new)
    /\ match new with
       | (t, _) :: _ => t <= clock w /\ (0 <= rl -> t <= lrt)
       | [] => True
       end.

(** A step that leaves the object and the trace alone and lets time pass. *)
Definition quiet {Self} (st st' : Self * World) : Prop :=
  fst st' = fst st
  /\ requests (snd st') = requests (snd st)
  /\ clock (snd st) <= clock (snd st').

(** A step that takes no time either. *)
Definition silent {Self} (st st' : Self * World) : Prop :=
  fst st' = fst st
  /\ requests (snd st') = requests (snd st)
  /\ clock (snd st') = clock (snd st).

End Traces.

(** ** What a step of the sequential scraper does *)

Section SequentialSteps.
Context `{DT : DateTime}.
Variable E : Env.
Import Story HackerNewsScraper.

(** The configuration and the stop flag stay, time does not go back, the
    trace grows, and the rate limiter's invariant is kept. *)
Definition sync_step (st st' : Scraper * World) : Prop :=
  config (fst st') = config (fst st)
  /\ _stop_flag (fst st') = _stop_flag (fst st)
  /\ _scraping (fst st') = _scraping (fst st)
  /\ clock (snd st) <= clock (snd st')
  /\ (exists new, requests_since (snd st) (snd st') new)
  /\ forall w0,
       paced (rate_limit (config (fst st))) w0 (last_request_time (fst st)) (snd st) ->
       paced (rate_limit (config (fst st))) w0 (last_request_time (fst st')) (snd st').

(** [l] is the list parsed from a body the site served for page [p]. *)
Definition page_records (cfg : ScraperConfig) (p : Z) (l : list Story) : Prop :=
  exists now text, served E (page_url cfg p) text /\ l = parse_body E now text.

End SequentialSteps.

(** ** What a step of the asynchronous scraper does *)

Section AsynchronousSteps.
Context `{DT : DateTime}.
Variable E : Env.
Import Story AsyncHackerNewsScraper.

Definition async_step (st st' : Scraper * World) : Prop :=
  config (fst st') = config (fst st)
  /\ _stop_flag (fst st') = _stop_flag (fst st)
  /\ _scraping (fst st') = _scraping (fst st)
  /\ clock (snd st) <= clock (snd st')
  /\ (exists new, requests_since (snd st) (snd st') new)
  /\ forall w0,
       paced (rate_limit (config (fst st))) w0 (last_request_time (fst st)) (snd st) ->
       paced (rate_limit (config (fst st))) w0 (last_request_time (fst st')) (snd st').

(** The fetch of [url] fails: there is no identity to send, or every one of
    the [max_retries] attempts, the first of them being request number
    [k0], gets a failure or a status that [raise_for_status] rejects. *)
Definition fetch_fails (cfg : ScraperConfig) (url : string) : Prop :=
  user_agents cfg = []
  \/ exists k0 : nat,
       forall j : nat,
         (j < Z.to_nat (max_retries cfg))%nat ->
         good (respond E (k0 + j) url) = None.

(** [l] is the list parsed from a body the site served for page [p], or
    the fetch of page [p] failed and [l] is empty. *)
Definition async_page_records (cfg : ScraperConfig) (p : Z) (l : list Story) : Prop :=
  (exists now text, served E (page_url cfg p) text /\ l = parse_body E now text)
  \/ (l = [] /\ fetch_fails cfg (page_url cfg p)).

End AsynchronousSteps.

(** ** Calls on a scraper object

    The public methods, called one after the other on the same object.  An
    exception raised by a call is seen by the caller; the object lives
    on. *)

Inductive call :=
  | StopScraping
  | ScrapeStories (num_pages : Z) (cb : bool)
  | ScrapePage (page_num : Z)
  | StartScraping (callback : bool) (num_pages : Z).

Section Calls.
Context `{DT : DateTime}.
Variable E : Env.

Definition sync_call (c : call) : M HackerNewsScraper.Scraper unit :=
  match c with
  | StopScraping => HackerNewsScraper.stop_scraping
  | ScrapeStories n cb => do* HackerNewsScraper.scrape_stories E n cb in ret tt
  | ScrapePage p => do* HackerNewsScraper.scrape_page E p in ret tt
  | StartScraping callback n => HackerNewsScraper.start_scraping E callback n
  end.

Definition sync_calls (cs : list call)
    (st : HackerNewsScraper.Scraper * World) : HackerNewsScraper.Scraper * World :=
  fold_left (fun st c => snd (sync_call c st)) cs st.

Definition async_call (c : call) : M AsyncHackerNewsScraper.Scraper unit :=
  match c with
  | StopScraping => AsyncHackerNewsScraper.stop_scraping
  | ScrapeStories n cb => do* AsyncHackerNewsScraper.scrape_stories E n cb in ret tt
  | ScrapePage p => do* AsyncHackerNewsScraper.scrape_page E p in ret tt
  | StartScraping callback n => AsyncHackerNewsScraper.start_scraping E callback n
  end.

Definition async_calls (cs : list call)
    (st : AsyncHackerNewsScraper.Scraper * World)
    : AsyncHackerNewsScraper.Scraper * World :=
  fold_left (fun st c => snd (async_call c st)) cs st.

(** Once stopped: the flag is set and no scrape is marked in progress. *)
Definition sync_stopped (st : HackerNewsScraper.Scraper * World) : Prop :=
  HackerNewsScraper._stop_flag (fst st) = true
  /\ HackerNewsScraper._scraping (fst st) = false.

Definition async_stopped (st : AsyncHackerNewsScraper.Scraper * World) : Prop :=
  AsyncHackerNewsScraper._stop_flag (fst st) = true
  /\ AsyncHackerNewsScraper._scraping (fst st) = false.

End Calls.

(** ** Concrete sites to run the scrapers on *)

Module Scenario.

Definition noon : datetime :=
  exist _ (NaiveDateTime.mkCivil 2023 10 18 12 30 0) I.

(** A well-formed row. *)
Definition row (id title score : string) : Item :=
  mkItem (Some (title, Some ("https://example.com/" +:+ id)))
         (Some id)
         (Some (Some (mkSubtext (Some score) (Some "pg")
                                (Some (Some "2023-10-18T12:30:00 1697632200"))
                                ["pg"; "hide"; "12 comments"]))).

(** A row without its title anchor. *)
Definition row_without_anchor (id : string) : Item :=
  mkItem None (Some id)
         (Some (Some (mkSubtext (Some "3 points") (Some "pg") None []))).

Definition five_rows : list Item :=
  [ row "101" "Alpha" "10 points"; row "102" "Beta" "20 points";
    row "103" "Gamma" "30 points"; row "104" "Delta" "40 points";
    row "105" "Epsilon" "50 points" ].

(** The parser of the markup: each body below stands for its rows. *)
Definition rows (text : string) : list Item :=
  if String.eqb text "five rows" then five_rows
  else if String.eqb text "one row" then [row "101" "Alpha" "10 points"]
  else if String.eqb text "one broken row" then [row_without_anchor "201"]
  else [].

Definition mk_env (site : nat -> string -> Outcome) : Env :=
  mkEnv site (fun _ => 0%nat) (fun _ => 0%nat) (fun _ => 0%nat)
        (fun _ => noon) rows.

Definition robots_txt : string := "https://news.ycombinator.com/robots.txt".
Definition page1 : string := "https://news.ycombinator.com/news?p=1".
Definition page2 : string := "https://news.ycombinator.com/news?p=2".

(** Page 1 has five rows; every request for page 2 times out. *)
Definition site_page2_down (k : nat) (url : string) : Outcome :=
  if String.eqb url page1 then Response 200 "five rows"
  else if String.eqb url robots_txt then Response 200 "User-agent: *"
  else Failure "timed out".

(** Pages 1 and 2 both list the same story. *)
Definition site_repeating (k : nat) (url : string) : Outcome :=
  if String.eqb url robots_txt then Response 200 "User-agent: *"
  else Response 200 "one row".

(** Page 1 has one broken row, page 2 has no row. *)
Definition site_broken (k : nat) (url : string) : Outcome :=
  if String.eqb url page1 then Response 200 "one broken row"
  else Response 200 "no row".

(** The site does not answer at all. *)
Definition site_down (k : nat) (url : string) : Outcome := Failure "unreachable".

(** [ScraperConfig(rate_limit=0)] *)
Definition config0 : ScraperConfig :=
  mkConfig (base_url default_config) 0 (timeout default_config)
           (max_retries default_config) (user_agents default_config).

Definition world0 : World := mkWorld 0 [] 0 0 [] [] [].

(** Scraper objects as the constructors leave them. *)
Definition sync0 : HackerNewsScraper.Scraper :=
  HackerNewsScraper.mkScraper config0 None 0 None false false false.

Definition async0 : AsyncHackerNewsScraper.Scraper :=
  AsyncHackerNewsScraper.mkScraper config0 AsyncHackerNewsScraper.NoSession
                                   0 None true false.

(** The story of the row [row "101" "Alpha" "10 points"]. *)
Definition alpha : Story.Story :=
  Story.mkStory "Alpha" (Some "https://example.com/101") 10 "pg" 12
                (Some "101") (Some noon).

(** The identifiers of the Records a call returned. *)
Definition returned_ids (r : result (list Story.Story))
    : option (list (option string)) :=
  match r with
  | Ok l => Some (map Story.story_id l)
  | Raise _ => None
  end.

(** The objects the constructors build with the default configuration. *)
Definition sync_built : HackerNewsScraper.Scraper :=
  HackerNewsScraper.mkScraper default_config
    (head (user_agents default_config)) 0 (Some "User-agent: *")
    false false false.

Definition async_built : AsyncHackerNewsScraper.Scraper :=
  AsyncHackerNewsScraper.mkScraper default_config
    AsyncHackerNewsScraper.NoSession 0 None true false.

End Scenario.

(** ** Postconditions *)

Section Postconditions.
Context `{DT : DateTime}.
Context {Self : Type}.

(** [wp m Q st]: running [m] from [st] ends in a result and a state that
    satisfy [Q]. *)
Definition wp {A} (m : M Self A) (Q : result A -> Self * World -> Prop)
    (st : Self * World) : Prop :=
  Q (fst (m st)) (snd (m st)).

End Postconditions.

(** ** Attempts and what they leave in the world *)

Section Attempts.
Context `{DT : DateTime}.
Variable E : Env.

(** [str(e)] for the exception a request ends with when its answer is not
    a usable one: the message of the connection error, or the status
    line [raise_for_status] reports. *)
Definition failure_text (o : Outcome) : string :=
  match o with
  | Failure msg => msg
  | Response status _ => Py.str_int status +:+ " Error"
  end.

(** The [j] answers to the requests for [url] numbered from [k0] on are
    all unusable. *)
Definition all_fail (url : string) (k0 j : nat) : Prop :=
  forall i, (i < j)%nat -> good (respond E (k0 + i) url) = None.

(** The seconds slept after the failed attempts [attempts]. *)
Definition backoff (attempts : list Z) : Z :=
  fold_right (fun attempt total => 2 ^ attempt * second + total) 0 attempts.

(** Only the clock, the number of sleeps and draws, and the log may
    differ between [w] and [w']. *)
Definition later (w w' : World) : Prop :=
  requests w' = requests w /\ progress w' = progress w
  /\ delivered w' = delivered w /\ clock w <= clock w'.

(** [w'] is [w] after [j] more requests, all of them for [url], and
    nothing else but time, sleeps, draws and logging. *)
Definition fetched (url : string) (j : nat) (w w' : World) : Prop :=
  (exists ts, length ts = j
              /\ requests w' = map (fun t => (t, url)) ts ++ requests w)
  /\ progress w' = progress w /\ delivered w' = delivered w
  /\ clock w <= clock w'.

End Attempts.

Section ObjectFrames.
Context `{DT : DateTime}.

(** Two states of a sequential scraper that differ at most in
    [last_request_time]. *)
Definition sync_same_object (s s' : HackerNewsScraper.Scraper) : Prop :=
  HackerNewsScraper.config s' = HackerNewsScraper.config s
  /\ HackerNewsScraper.session_user_agent s' = HackerNewsScraper.session_user_agent s
  /\ HackerNewsScraper.robot_parser s' = HackerNewsScraper.robot_parser s
  /\ HackerNewsScraper._scraping s' = HackerNewsScraper._scraping s
  /\ HackerNewsScraper._scrape_thread s' = HackerNewsScraper._scrape_thread s
  /\ HackerNewsScraper._stop_flag s' = HackerNewsScraper._stop_flag s.

(** Two states of an asynchronous scraper that differ at most in
    [last_request_time]. *)
Definition async_same_object (s s' : AsyncHackerNewsScraper.Scraper) : Prop :=
  AsyncHackerNewsScraper.config s' = AsyncHackerNewsScraper.config s
  /\ AsyncHackerNewsScraper.session s' = AsyncHackerNewsScraper.session s
  /\ AsyncHackerNewsScraper.robot_parser s' = AsyncHackerNewsScraper.robot_parser s
  /\ AsyncHackerNewsScraper._scraping s' = AsyncHackerNewsScraper._scraping s
  /\ AsyncHackerNewsScraper._stop_flag s' = AsyncHackerNewsScraper._stop_flag s.

(** [str(e)] for the exception an attempt of the asynchronous scraper ends
    with before it could send anything: no identity to choose from, or no
    open session. *)
Definition blocked_text (s : AsyncHackerNewsScraper.Scraper) : string :=
  match user_agents (AsyncHackerNewsScraper.config s) with
  | [] => "Cannot choose from an empty sequence"
  | _ :: _ =>
      match AsyncHackerNewsScraper.session s with
      | AsyncHackerNewsScraper.NoSession =>
          "'NoneType' object has no attribute 'get'"
      | AsyncHackerNewsScraper.ClosedSession => "Session is closed"
      | AsyncHackerNewsScraper.OpenSession => EmptyString
      end
  end.

(** The asynchronous scraper can send requests: it has an open session
    and an identity to send. *)
Definition can_request (s : AsyncHackerNewsScraper.Scraper) : Prop :=
  AsyncHackerNewsScraper.session s = AsyncHackerNewsScraper.OpenSession
  /\ user_agents (AsyncHackerNewsScraper.config s) <> [].

End ObjectFrames.

Section ProgressReports.
Context `{DT : DateTime}.

(** What the progress callback is called with after the page numbered [i]
    (from 0) of a run whose pages gave the lists [ls]: the number of
    stories so far, and their statistics. *)
Definition progress_report (ls : list (list Story.Story)) (i : nat) : Z * Stats :=
  let seen := concat (take (S i) ls) in
  (Z.of_nat (length seen), _calculate_stats seen).

(** The calls of the progress callback of such a run, latest first. *)
Definition progress_reports (ls : list (list Story.Story)) : list (Z * Stats) :=
  rev (map (progress_report ls) (seq 0 (length ls))).

End ProgressReports.

(** ** Objects that differ in the rules they hold *)

Section Rules.
Context `{DT : DateTime}.

(** The object [s] holding the rules [rules] in place of its own. *)
Definition sync_with_rules (rules : option string)
    (s : HackerNewsScraper.Scraper) : HackerNewsScraper.Scraper :=
  HackerNewsScraper.mkScraper
    (HackerNewsScraper.config s) (HackerNewsScraper.session_user_agent s)
    (HackerNewsScraper.last_request_time s) rules
    (HackerNewsScraper._scraping s) (HackerNewsScraper._scrape_thread s)
    (HackerNewsScraper._stop_flag s).

Definition async_with_rules (rules : option string)
    (s : AsyncHackerNewsScraper.Scraper) : AsyncHackerNewsScraper.Scraper :=
  AsyncHackerNewsScraper.mkScraper
    (AsyncHackerNewsScraper.config s) (AsyncHackerNewsScraper.session s)
    (AsyncHackerNewsScraper.last_request_time s) rules
    (AsyncHackerNewsScraper._scraping s) (AsyncHackerNewsScraper._stop_flag s).

(** The computation [m] neither reads nor writes what [f] changes in the
    object: run on the changed object, it does what it does on the object
    itself, and leaves the change in place. *)
Definition commutes {Self A : Type} (f : Self -> Self) (m : M Self A) : Prop :=
  forall s w,
    m (f s, w)
    = (fst (m (s, w)), (f (fst (snd (m (s, w)))), snd (snd (m (s, w))))).

End Rules.

(** ** A site that answers at the second attempt *)

Module RetryScenario.

(** The first request of a run times out, every later one is answered
    with a page of one row. *)
Definition site_flaky (k : nat) (url : string) : Outcome :=
  match k with
  | O => Failure "timed out"
  | S _ => Response 200 "one row"
  end.

(** An asynchronous scraper inside its [async with] block. *)
Definition async_open : AsyncHackerNewsScraper.Scraper :=
  AsyncHackerNewsScraper.mkScraper Scenario.config0
    AsyncHackerNewsScraper.OpenSession 0 None true false.

End RetryScenario.

(** ** core/analysis.py *)

Module StoryAnalyzer.
Section WithDateTime.
Context `{DT : DateTime}.
Import Story.

(** How a method of the analyzer ends.  Every method body is wrapped in
    [try: ... except Exception as e: raise AnalysisError(f"...: {str(e)}")],
    so the one exception that leaves a method is [AnalysisError] of
    [exceptions/exceptions.py]; its [str] is its message. *)
Inductive outcome (A : Type) : Type :=
  | Returned (a : A)
  | AnalysisError (message : string).
#[global] Arguments Returned {A} a.
#[global] Arguments AnalysisError {A} message.

(** [pandas.DataFrame(rows)] for a list of dictionaries: one row for each
    dictionary, one column for each key that occurs in some dictionary. *)
Definition DataFrame : Type := list (gmap string pyval).

(** [df.columns], as a set *)
Definition columns (df : DataFrame) : gset string := ⋃ (dom <$> df).

(** [df[name]] for a literal [name]: the cells of the column in the order of
    the rows ([None] where a row lacks the key), or the text of the
    [KeyError], which is the [repr] of the name. *)
Definition column (name : string) (df : DataFrame)
    : string + list (option pyval) :=
  if decide (name ∈ columns df)
  then inr (map (fun row : gmap string pyval => row !! name) df)
  else inl ("'" +:+ name +:+ "'").

Record Analyzer := mkAnalyzer { stories : list Story; df : DataFrame }.

Definition __init__ (stories : list Story) : Analyzer :=
  mkAnalyzer stories (map to_dict stories).

(** *** [get_basic_stats] *)






(** *** [get_trending_domains] *)

(** One round of the loop over [df['url']]: the network location of the
    cell when it is a string with one.  [urlparse(None)] has an empty
    network location; on a cell of another type, and on a string it
    rejects, [urlparse] raises and the bare [except] goes on to the next
    cell. *)
Definition domain_of_cell (cell : option pyval) : option string :=
  match cell with
  | Some (VStr url) =>
      match Urllib.netloc url with
      | Ok EmptyString => None
      | Ok domain => Some domain
      | Raise _ => None
      end
  | _ => None
  end.

(** [Counter(l)]: the distinct elements of [l] in the order of their first
    occurrence, each with the number of its occurrences. *)
Fixpoint counter_add (x : string) (c : list (string * Z)) : list (string * Z) :=
  match c with
  | [] => [(x, 1)]
  | (y, n) :: c' =>
      if String.eqb x y then (y, n + 1) :: c' else (y, n) :: counter_add x c'
  end.

Definition Counter (l : list string) : list (string * Z) :=
  fold_left (fun c x => counter_add x c) l [].

(** [most_common(n)], which is [heapq.nlargest(n, items, key=count)]: the
    first [n] of the items by decreasing count, items of equal count in
    the order of the counter; nothing when [n] is not positive. *)
Definition most_common (n : Z) (c : list (string * Z)) : list (string * Z) :=
  take (Z.to_nat n)
       (map snd (Py.sort_desc (map (fun item => (snd item, item)) c))).

Definition get_trending_domains (top_n : Z) (self : Analyzer)
    : outcome (list (string * Z)) :=
  match column "url" (df self) with
  | inl e => AnalysisError ("Failed to identify trending domains: " +:+ e)
  | inr urls => Returned (most_common top_n (Counter (omap domain_of_cell urls)))
  end.

(** *** [plot_trending_domains] *)

(** A figure with one trace, and the layout the plotting methods set. *)
Record Figure (X : Type) := mkFigure {
  trace : string;
  x : list X;
  y : list Z;
  layout_title : string;
  xaxis_title : string;
  yaxis_title : string;
  showlegend : bool
}.
#[global] Arguments mkFigure {X} _ _ _ _ _ _ _.
#[global] Arguments x {X} _.
#[global] Arguments y {X} _.

(** The items are transposed with [zip] and unpacked into [domains] and
    [counts]; that needs an item: [zip] of nothing yields nothing, and
    unpacking nothing into two names is a [ValueError]. *)
Definition plot_trending_domains (self : Analyzer)
    : outcome (Figure string) :=
  let failed e :=
    AnalysisError ("Failed to create trending domains plot: " +:+ e) in
  match get_trending_domains 10 self with
  | AnalysisError e => failed e
  | Returned [] => failed "not enough values to unpack (expected 2, got 0)"
  | Returned items =>
      Returned (mkFigure "Bar" (map fst items) (map snd items)
                         "Trending Domains" "Domain" "Number of Stories" false)
  end.

(** *** [analyze_post_popularity_by_time], [plot_post_distribution_by_hour] *)

(** What pandas makes of a column of timestamps: the hour of each cell
    ([pd.to_datetime(cells).dt.hour]) and the number of rows of each hour
    in the order of the hours ([value_counts().sort_index()]), or the text
    of the exception it raises. *)
Variable hours_of : list (option pyval) -> string + (list Z * list (Z * Z)).

(** [df[name] = values] *)
Definition set_column (name : string) (values : list Z) (df : DataFrame)
    : DataFrame :=
  zip_with (fun (row : gmap string pyval) v => <[name := VInt v]> row) df values.

Definition analyze_post_popularity_by_time (self : Analyzer)
    : outcome (list (Z * Z)) * Analyzer :=
  let failed e :=
    AnalysisError ("Failed to analyze post popularity by time: " +:+ e) in
  if decide ("timestamp" ∈ columns (df self)) then
    match column "timestamp" (df self) with
    | inl e => (failed e, self)
    | inr cells =>
        match hours_of cells with
        | inl e => (failed e, self)
        | inr (hours, hour_counts) =>
            (Returned hour_counts,
             mkAnalyzer (stories self) (set_column "hour" hours (df self)))
        end
    end
  else (Returned [], self).

Definition plot_post_distribution_by_hour (self : Analyzer)
    : outcome (option (Figure Z)) * Analyzer :=
  match analyze_post_popularity_by_time self with
  | (AnalysisError e, self') =>
      (AnalysisError ("Failed to create post distribution plot: " +:+ e), self')
  | (Returned [], self') => (Returned None, self')
  | (Returned hour_data, self') =>
      (Returned (Some (mkFigure "Scatter" (map fst hour_data) (map snd hour_data)
                                "Post Distribution by Hour" "Hour of Day"
                                "Number of Posts" false)),
       self')
  end.

End WithDateTime.
End StoryAnalyzer.

(** The number of the stories of a list whose [domain] property is [d]. *)
Definition stories_of_domain `{DT : DateTime} (d : string)
    (l : list Story.Story) : Z :=
  Z.of_nat (length (filter (fun s => Story.domain s = Some d) l)).

(** A list of keyed items whose keys never increase. *)
Fixpoint keys_descending {A} (l : list (Z * A)) : Prop :=
  match l with
  | [] => True
  | a :: l' => Forall (fun b => fst b <= fst a) l' /\ keys_descending l'
  end.

(** The number of occurrences of [x] in [l], and the count a counter holds
    for [x] ([0] when it holds none). *)
Definition occurrences (x : string) (l : list string) : Z :=
  Z.of_nat (length (filter (fun y => y = x) l)).

Fixpoint lookup_count (c : list (string * Z)) (x : string) : Z :=
  match c with
  | [] => 0
  | (y, n) :: c' => if String.eqb x y then n else lookup_count c' x
  end.

(** * Properties *)

(** ** Validation of candidates ([Story.__post_init__]) *)

Section StoryFacts.
Context `{DT : DateTime}.
Import Story.

Lemma defaults_closed_form t u p un cc id tm :
  clamp_comment_count (fill_username (clamp_points (fill_url
    (mkStory t u p un cc id tm))))
  = defaulting_rules t u p un cc id tm.
Proof.
  unfold defaulting_rules, clamp_comment_count, fill_username, clamp_points, fill_url.
  simpl. destruct (falsy u); simpl;
    destruct (Z.ltb_spec p 0); simpl;
    destruct (decide (un = EmptyString)); simpl;
    destruct (Z.ltb_spec cc 0); simpl;
    f_equal; lia.
Qed.

Lemma new_closed_form t u p un cc id tm :
  new t u p un cc id tm =
    if decide (t = EmptyString)
    then Raise (mkExn ValueError "Story title cannot be empty")
    else if falsy id
    then Raise (mkExn ValueError "Story ID cannot be empty")
    else Ok (defaulting_rules t u p un cc id tm).
Proof.
  unfold new, __post_init__, check_title. simpl.
  destruct (decide (t = EmptyString)); simpl; [reflexivity|].
  rewrite defaults_closed_form.
  unfold check_story_id. simpl. destruct (falsy id); reflexivity.
Qed.

Lemma netloc_default_url (i : string) :
  Urllib.netloc ("https://news.ycombinator.com/item?id=" +:+ i) = Ok default_host.
Proof. reflexivity. Qed.

End StoryFacts.

(** ** Claims on validation *)

Section ValidationClaims.
Context `{DT : DateTime}.
Import Story.


(** C6: validating a candidate raises the validation error exactly when
    its title is empty or its id is empty (the title being checked first);
    for every other candidate it returns the Record given by the defaulting
    rules: URL synthesized from the id, author defaulted to "unknown",
    negative counts clamped to zero. *)
Theorem C6_validate_fails_iff_empty
    (title : string) (url : option string) (points : Z) (username : string)
    (comment_count : Z) (story_id : option string) (time : option datetime) :
  (raised (new title url points username comment_count story_id time) = true
     <-> (title = EmptyString \/ falsy story_id = true))
  /\ new title url points username comment_count story_id time =
       if bool_decide (title = EmptyString) then
         Raise (mkExn ValueError "Story title cannot be empty")
       else if falsy story_id then
         Raise (mkExn ValueError "Story ID cannot be empty")
       else
         Ok (defaulting_rules title url points username comment_count
               story_id time).
Proof.
  rewrite new_closed_form. split.
  - destruct (decide (title = EmptyString)) as [->|Ht]; simpl.
    + split; auto.
    + destruct (falsy story_id); simpl; split; intros; auto; try discriminate.
      destruct H as [?|?]; congruence.
  - destruct (decide (title = EmptyString)) as [->|Ht].
    + reflexivity.
    + rewrite bool_decide_eq_false_2 by assumption. reflexivity.
Qed.

(** C7: for every candidate missing its URL, the validated Record's URL is
    the synthesized link that ends in the candidate's id, and the Record's
    derived domain is the default host, which is the host of the default
    base URL of the configuration. *)
Theorem C7_missing_url_synthesized
    (title : string) (url : option string) (points : Z) (username : string)
    (comment_count : Z) (story_id : option string) (time : option datetime)
    (r : Story) :
  falsy url = true ->
  new title url points username comment_count story_id time = Ok r ->
  exists id : string,
    story_id = Some id
    /\ Story.url r = Some ("https://news.ycombinator.com/item?id=" +:+ id)
    /\ domain r = Some default_host
    /\ Urllib.netloc (base_url default_config) = Ok default_host.
Proof.
  intros Hu Hnew. rewrite new_closed_form in Hnew.
  destruct (decide (title = EmptyString)); [discriminate|].
  destruct story_id as [id|]; [|discriminate].
  destruct (falsy (Some id)) eqn:Hid; [discriminate|].
  injection Hnew as <-. exists id. split; [reflexivity|].
  unfold defaulting_rules, domain. simpl. rewrite Hu. simpl.
  repeat split; reflexivity.
Qed.

End ValidationClaims.

(** ** Claims on the file store *)

Section StorageClaims.
Context `{DT : DateTime}.
Import Story FileStorage.

Lemma record_invariant s :
  is_record s ->
  title s <> EmptyString
  /\ (exists u, url s = Some u /\ u <> EmptyString)
  /\ 0 <= points s
  /\ username s <> EmptyString
  /\ 0 <= comment_count s
  /\ (exists i, story_id s = Some i /\ i <> EmptyString).
Proof.
  intros (t & u & p & un & cc & id & tm & Hnew).
  rewrite new_closed_form in Hnew.
  destruct (decide (t = EmptyString)) as [|Ht]; [discriminate|].
  destruct (falsy id) eqn:Hid; [discriminate|].
  injection Hnew as <-. unfold defaulting_rules; simpl.
  repeat split; try lia; try assumption.
  - destruct (falsy u) eqn:Hu.
    + eexists; split; [reflexivity|discriminate].
    + destruct u as [[|c u]|]; try discriminate.
      eexists; split; [reflexivity|discriminate].
  - destruct (decide (un = EmptyString)); [discriminate|assumption].
  - destruct id as [[|c i]|]; try discriminate.
    eexists; split; [reflexivity|discriminate].
Qed.

Lemma new_record s :
  is_record s ->
  new (title s) (url s) (points s) (username s) (comment_count s)
      (story_id s) (time s) = Ok s.
Proof.
  intros H. apply record_invariant in H
    as (Ht & (u & Hu & Hu') & Hp & Hun & Hcc & (i & Hi & Hi')).
  rewrite new_closed_form. rewrite decide_False by assumption.
  rewrite Hi. destruct i; [contradiction|]. simpl.
  destruct s as [t u0 p un cc id tm]; simpl in *. subst.
  unfold defaulting_rules. destruct u; [contradiction|]. simpl.
  rewrite decide_False by assumption.
  rewrite !Z.max_r by assumption. reflexivity.
Qed.

Lemma dom_to_dict_without_domain s v :
  dom (<["time" := v]> (delete "domain" (to_dict s))) = fields.
Proof.
  unfold to_dict, fields.
  rewrite !delete_insert_ne by discriminate.
  rewrite delete_insert_eq, delete_empty.
  rewrite !dom_insert_L, dom_empty_L. set_solver.
Qed.

Lemma from_dict_to_dict s : is_record s -> from_dict (to_dict s) = Ok s.
Proof.
  intros Hrec. pose proof (new_record s Hrec) as Hnew.
  assert (Hdom : forall v,
    decide (dom (<["time" := v]> (delete "domain" (to_dict s))) = fields)
    = left (dom_to_dict_without_domain s v)).
  { intros v. destruct (decide _) as [e|n];
      [f_equal; apply proof_irrel | destruct n; apply dom_to_dict_without_domain]. }
  unfold from_dict, parse_time.
  assert (Htime : delete "domain" (to_dict s) !! "time"
    = Some (match time s with Some d => VStr (isoformat d) | None => VNone end)).
  { unfold to_dict. rewrite lookup_delete_ne by discriminate.
    rewrite !lookup_insert_ne by discriminate. apply lookup_insert_eq. }
  rewrite Htime.
  assert (Hargs : forall v,
    let data := <["time" := v]> (delete "domain" (to_dict s)) in
    data !! "title" = Some (VStr (title s))
    /\ data !! "url" = Some (of_optstr (url s))
    /\ data !! "points" = Some (VInt (points s))
    /\ data !! "username" = Some (VStr (username s))
    /\ data !! "comment_count" = Some (VInt (comment_count s))
    /\ data !! "story_id" = Some (of_optstr (story_id s))
    /\ data !! "time" = Some v).
  { intros v data. subst data. unfold to_dict.
    rewrite !delete_insert_ne by discriminate.
    repeat split;
      repeat (first [ rewrite lookup_insert_eq; reflexivity
                    | rewrite lookup_insert_ne by discriminate ]). }
  assert (Hcls : forall v tm,
    (match v with VDatetime d => Some (Some d) | VNone => Some None | _ => None end)
      = Some tm ->
    tm = time s ->
    cls (<["time" := v]> (delete "domain" (to_dict s))) = Ok s).
  { intros v tm Hv ->. unfold cls. rewrite Hdom.
    destruct (Hargs v) as (H1 & H2 & H3 & H4 & H5 & H6 & H7).
    unfold arg_str, arg_optstr, arg_int, arg_time.
    rewrite H1, H2, H3, H4, H5, H6, H7. simpl.
    destruct (url s); simpl; destruct (story_id s); simpl;
      destruct v; try discriminate; simpl; injection Hv as Hv;
      rewrite <- ?Hv in Hnew; rewrite <- ?Hv; exact Hnew. }
  destruct (time s) as [d|] eqn:Htm.
  - simpl. rewrite bool_decide_eq_false_2 by apply isoformat_nonempty. simpl.
    rewrite fromisoformat_isoformat. simpl.
    apply (Hcls (VDatetime d) (Some d)); [reflexivity|congruence].
  - simpl.
    replace (delete "domain" (to_dict s))
      with (<["time" := VNone]> (delete "domain" (to_dict s))).
    + apply (Hcls VNone None); [reflexivity|congruence].
    + apply insert_id. rewrite Htime. reflexivity.
Qed.

Lemma from_dict_ignores_domain (data : gmap string pyval) v :
  from_dict (<["domain" := v]> data) = from_dict data.
Proof. unfold from_dict. rewrite delete_insert_eq. reflexivity. Qed.

Lemma to_dict_serializable s :
  map_Forall (fun (_ : string) v => serializable v = true) (to_dict s).
Proof.
  unfold to_dict.
  repeat (apply map_Forall_insert_2;
          [first [ reflexivity | destruct (url s); reflexivity
                 | destruct (story_id s); reflexivity
                 | destruct (time s); reflexivity
                 | destruct (domain s); reflexivity ]|]).
  apply map_Forall_empty.
Qed.

Lemma json_dump_to_dict l : json_dump (map to_dict l) = Ok (Document (map to_dict l)).
Proof.
  unfold json_dump.
  replace (forallb _ (map to_dict l)) with true; [reflexivity|].
  symmetry. apply forallb_forall. intros o Ho.
  apply in_map_iff in Ho as (s & <- & _).
  apply bool_decide_eq_true_2, to_dict_serializable.
Qed.

Lemma from_dicts_to_dicts (g : Story -> pyval) l :
  Forall is_record l ->
  from_dicts (map (fun s => <["domain" := g s]> (to_dict s)) l) = Ok l.
Proof.
  induction 1 as [|s l Hs Hl IH]; simpl; [reflexivity|].
  rewrite from_dict_ignores_domain, (from_dict_to_dict s Hs). simpl.
  rewrite IH. reflexivity.
Qed.

End StorageClaims.

Section StorageRoundTrip.
Context `{DT : DateTime}.
Import Story FileStorage.

(** C8: for every sequence of Records, saving it and then loading yields
    the same sequence, equal in every field.  The stored [domain] entry
    plays no part: whatever value the document holds under that key, the
    loaded Records are the same, and their domain is the one computed from
    their URL. *)
Theorem C8_save_load_roundtrip (stories : list Story) (f : file) :
  Forall is_record stories ->
  fst (save_stories stories f) = Ok tt
  /\ load_stories (snd (save_stories stories f)) = Ok stories
  /\ (forall stored_domain : Story -> pyval,
        load_stories
          (Document (map (fun s => <["domain" := stored_domain s]> (to_dict s))
                         stories))
        = Ok stories).
Proof.
  intros Hrec. unfold save_stories. rewrite json_dump_to_dict. simpl.
  split; [reflexivity|]. split.
  - pose proof (from_dicts_to_dicts (fun s => of_optstr (domain s)) stories Hrec)
      as H.
    erewrite map_ext in H; [rewrite H; reflexivity|].
    intros s. simpl. apply insert_id. unfold to_dict.
    rewrite !lookup_insert_ne by discriminate. apply lookup_insert_eq.
  - intros g. rewrite (from_dicts_to_dicts g stories Hrec). reflexivity.
Qed.

End StorageRoundTrip.

(** ** Reasoning about computations *)

Section WP.
Context `{DT : DateTime}.
Context {Self : Type}.
Implicit Types st : Self * World.

Lemma wp_mono {A} (m : M Self A) (Q Q' : result A -> Self * World -> Prop) st :
  wp m Q st -> (forall r st', Q r st' -> Q' r st') -> wp m Q' st.
Proof. unfold wp. auto. Qed.

Lemma wp_conj {A} (m : M Self A) (Q1 Q2 : result A -> Self * World -> Prop) st :
  wp m Q1 st -> wp m Q2 st -> wp m (fun r st' => Q1 r st' /\ Q2 r st') st.
Proof. unfold wp. auto. Qed.

Lemma wp_ret {A} (a : A) Q st : Q (Ok a) st -> wp (ret a) Q st.
Proof. auto. Qed.

Lemma wp_raise {A} e (Q : result A -> _ -> Prop) st : Q (Raise e) st -> wp (raise e) Q st.
Proof. auto. Qed.

Lemma wp_bind {A B} (m : M Self A) (k : A -> M Self B) Q st :
  wp m (fun r st' => match r with
                     | Ok a => wp (k a) Q st'
                     | Raise e => Q (Raise e) st'
                     end) st ->
  wp (bind m k) Q st.
Proof. unfold wp, bind. destruct (m st) as [[a|e] st']; auto. Qed.

Lemma wp_try_except {A} (m : M Self A) h Q st :
  wp m (fun r st' => match r with
                     | Ok a => Q (Ok a) st'
                     | Raise e => wp (h e) Q st'
                     end) st ->
  wp (try_except m h) Q st.
Proof. unfold wp, try_except. destruct (m st) as [[a|e] st']; auto. Qed.

Lemma wp_try_except_class {A} cs (m : M Self A) h Q st :
  wp m (fun r st' => match r with
                     | Ok a => Q (Ok a) st'
                     | Raise e => if bool_decide (exn_kind e ∈ cs)
                                  then wp (h e) Q st'
                                  else Q (Raise e) st'
                     end) st ->
  wp (try_except_class cs m h) Q st.
Proof.
  intros H. apply wp_try_except. eapply wp_mono; [exact H|].
  intros [a|e] st'; simpl; [auto|]. destruct (bool_decide _); auto.
Qed.

Lemma wp_try_finally {A} (m : M Self A) f Q st :
  wp m (fun r st' =>
          wp f (fun rf st'' => match rf with
                               | Ok _ => Q r st''
                               | Raise e => Q (Raise e) st''
                               end) st') st ->
  wp (try_finally m f) Q st.
Proof.
  unfold wp, try_finally. destruct (m st) as [r st'].
  simpl. destruct (f st') as [[u|e] st'']; auto.
Qed.

Lemma wp_get_self Q (st : Self * World) : Q (Ok (fst st)) st -> wp get_self Q st.
Proof. auto. Qed.

End WP.

(** ** The parser *)

Section ParserFacts.
Context `{DT : DateTime}.
Variable E : Env.
Context {Self : Type}.
Import Story.

Lemma same_but_log_refl w : same_but_log w w.
Proof. repeat split. Qed.

Lemma first_raises {A} (l : list A) e : Py.first l = Raise e -> exn_kind e = IndexError.
Proof. destruct l; [intros [= <-]; reflexivity | discriminate]. Qed.

Lemma int_raises s e : Py.int s = Raise e -> exn_kind e = ValueError.
Proof.
  unfold Py.int. destruct (match Py.strip s with EmptyString => _ | _ => _ end);
    [discriminate | intros [= <-]; reflexivity].
Qed.

Lemma token_int_raises t e :
  rbind (Py.first (Py.split t)) Py.int = Raise e ->
  bool_decide (exn_kind e ∈ [ValueError; IndexError]) = true.
Proof.
  destruct (Py.first (Py.split t)) as [tok|e'] eqn:Hf; simpl.
  - intros H%int_raises. rewrite H. reflexivity.
  - intros [= <-]. apply first_raises in Hf. rewrite Hf. reflexivity.
Qed.

(** What a step of the parser may do to the state: extend the log with
    records that are not item failures. *)
Definition parser_step (st st' : Self * World) : Prop :=
  fst st' = fst st /\ same_but_log (snd st) (snd st')
  /\ exists new, log (snd st') = new ++ log (snd st) /\ item_failures new = 0%nat.

Lemma parser_step_refl st : parser_step st st.
Proof.
  split; [reflexivity|]. split; [apply same_but_log_refl|]. exists []. auto.
Qed.

Lemma parser_step_log lvl msg st :
  is_item_failure (mkLog lvl msg) = false ->
  parser_step st (snd (logging (Self:=Self) lvl msg st)).
Proof.
  intros H. destruct st as [s w]. split; [reflexivity|].
  split; [repeat split|]. exists [mkLog lvl msg]. split; [reflexivity|].
  unfold item_failures. simpl. rewrite H. reflexivity.
Qed.

Lemma parse_points_spec st0 (st : Self * World) :
  parse_points st0 st = (points_of st0, st).
Proof. unfold parse_points, points_of. destruct (score_text st0); reflexivity. Qed.

Lemma parse_comment_count_spec st0 (st : Self * World) :
  parse_comment_count st0 st = (Ok (comments_of st0), st).
Proof.
  unfold parse_comment_count, comments_of.
  destruct (find_comment_elem st0) as [t|]; [|reflexivity].
  unfold try_except_class, try_except, lift.
  destruct (rbind _ _) as [z|e] eqn:Hr; [reflexivity|].
  rewrite (token_int_raises _ _ Hr). reflexivity.
Qed.

Lemma parse_post_time_spec st0 (st : Self * World) :
  exists st',
    parse_post_time E st0 st
      = (Ok (time_of (localtime E (clock (snd st))) st0), st')
    /\ parser_step st st'.
Proof.
  unfold parse_post_time, time_of, datetime_now.
  destruct st as [s w]. unfold bind at 1. simpl.
  destruct (age_title st0) as [[t|]|]; simpl;
    try (eexists; split; [reflexivity|apply parser_step_refl]).
  destruct (decide (t = EmptyString)) as [->|Hne]; simpl;
    [eexists; split; [reflexivity|apply parser_step_refl]|].
  unfold try_except_class, try_except, bind, lift. simpl.
  destruct (Py.split t) as [|tok toks]; simpl.
  - eexists; split; [reflexivity|].
    apply (parser_step_log WARNING _ (s, w)). reflexivity.
  - destruct (fromisoformat tok) as [d|]; simpl.
    + eexists; split; [reflexivity|apply parser_step_refl].
    + eexists; split; [reflexivity|].
      apply (parser_step_log WARNING _ (s, w)). reflexivity.
Qed.

Lemma _parse_item_spec item (st : Self * World) :
  exists st',
    _parse_item E item st = (Ok (extract (localtime E (clock (snd st))) item), st')
    /\ parser_step st st'.
Proof.
  unfold _parse_item, _parse_item_body, extract, try_except.
  destruct (title_anchor item) as [[text href]|]; simpl;
    [|eexists; split; [reflexivity|apply parser_step_refl]].
  destruct (next_row item) as [[subtext|]|]; simpl;
    try (eexists; split; [reflexivity|apply parser_step_refl]).
  2:{ eexists; split; [reflexivity|].
      apply (parser_step_log ERROR _ st). reflexivity. }
  unfold bind at 1. rewrite parse_points_spec.
  destruct (points_of subtext) as [p|e]; simpl.
  2:{ eexists; split; [reflexivity|].
      apply (parser_step_log ERROR _ st). reflexivity. }
  unfold bind at 1.
  destruct (parse_post_time_spec subtext st) as (st1 & -> & Hst1).
  unfold bind at 1. rewrite parse_comment_count_spec.
  unfold bind, lift, ret.
  destruct (new _ _ _ _ _ _ _) as [story|e]; simpl.
  - eexists; split; [reflexivity|exact Hst1].
  - eexists; split; [reflexivity|].
    destruct Hst1 as (Hs & Hw & new1 & Hl & Hc).
    destruct st as [s w], st1 as [s1 w1]; simpl in *.
    split; [exact Hs|]. split; [exact Hw|].
    exists (mkLog ERROR ("Failed to parse story item: " +:+ str_exn e) :: new1).
    split; [simpl; rewrite Hl; reflexivity|].
    unfold item_failures in *. simpl. exact Hc.
Qed.

Lemma same_but_log_trans w1 w2 w3 :
  same_but_log w1 w2 -> same_but_log w2 w3 -> same_but_log w1 w3.
Proof. unfold same_but_log. intuition congruence. Qed.

(** The item loop never raises; it appends the stories of the items that
    parse, in order, and logs one item failure for each of the others. *)
Lemma parse_items_spec items : forall stories (st : Self * World),
  let now := localtime E (clock (snd st)) in
  exists st',
    parse_items E items stories st
      = (Ok (stories ++ omap (extract now) items), st')
    /\ fst st' = fst st
    /\ same_but_log (snd st) (snd st')
    /\ exists new,
         log (snd st') = new ++ log (snd st)
         /\ item_failures new = length (failed_items now items).
Proof.
  induction items as [|item rest IH]; intros stories st now.
  - exists st. simpl. rewrite app_nil_r.
    repeat split; try reflexivity. exists []. auto.
  - cbn [parse_items]. unfold bind at 1. unfold try_except, bind at 1.
    destruct (_parse_item_spec item st) as (st1 & -> & Hs1 & Hw1 & new1 & Hl1 & Hc1).
    fold now. cbn [omap failed_items List.filter].
    destruct (extract now item) as [s|] eqn:Hex.
    + unfold bind, ret. simpl. rewrite Hex.
      set (st2 := (snd (logging DEBUG ("Successfully parsed story: " +:+ title s) st1))).
      destruct (IH (stories ++ [s]) st2) as (st3 & Hrun & Hs3 & Hw3 & new3 & Hl3 & Hc3).
      assert (Hclock : clock (snd st2) = clock (snd st)).
      { destruct st1 as [s1 w1]. simpl. apply Hw1. }
      rewrite Hclock in Hrun, Hc3. fold now in Hrun, Hc3.
      exists st3. rewrite <- app_assoc in Hrun. simpl in Hrun.
      split; [destruct st1; exact Hrun|].
      split; [rewrite Hs3; destruct st1; exact Hs1|].
      split.
      { eapply same_but_log_trans; [exact Hw1|].
        eapply same_but_log_trans; [|exact Hw3]. destruct st1; repeat split. }
      exists (new3 ++ mkLog DEBUG ("Successfully parsed story: " +:+ title s) :: new1).
      split.
      { rewrite Hl3. destruct st1 as [s1 w1]. simpl in *. rewrite Hl1.
        rewrite <- app_assoc. reflexivity. }
      unfold item_failures in *. rewrite List.filter_app, length_app. simpl.
      rewrite Hc3, Hc1. unfold failed_items. lia.
    + unfold bind, ret. simpl. rewrite Hex.
      set (st2 := (snd (logging WARNING (failed_item_msg item) st1))).
      destruct (IH stories st2) as (st3 & Hrun & Hs3 & Hw3 & new3 & Hl3 & Hc3).
      assert (Hclock : clock (snd st2) = clock (snd st)).
      { destruct st1 as [s1 w1]. simpl. apply Hw1. }
      rewrite Hclock in Hrun, Hc3. fold now in Hrun, Hc3.
      exists st3.
      split; [destruct st1; exact Hrun|].
      split; [rewrite Hs3; destruct st1; exact Hs1|].
      split.
      { eapply same_but_log_trans; [exact Hw1|].
        eapply same_but_log_trans; [|exact Hw3]. destruct st1; repeat split. }
      exists (new3 ++ mkLog WARNING (failed_item_msg item) :: new1).
      split.
      { rewrite Hl3. destruct st1 as [s1 w1]. simpl in *. rewrite Hl1.
        rewrite <- app_assoc. reflexivity. }
      unfold item_failures in *. rewrite List.filter_app, length_app.
      cbn [List.filter]. 
      replace (is_item_failure (mkLog WARNING (failed_item_msg item))) with true
        by reflexivity.
      cbn [length]. rewrite Hc3, Hc1. unfold failed_items. simpl. lia.
Qed.

End ParserFacts.

(** ** Effects *)

Tactic Notation "wp_apply" open_constr(lem) :=
  apply wp_bind; eapply wp_mono; [apply lem | cbv beta].

Section EffectFacts.
Context `{DT : DateTime}.
Variable E : Env.
Context {Self : Type}.
Implicit Types st : Self * World.

Lemma quiet_refl st : quiet st st.
Proof. repeat split; simpl; lia. Qed.

Lemma silent_quiet st st' : silent st st' -> quiet st st'.
Proof. intros (?&?&?). repeat split; try assumption; lia. Qed.

Lemma silent_refl st : silent st st.
Proof. repeat split. Qed.

Lemma silent_trans st1 st2 st3 : silent st1 st2 -> silent st2 st3 -> silent st1 st3.
Proof. unfold silent. intros (?&?&?) (?&?&?). repeat split; congruence. Qed.

Lemma wp_logging lvl msg st :
  wp (logging lvl msg) (fun r st' => r = Ok tt /\ silent st st') st.
Proof. destruct st. unfold wp. simpl. repeat split. Qed.

Lemma wp_progress_callback n stats st :
  wp (progress_callback n stats) (fun r st' => r = Ok tt /\ silent st st') st.
Proof. destruct st. unfold wp. simpl. repeat split. Qed.

Lemma wp_random_choice l st :
  wp (random_choice E l) (fun r st' => silent st st') st.
Proof.
  destruct st as [s w], l;
    unfold wp, random_choice, bind, get_world, put_world, ret, raise; simpl;
    repeat split.
Qed.

Lemma wp_random_choice_ok l st :
  l <> [] ->
  wp (random_choice E l) (fun r st' => (exists x, r = Ok x) /\ silent st st') st.
Proof.
  intros Hl. destruct st as [s w], l; [contradiction|].
  unfold wp, random_choice, bind, get_world, put_world, ret; simpl.
  split; [eauto|repeat split].
Qed.

Lemma wp_time_sleep d st :
  wp (time_sleep E d)
     (fun r st' => quiet st st'
                   /\ (0 <= d -> r = Ok tt /\ clock (snd st) + d <= clock (snd st')))
     st.
Proof.
  destruct st as [s w]. unfold wp, time_sleep.
  destruct (Z.ltb_spec d 0); simpl.
  - repeat split; simpl; lia.
  - repeat split; simpl; lia.
Qed.

Lemma wp_asyncio_sleep d st :
  wp (asyncio_sleep E d)
     (fun r st' => r = Ok tt /\ quiet st st'
                   /\ clock (snd st) + d <= clock (snd st'))
     st.
Proof.
  destruct st as [s w]. unfold wp, asyncio_sleep.
  destruct (Z.leb_spec d 0); simpl; repeat split; simpl; lia.
Qed.

Lemma wp_parse_items items stories st :
  wp (parse_items E items stories)
     (fun r st' =>
        r = Ok (stories ++ parse_body_items (localtime E (clock (snd st))) items)
        /\ silent st st')
     st.
Proof.
  destruct (parse_items_spec E items stories st) as (st' & Hrun & Hs & Hw & _).
  unfold wp. rewrite Hrun. simpl. split; [reflexivity|].
  destruct Hw as (Hc & Hr & _). repeat split; assumption.
Qed.

(** One GET: the request is recorded at the present time. *)
Lemma wp_http_get url st :
  wp (http_get E url)
     (fun r st' =>
        fst st' = fst st
        /\ requests (snd st') = (clock (snd st), url) :: requests (snd st)
        /\ clock (snd st) <= clock (snd st')
        /\ match r with
           | Ok (status, text) =>
               respond E (length (requests (snd st))) url = Response status text
           | Raise e => exn_kind e = RequestException
           end)
     st.
Proof.
  destruct st as [s w]. unfold wp, http_get, bind, get_world, put_world. simpl.
  destruct (respond E (length (requests w)) url) as [status text|msg]; simpl;
    repeat split; simpl; lia.
Qed.

Lemma wp_raise_for_status (r0 : Z * string) st :
  wp (raise_for_status r0)
     (fun r st' =>
        st' = st
        /\ match r with
           | Ok _ => good (Response (fst r0) (snd r0)) = Some (snd r0)
           | Raise e => exn_kind e = RequestException
           end)
     st.
Proof.
  unfold wp, raise_for_status, good.
  destruct ((400 <=? fst r0) && (fst r0 <? 600)); simpl; auto.
Qed.

Lemma wp_raise_for_status_good (r0 : Z * string) st :
  wp (raise_for_status r0)
     (fun r st' =>
        st' = st
        /\ match r with
           | Ok _ => True
           | Raise e => good (Response (fst r0) (snd r0)) = None
           end)
     st.
Proof.
  unfold wp, raise_for_status, good.
  destruct ((400 <=? fst r0) && (fst r0 <? 600)); simpl; auto.
Qed.

End EffectFacts.

(** ** The sequential scraper *)

Section SequentialFacts.
Context `{DT : DateTime}.
Variable E : Env.
Import Story HackerNewsScraper.
Implicit Types st : Scraper * World.

Lemma sync_step_refl st : sync_step st st.
Proof.
  repeat split; try lia; [exists []; reflexivity | auto].
Qed.

Lemma sync_step_trans st1 st2 st3 :
  sync_step st1 st2 -> sync_step st2 st3 -> sync_step st1 st3.
Proof.
  intros (Hc1 & Hf1 & Hg1 & Ht1 & (n1 & Hn1) & Hp1)
         (Hc2 & Hf2 & Hg2 & Ht2 & (n2 & Hn2) & Hp2).
  repeat split; try congruence; try lia.
  - exists (n2 ++ n1). unfold requests_since in *. rewrite Hn2, Hn1.
    apply app_assoc.
  - intros w0 H. rewrite Hc1 in Hp2. auto.
Qed.

Lemma paced_quiet rl w0 lrt (w w' : World) :
  requests w' = requests w -> clock w <= clock w' ->
  paced rl w0 lrt w -> paced rl w0 lrt w'.
Proof.
  intros Hr Hc (new & Hn & Hs & Hh). exists new.
  unfold requests_since in *. rewrite Hr. repeat split; try assumption.
  destruct new as [|[t u] ?]; [trivial|]. split; [lia|tauto].
Qed.

Lemma quiet_sync_step st st' : quiet st st' -> sync_step st st'.
Proof.
  intros (Hs & Hr & Hc). unfold sync_step. rewrite Hs.
  repeat split; try assumption.
  - exists []. exact Hr.
  - intros w0. apply paced_quiet; assumption.
Qed.

(** [_respect_rate_limit] returns at a time that is at least the rate limit
    after the time it found in [last_request_time], and stores that time. *)
Lemma wp_respect_rate_limit st :
  wp (_respect_rate_limit E)
     (fun r st' =>
        r = Ok tt
        /\ config (fst st') = config (fst st)
        /\ _stop_flag (fst st') = _stop_flag (fst st)
        /\ _scraping (fst st') = _scraping (fst st)
        /\ requests (snd st') = requests (snd st)
        /\ clock (snd st) <= clock (snd st')
        /\ last_request_time (fst st') = clock (snd st')
        /\ last_request_time (fst st) + rate_limit (config (fst st))
           <= clock (snd st'))
     st.
Proof.
  destruct st as [s w].
  unfold wp, _respect_rate_limit, bind, get_self, time_time, get_world, ret,
    set_last_request_time, put_self. simpl.
  destruct (Z.ltb_spec (clock w - last_request_time s) (rate_limit (config s))).
  - unfold time_sleep.
    destruct (Z.ltb_spec (rate_limit (config s) - (clock w - last_request_time s)) 0);
      [lia|].
    simpl. repeat split; simpl; lia.
  - simpl. repeat split; simpl; lia.
Qed.

(** A request made right after [_respect_rate_limit] keeps the trace
    paced. *)
Lemma paced_request rl w0 (w1 w3 : World) url clock1 :
  requests w3 = (clock1, url) :: requests w1 ->
  clock1 <= clock w3 ->
  (exists new,
     requests_since w0 w1 new /\ spaced rl (map fst new)
     /\ match new with
        | (t, _) :: _ => t + rl <= clock1 /\ t <= clock1
        | [] => True
        end) ->
  paced rl w0 clock1 w3.
Proof.
  intros Hr Hc (new & Hn & Hs & Hgap).
  exists ((clock1, url) :: new). unfold requests_since in *.
  split; [rewrite Hr, Hn; reflexivity|].
  split; [|split; lia].
  simpl. split; [|exact Hs].
  destruct new as [|[t u] new']; simpl; [trivial|exact Hgap].
Qed.

(** After [_respect_rate_limit] the next request may start. *)
Lemma paced_primed rl w0 lrt (w w1 : World) :
  requests w1 = requests w -> clock w <= clock w1 -> lrt + rl <= clock w1 ->
  paced rl w0 lrt w ->
  exists new,
    requests_since w0 w1 new /\ spaced rl (map fst new)
    /\ match new with
       | (t, _) :: _ => t + rl <= clock w1 /\ t <= clock w1
       | [] => True
       end.
Proof.
  intros Hr Hc Hl (new & Hn & Hs & Hh). exists new.
  unfold requests_since in *. rewrite Hr.
  repeat split; try assumption.
  destruct new as [|[t u] ?]; [trivial|].
  destruct Hh as [Ht Hlrt]. destruct (Z.le_gt_cases 0 rl); [specialize (Hlrt ltac:(assumption))|]; lia.
Qed.

Lemma silent_sync_step st st' : silent st st' -> sync_step st st'.
Proof. intros H. apply quiet_sync_step, silent_quiet, H. Qed.

Lemma backoff_nonneg attempt : 0 <= 2 ^ attempt * second.
Proof. unfold second. pose proof (Z.pow_nonneg 2 attempt). lia. Qed.

(** The attempts loop: a returned response is one the site served for the
    URL with an acceptable status. *)
Lemma wp_make_request_loop url attempts : forall st,
  wp (_make_request_loop E url attempts)
     (fun r st' =>
        sync_step st st'
        /\ match r with
           | Ok (Some response) => served E url (snd response)
           | _ => True
           end)
     st.
Proof.
  induction attempts as [|attempt rest IH]; intros st.
  - apply wp_ret. split; [apply sync_step_refl|trivial].
  - cbn [_make_request_loop].
    apply wp_bind, wp_get_self.
    set (Q := fun (r : result (option (Z * string))) st' =>
                sync_step st st'
                /\ match r with
                   | Ok (Some response) => served E url (snd response)
                   | _ => True
                   end).
    assert (Hrest : forall st1, sync_step st st1 ->
              wp (_make_request_loop E url rest) Q st1).
    { intros st1 H1. eapply wp_mono; [apply IH|].
      intros r st' [H2 Hres]. split; [eapply sync_step_trans; eassumption|exact Hres]. }
    apply wp_bind. apply wp_try_except_class.
    wp_apply wp_respect_rate_limit.
    intros r st1 (-> & Hc1 & Hf1 & Hsc1 & Hr1 & Ht1 & Hl1 & Hg1).
    assert (H01 : sync_step st st1).
    { repeat split; try assumption; [exists []; exact Hr1|].
      intros w0 Hp. eapply paced_quiet in Hp; [|exact Hr1|exact Ht1].
      destruct Hp as (new & Hn & Hs & Hh). exists new.
      repeat split; try assumption.
      destruct new as [|[t u] ?]; [trivial|]. split; [tauto|]. intros _. lia. }
    wp_apply wp_logging. intros r st2 (-> & Hs2).
    wp_apply wp_http_get. intros r st3 (Hs3 & Hr3 & Ht3 & Hres).
    assert (H03 : sync_step st st3).
    { destruct Hs2 as (Hs2 & Hr2 & Ht2).
      repeat split.
      - rewrite Hs3, Hs2. exact Hc1.
      - rewrite Hs3, Hs2. exact Hf1.
      - rewrite Hs3, Hs2. exact Hsc1.
      - lia.
      - exists [(clock (snd st2), url)]. unfold requests_since.
        rewrite Hr3, Hr2, Hr1. reflexivity.
      - intros w0 Hp. rewrite Hs3, Hs2, Hl1, <- Ht2.
        eapply paced_request; [exact Hr3|exact Ht3|].
        rewrite Ht2. eapply paced_primed in Hp; [|exact Hr1|exact Ht1|exact Hg1].
        destruct Hp as (new & Hn & Hp). exists new. split; [|exact Hp].
        unfold requests_since in *. rewrite Hr2. exact Hn. }
    assert (Hhandler : forall e st4, sync_step st st4 ->
      wp (do* logging WARNING ("Request failed (attempt "
                               +:+ Py.str_int (attempt + 1) +:+ "): " +:+ str_exn e) in
          if decide (attempt = max_retries (config (fst st)) - 1)
          then raise (mkExn ScrapingError
                        ("Failed to fetch " +:+ url +:+ ": " +:+ str_exn e))
          else do* time_sleep E (2 ^ attempt * second) in ret None)
         (fun r st' =>
            match r with
            | Ok (Some response) => wp (ret (Some response)) Q st'
            | Ok None => wp (_make_request_loop E url rest) Q st'
            | Raise e => Q (Raise e) st'
            end) st4).
    { intros e st4 H4.
      wp_apply wp_logging. intros r' st5 (-> & Hs5).
      assert (H05 : sync_step st st5)
        by (eapply sync_step_trans; [exact H4|apply silent_sync_step, Hs5]).
      destruct (decide _).
      - apply wp_raise. split; [exact H05|trivial].
      - wp_apply wp_time_sleep. intros r' st6 (Hq6 & Hok).
        destruct (Hok (backoff_nonneg attempt)) as [-> _].
        apply wp_ret. apply Hrest.
        eapply sync_step_trans; [exact H05|apply quiet_sync_step, Hq6]. }
    destruct r as [[status text]|e].
    + wp_apply wp_raise_for_status. intros r st4 (-> & Hgood).
      destruct r as [[]|e].
      * wp_apply wp_logging. intros r st5 (-> & Hs5).
        apply wp_ret. apply wp_ret. split.
        -- eapply sync_step_trans; [exact H03|apply silent_sync_step, Hs5].
        -- simpl. eexists. rewrite Hres. exact Hgood.
      * rewrite Hgood. simpl.
        eapply wp_mono; [apply (Hhandler e st3 H03)|].
        intros [[resp|]|e'] st'; auto.
    + rewrite Hres. simpl.
      eapply wp_mono; [apply (Hhandler e st3 H03)|].
      intros [[resp|]|e'] st'; auto.
Qed.

(** [scrape_page]: a returned list is parsed from a body served for the
    page; every failure surfaces as a [ScrapingError]. *)
Lemma wp_scrape_page p st :
  wp (scrape_page E p)
     (fun r st' =>
        sync_step st st'
        /\ match r with
           | Ok l => page_records E (config (fst st)) p l
           | Raise e => exn_kind e = ScrapingError
           end)
     st.
Proof.
  unfold scrape_page.
  set (Q := fun (r : result (list Story)) st' =>
              sync_step st st'
              /\ match r with
                 | Ok l => page_records E (config (fst st)) p l
                 | Raise e => exn_kind e = ScrapingError
                 end).
  assert (Hhandler : forall e st1, sync_step st st1 ->
    wp (let msg := "Failed to scrape page " +:+ Py.str_int p +:+ ": " +:+ str_exn e in
        do* logging ERROR msg in raise (mkExn ScrapingError msg)) Q st1).
  { intros e st1 H1. cbv zeta. wp_apply wp_logging. intros r st2 (-> & Hs2).
    apply wp_raise. split; [|reflexivity].
    eapply sync_step_trans; [exact H1|apply silent_sync_step, Hs2]. }
  apply wp_try_except.
  apply wp_bind, wp_get_self.
  wp_apply wp_logging. intros r st1 (-> & Hs1).
  pose proof (silent_sync_step _ _ Hs1) as H01.
  apply wp_bind. unfold _make_request. apply wp_bind, wp_get_self.
  eapply wp_mono; [apply wp_make_request_loop|]. intros r st2 [H12 Hres].
  pose proof (sync_step_trans _ _ _ H01 H12) as H02.
  destruct r as [[[status text]|]|e].
  - wp_apply wp_logging. intros r st3 (-> & Hs3).
    wp_apply wp_parse_items. intros r st4 (-> & Hs4).
    wp_apply wp_logging. intros r st5 (-> & Hs5).
    apply wp_ret. split.
    + eapply sync_step_trans; [exact H02|].
      apply silent_sync_step.
      eapply silent_trans; [exact Hs3|]. eapply silent_trans; [exact Hs4|exact Hs5].
    + eexists _, text. split; [exact Hres|reflexivity].
  - apply wp_raise. apply Hhandler, H02.
  - apply Hhandler, H02.
Qed.

(** The page loop: the returned list is what was there, followed by the
    lists of the pages scraped, in order; unless the stop flag is set every
    page is scraped. *)
Lemma wp_scrape_loop n cb pages : forall stories k st,
  wp (scrape_loop E n cb pages stories k)
     (fun r st' =>
        sync_step st st'
        /\ match r with
           | Ok l =>
               exists ls,
                 l = stories ++ concat ls
                 /\ Forall2 (page_records E (config (fst st)))
                            (take (length ls) pages) ls
                 /\ (_stop_flag (fst st) = false -> length ls = length pages)
           | Raise _ => True
           end)
     st.
Proof.
  induction pages as [|page rest IH]; intros stories k st.
  - apply wp_ret. split; [apply sync_step_refl|].
    exists []. simpl. rewrite app_nil_r. repeat split. constructor.
  - cbn [scrape_loop]. apply wp_bind, wp_get_self.
    destruct (_stop_flag (fst st)) eqn:Hflag.
    + apply wp_ret. split; [apply sync_step_refl|].
      exists []. simpl. rewrite app_nil_r. repeat split; [constructor|discriminate].
    + wp_apply wp_scrape_page. intros r st1 [H01 Hres].
      destruct r as [page_stories|e]; [|split; [exact H01|trivial]].
      apply wp_bind.
      eapply (wp_mono _ (fun r st' => r = Ok tt /\ silent st1 st')).
      { destruct cb; [apply wp_progress_callback|].
        apply wp_ret. split; [reflexivity|apply silent_refl]. }
      intros r st2 (-> & Hs2).
      pose proof (sync_step_trans _ _ _ H01 (silent_sync_step _ _ Hs2)) as H02.
      apply wp_bind.
      eapply (wp_mono _ (fun r st' => quiet st2 st')).
      { destruct (page <? n); [|apply wp_ret, quiet_refl].
        eapply wp_mono; [apply wp_time_sleep|]. intros ? ? [? _]. assumption. }
      intros r st3 Hq3.
      pose proof (sync_step_trans _ _ _ H02 (quiet_sync_step _ _ Hq3)) as H03.
      destruct r as [[]|e]; [|split; [exact H03|trivial]].
      eapply wp_mono; [apply IH|]. intros r st4 [H34 Hrest].
      split; [eapply sync_step_trans; eassumption|].
      destruct r as [l|e]; [|trivial].
      destruct Hrest as (ls & -> & Hall & Hlen).
      destruct H03 as (Hc3 & Hf3 & _).
      exists (page_stories :: ls). split; [|split].
      * simpl. rewrite <- app_assoc. reflexivity.
      * simpl. constructor; [exact Hres|]. rewrite <- Hc3. exact Hall.
      * intros _. simpl. f_equal. apply Hlen. congruence.
Qed.

(** [scrape_stories]: the list returned is the concatenation of the page
    lists; a failure is a [ScrapingError]. *)
Lemma wp_scrape_stories n cb st :
  wp (scrape_stories E n cb)
     (fun r st' =>
        sync_step st st'
        /\ match r with
           | Ok l =>
               exists ls,
                 l = concat ls
                 /\ Forall2 (page_records E (config (fst st)))
                            (take (length ls) (range 1 (n + 1))) ls
                 /\ (_stop_flag (fst st) = false ->
                     length ls = length (range 1 (n + 1)))
           | Raise e => exn_kind e = ScrapingError
           end)
     st.
Proof.
  unfold scrape_stories. apply wp_try_except.
  eapply wp_mono; [apply wp_scrape_loop|]. intros r st1 [H01 Hres].
  destruct r as [l|e].
  - split; [exact H01|]. exact Hres.
  - cbv zeta. wp_apply wp_logging. intros r st2 (-> & Hs2).
    apply wp_raise. split; [|reflexivity].
    eapply sync_step_trans; [exact H01|apply silent_sync_step, Hs2].
Qed.

End SequentialFacts.

(** ** The asynchronous scraper *)

Section AsynchronousFacts.
Context `{DT : DateTime}.
Variable E : Env.
Import Story AsyncHackerNewsScraper.
Implicit Types st : Scraper * World.

Lemma async_step_refl st : async_step st st.
Proof.
  repeat split; try lia; [exists []; reflexivity | auto].
Qed.

Lemma async_step_trans st1 st2 st3 :
  async_step st1 st2 -> async_step st2 st3 -> async_step st1 st3.
Proof.
  intros (Hc1 & Hf1 & Hg1 & Ht1 & (n1 & Hn1) & Hp1)
         (Hc2 & Hf2 & Hg2 & Ht2 & (n2 & Hn2) & Hp2).
  repeat split; try congruence; try lia.
  - exists (n2 ++ n1). unfold requests_since in *. rewrite Hn2, Hn1.
    apply app_assoc.
  - intros w0 H. rewrite Hc1 in Hp2. auto.
Qed.

Lemma quiet_async_step st st' : quiet st st' -> async_step st st'.
Proof.
  intros (Hs & Hr & Hc). unfold async_step. rewrite Hs.
  repeat split; try assumption.
  - exists []. exact Hr.
  - intros w0. apply paced_quiet; assumption.
Qed.

Lemma silent_async_step st st' : silent st st' -> async_step st st'.
Proof. intros H. apply quiet_async_step, silent_quiet, H. Qed.

Lemma wp_set_session x st :
  wp (set_session x) (fun r st' => r = Ok tt /\ async_step st st' /\ session (fst st') = x)
     st.
Proof.
  destruct st as [s w]. unfold wp. simpl.
  split; [reflexivity|]. split; [|reflexivity].
  repeat split; simpl; try lia; [exists []; reflexivity | auto].
Qed.

Lemma wp_async_respect_rate_limit st :
  wp (_respect_rate_limit E)
     (fun r st' =>
        r = Ok tt
        /\ config (fst st') = config (fst st)
        /\ _stop_flag (fst st') = _stop_flag (fst st)
        /\ _scraping (fst st') = _scraping (fst st)
        /\ session (fst st') = session (fst st)
        /\ requests (snd st') = requests (snd st)
        /\ clock (snd st) <= clock (snd st')
        /\ last_request_time (fst st') = clock (snd st')
        /\ last_request_time (fst st) + rate_limit (config (fst st))
           <= clock (snd st'))
     st.
Proof.
  destruct st as [s w].
  unfold wp, _respect_rate_limit, bind, get_self, time_time, get_world, ret,
    set_last_request_time, put_self. simpl.
  destruct (Z.ltb_spec (clock w - last_request_time s) (rate_limit (config s))).
  - unfold asyncio_sleep.
    destruct (Z.leb_spec (rate_limit (config s) - (clock w - last_request_time s)) 0);
      [lia|].
    simpl. repeat split; simpl; lia.
  - simpl. repeat split; simpl; lia.
Qed.

(** [self.session.get]: a request is made only on an open session. *)
Lemma wp_session_get url st :
  wp (session_get E url)
     (fun r st' =>
        fst st' = fst st
        /\ clock (snd st) <= clock (snd st')
        /\ match r with
           | Ok (status, text) =>
               requests (snd st') = (clock (snd st), url) :: requests (snd st)
               /\ respond E (length (requests (snd st))) url = Response status text
           | Raise e =>
               requests (snd st') = requests (snd st)
               \/ requests (snd st') = (clock (snd st), url) :: requests (snd st)
           end)
     st.
Proof.
  unfold session_get. apply wp_bind, wp_get_self.
  destruct (session (fst st)).
  - apply wp_raise. repeat split; try lia. left. reflexivity.
  - eapply wp_mono; [apply wp_http_get|].
    intros [[status text]|e] st' (Hs & Hr & Ht & Hres); repeat split; auto.
  - apply wp_raise. repeat split; try lia. left. reflexivity.
Qed.

Lemma wp_async_make_request_loop url attempts : forall st,
  wp (_make_request_loop E url attempts)
     (fun r st' =>
        async_step st st'
        /\ session (fst st') = session (fst st)
        /\ match r with
           | Ok (Some text) => served E url text
           | _ => True
           end)
     st.
Proof.
  induction attempts as [|attempt rest IH]; intros st.
  - apply wp_ret. split; [apply async_step_refl|]. split; [reflexivity|trivial].
  - cbn [_make_request_loop].
    apply wp_bind, wp_get_self.
    set (Q := fun (r : result (option string)) st' =>
                async_step st st'
                /\ session (fst st') = session (fst st)
                /\ match r with
                   | Ok (Some text) => served E url text
                   | _ => True
                   end).
    assert (Hrest : forall st1,
              async_step st st1 -> session (fst st1) = session (fst st) ->
              wp (_make_request_loop E url rest) Q st1).
    { intros st1 H1 Hx1. eapply wp_mono; [apply IH|].
      intros r st' (H2 & Hx2 & Hres).
      split; [eapply async_step_trans; eassumption|].
      split; [congruence|exact Hres]. }
    assert (Hhandler : forall e st4,
      async_step st st4 -> session (fst st4) = session (fst st) ->
      wp (if decide (attempt = max_retries (config (fst st)) - 1)
          then raise (mkExn ScraperError
                        ("Failed to fetch " +:+ url +:+ ": " +:+ str_exn e))
          else do* asyncio_sleep E (2 ^ attempt * second) in ret None)
         (fun r st' =>
            match r with
            | Ok (Some text) => wp (ret (Some text)) Q st'
            | Ok None => wp (_make_request_loop E url rest) Q st'
            | Raise e => Q (Raise e) st'
            end) st4).
    { intros e st4 H4 Hx4. destruct (decide _).
      - apply wp_raise. split; [exact H4|]. split; [exact Hx4|trivial].
      - wp_apply wp_asyncio_sleep. intros r' st6 (-> & Hq6 & _).
        apply wp_ret. apply Hrest.
        + eapply async_step_trans; [exact H4|apply quiet_async_step, Hq6].
        + destruct Hq6 as (-> & _). exact Hx4. }
    apply wp_bind. apply wp_try_except.
    unfold await.
    wp_apply wp_async_respect_rate_limit.
    intros r st1 (-> & Hc1 & Hf1 & Hsc1 & Hx1 & Hr1 & Ht1 & Hl1 & Hg1).
    assert (H01 : async_step st st1).
    { repeat split; try assumption; [exists []; exact Hr1|].
      intros w0 Hp. eapply paced_quiet in Hp; [|exact Hr1|exact Ht1].
      destruct Hp as (new & Hn & Hs & Hh). exists new.
      repeat split; try assumption.
      destruct new as [|[t u] ?]; [trivial|]. split; [tauto|]. intros _. lia. }
    wp_apply wp_random_choice. intros r st2 Hs2.
    pose proof (async_step_trans _ _ _ H01 (silent_async_step _ _ Hs2)) as H02.
    assert (Hx2 : session (fst st2) = session (fst st))
      by (destruct Hs2 as (-> & _); exact Hx1).
    destruct r as [user_agent|e];
      [|eapply wp_mono; [apply (Hhandler e st2 H02 Hx2)|];
        intros [[resp|]|e'] st'; auto].
    wp_apply wp_session_get. intros r st3 (Hs3 & Ht3 & Hres).
    assert (Hx3 : session (fst st3) = session (fst st)) by (rewrite Hs3; exact Hx2).
    assert (H03 : async_step st st3).
    { destruct Hs2 as (Hs2 & Hr2 & Ht2).
      assert (Hcase : requests (snd st3) = requests (snd st2)
                      \/ requests (snd st3)
                         = (clock (snd st2), url) :: requests (snd st2))
        by (destruct r as [[? ?]|?]; [right; apply Hres|exact Hres]).
      destruct Hcase as [Hr3|Hr3].
      - eapply async_step_trans; [exact H02|].
        apply quiet_async_step. repeat split; assumption.
      - repeat split.
        + rewrite Hs3, Hs2. exact Hc1.
        + rewrite Hs3, Hs2. exact Hf1.
        + rewrite Hs3, Hs2. exact Hsc1.
        + lia.
        + exists [(clock (snd st2), url)]. unfold requests_since.
          rewrite Hr3, Hr2, Hr1. reflexivity.
        + intros w0 Hp. rewrite Hs3, Hs2, Hl1, <- Ht2.
          eapply paced_request; [exact Hr3|exact Ht3|].
          rewrite Ht2. eapply paced_primed in Hp; [|exact Hr1|exact Ht1|exact Hg1].
          destruct Hp as (new & Hn & Hp). exists new. split; [|exact Hp].
          unfold requests_since in *. rewrite Hr2. exact Hn. }
    destruct r as [[status text]|e];
      [|eapply wp_mono; [apply (Hhandler e st3 H03 Hx3)|];
        intros [[resp|]|e'] st'; auto].
    wp_apply wp_raise_for_status. intros r st4 (-> & Hgood).
    destruct r as [[]|e];
      [|eapply wp_mono; [apply (Hhandler e st3 H03 Hx3)|];
        intros [[resp|]|e'] st'; auto].
    apply wp_ret. apply wp_ret. split; [exact H03|]. split; [exact Hx3|].
    simpl. eexists. destruct Hres as [_ Hres]. rewrite Hres. exact Hgood.
Qed.

(** [scrape_page] never raises. *)
Lemma wp_async_scrape_page p st :
  wp (scrape_page E p)
     (fun r st' =>
        async_step st st'
        /\ session (fst st') = session (fst st)
        /\ exists l, r = Ok l)
     st.
Proof.
  unfold scrape_page.
  set (Q := fun (r : result (list Story)) st' =>
              async_step st st'
              /\ session (fst st') = session (fst st)
              /\ exists l, r = Ok l).
  assert (Hhandler : forall e st1,
    async_step st st1 -> session (fst st1) = session (fst st) ->
    wp (do* logging ERROR ("Failed to scrape page " +:+ Py.str_int p
                           +:+ ": " +:+ str_exn e) in ret []) Q st1).
  { intros e st1 H1 Hx1. wp_apply wp_logging. intros r st2 (-> & Hs2).
    apply wp_ret. split; [|split].
    - eapply async_step_trans; [exact H1|apply silent_async_step, Hs2].
    - destruct Hs2 as (-> & _). exact Hx1.
    - exists []. reflexivity. }
  apply wp_try_except.
  apply wp_bind, wp_get_self.
  wp_apply wp_logging. intros r st1 (-> & Hs1).
  pose proof (silent_async_step _ _ Hs1) as H01.
  assert (Hx1 : session (fst st1) = session (fst st))
    by (destruct Hs1 as (-> & _); reflexivity).
  apply wp_bind. unfold await, _make_request. apply wp_bind, wp_get_self.
  eapply wp_mono; [apply wp_async_make_request_loop|]. intros r st2 (H12 & Hx2 & Hres).
  pose proof (async_step_trans _ _ _ H01 H12) as H02.
  assert (Hx02 : session (fst st2) = session (fst st)) by congruence.
  destruct r as [[text|]|e].
  - wp_apply wp_logging. intros r st3 (-> & Hs3).
    wp_apply wp_parse_items. intros r st4 (-> & Hs4).
    wp_apply wp_logging. intros r st5 (-> & Hs5).
    apply wp_ret.
    assert (Hs25 : silent st2 st5).
    { eapply silent_trans; [exact Hs3|]. eapply silent_trans; [exact Hs4|exact Hs5]. }
    split; [|split].
    + eapply async_step_trans; [exact H02|]. apply silent_async_step, Hs25.
    + destruct Hs25 as (-> & _). exact Hx02.
    + eexists. reflexivity.
  - apply wp_raise. apply Hhandler; assumption.
  - apply Hhandler; assumption.
Qed.

(** On an open session every attempt makes its request. *)
Lemma wp_session_get_open url st :
  session (fst st) = OpenSession ->
  wp (session_get E url)
     (fun r st' =>
        fst st' = fst st
        /\ requests (snd st') = (clock (snd st), url) :: requests (snd st)
        /\ match r with
           | Ok (status, text) =>
               respond E (length (requests (snd st))) url = Response status text
           | Raise e => good (respond E (length (requests (snd st))) url) = None
           end)
     st.
Proof.
  intros Hx. unfold session_get. apply wp_bind, wp_get_self. rewrite Hx.
  destruct st as [s w].
  unfold wp, http_get, bind, get_world, put_world. simpl.
  destruct (respond E (length (requests w)) url) as [status text|msg]; simpl;
    repeat split.
Qed.

Lemma range_nil a b : b <= a -> range a b = [].
Proof. intros H. unfold range. replace (Z.to_nat (b - a)) with 0%nat by lia. reflexivity. Qed.

Lemma range_cons a b : a < b -> range a b = a :: range (a + 1) b.
Proof.
  intros H. unfold range.
  replace (Z.to_nat (b - a)) with (S (Z.to_nat (b - (a + 1)))) by lia.
  cbn [seq map]. f_equal; [lia|].
  rewrite <- seq_shift, map_map. apply map_ext. intros i. lia.
Qed.

(** When the attempts that remain, from number [a] on, end without a
    returned response, each of them made a request that failed. *)
Lemma wp_async_attempts_fail url len : forall a st,
  a + Z.of_nat len = max_retries (config (fst st)) ->
  session (fst st) = OpenSession ->
  user_agents (config (fst st)) <> [] ->
  wp (_make_request_loop E url (range a (max_retries (config (fst st)))))
     (fun r st' =>
        match r with
        | Ok (Some _) => True
        | _ =>
            forall j, (j < len)%nat ->
                      good (respond E (length (requests (snd st)) + j) url) = None
        end)
     st.
Proof.
  induction len as [|len IH]; intros a st Ha Hx Hua.
  - rewrite range_nil by lia. apply wp_ret. intros j Hj. lia.
  - rewrite range_cons by lia. cbn [_make_request_loop].
    apply wp_bind, wp_get_self.
    set (k := length (requests (snd st))).
    set (Q := fun (r : result (option string)) (st' : Scraper * World) =>
                match r with
                | Ok (Some _) => True
                | _ => forall j, (j < S len)%nat -> good (respond E (k + j) url) = None
                end).
    assert (Hhandler : forall e st4,
      config (fst st4) = config (fst st) -> session (fst st4) = OpenSession ->
      length (requests (snd st4)) = S k ->
      good (respond E k url) = None ->
      wp (if decide (a = max_retries (config (fst st)) - 1)
          then raise (mkExn ScraperError
                        ("Failed to fetch " +:+ url +:+ ": " +:+ str_exn e))
          else do* asyncio_sleep E (2 ^ a * second) in ret None)
         (fun r st' =>
            match r with
            | Ok (Some text) => wp (ret (Some text)) Q st'
            | Ok None =>
                wp (_make_request_loop E url
                      (range (a + 1) (max_retries (config (fst st))))) Q st'
            | Raise e => Q (Raise e) st'
            end) st4).
    { intros e st4 Hc4 Hx4 Hk4 Hbad. destruct (decide _) as [Hlast|Hmore].
      - apply wp_raise. intros j Hj. assert (j = 0%nat) by lia. subst j.
        rewrite Nat.add_0_r. exact Hbad.
      - wp_apply wp_asyncio_sleep. intros r' st6 (-> & (Hs6 & Hr6 & _) & _).
        apply wp_ret.
        assert (Hc6 : config (fst st6) = config (fst st)) by (rewrite Hs6; exact Hc4).
        rewrite <- Hc6.
        eapply wp_mono; [apply (IH (a + 1) st6)|].
        + rewrite Hc6. lia.
        + rewrite Hs6. exact Hx4.
        + rewrite Hc6. exact Hua.
        + intros [[text|]|e'] st'; [trivial| |];
            intros Hrest j Hj; (destruct j as [|j];
              [rewrite Nat.add_0_r; exact Hbad|]);
            specialize (Hrest j ltac:(lia));
            rewrite Hr6, Hk4 in Hrest;
            replace (k + S j)%nat with (S k + j)%nat by lia; exact Hrest. }
    apply wp_bind. apply wp_try_except. unfold await.
    wp_apply wp_async_respect_rate_limit.
    intros r st1 (-> & Hc1 & _ & _ & Hx1 & Hr1 & _).
    wp_apply wp_random_choice_ok; [exact Hua|].
    intros r st2 ((ua & ->) & (Hs2 & Hr2 & _)).
    wp_apply wp_session_get_open; [rewrite Hs2, Hx1; exact Hx|].
    intros r st3 (Hs3 & Hr3 & Hres).
    assert (Hc3 : config (fst st3) = config (fst st)) by (rewrite Hs3, Hs2; exact Hc1).
    assert (Hx3 : session (fst st3) = OpenSession) by (rewrite Hs3, Hs2, Hx1; exact Hx).
    assert (Hk3 : length (requests (snd st3)) = S k)
      by (rewrite Hr3, Hr2, Hr1; reflexivity).
    rewrite Hr2, Hr1 in Hres. fold k in Hres.
    destruct r as [[status text]|e].
    + wp_apply wp_raise_for_status_good. intros r st4 (-> & Hgood).
      destruct r as [[]|e].
      * apply wp_ret. apply wp_ret. exact I.
      * eapply wp_mono; [apply (Hhandler e st3 Hc3 Hx3 Hk3)|].
        -- rewrite Hres. exact Hgood.
        -- intros [[resp|]|e'] st'; auto.
    + eapply wp_mono; [apply (Hhandler e st3 Hc3 Hx3 Hk3 Hres)|].
      intros [[resp|]|e'] st'; auto.
Qed.

Lemma wp_async_fetch_fails url st :
  session (fst st) = OpenSession ->
  wp (_make_request_loop E url (range 0 (max_retries (config (fst st)))))
     (fun r st' =>
        match r with
        | Ok (Some _) => True
        | _ => fetch_fails E (config (fst st)) url
        end)
     st.
Proof.
  intros Hx.
  destruct (decide (user_agents (config (fst st)) = [])) as [Hua|Hua].
  { eapply wp_mono; [apply wp_async_make_request_loop|].
    intros [[text|]|e] st' _; [trivial|left; exact Hua|left; exact Hua]. }
  destruct (Z.le_gt_cases (max_retries (config (fst st))) 0) as [Hm|Hm].
  { rewrite range_nil by exact Hm. apply wp_ret. right. exists 0%nat.
    intros j Hj. lia. }
  eapply wp_mono;
    [apply (wp_async_attempts_fail url
              (Z.to_nat (max_retries (config (fst st)))) 0 st);
     [lia|exact Hx|exact Hua]|].
  intros [[text|]|e] st' H; [trivial| |]; right; eexists; exact H.
Qed.

(** [scrape_page] during a run: the list is parsed from a body served for
    the page, or the fetch failed and the list is empty. *)
Lemma wp_async_scrape_page_open p st :
  session (fst st) = OpenSession ->
  wp (scrape_page E p)
     (fun r st' =>
        async_step st st'
        /\ session (fst st') = session (fst st)
        /\ exists l, r = Ok l /\ async_page_records E (config (fst st)) p l)
     st.
Proof.
  intros Hx. unfold scrape_page.
  set (Q := fun (r : result (list Story)) st' =>
              async_step st st'
              /\ session (fst st') = session (fst st)
              /\ exists l, r = Ok l /\ async_page_records E (config (fst st)) p l).
  assert (Hhandler : forall e st1,
    async_step st st1 -> session (fst st1) = session (fst st) ->
    fetch_fails E (config (fst st)) (page_url (config (fst st)) p) ->
    wp (do* logging ERROR ("Failed to scrape page " +:+ Py.str_int p
                           +:+ ": " +:+ str_exn e) in ret []) Q st1).
  { intros e st1 H1 Hx1 Hfail. wp_apply wp_logging. intros r st2 (-> & Hs2).
    apply wp_ret. split; [|split].
    - eapply async_step_trans; [exact H1|apply silent_async_step, Hs2].
    - destruct Hs2 as (-> & _). exact Hx1.
    - exists []. split; [reflexivity|right; split; [reflexivity|exact Hfail]]. }
  apply wp_try_except.
  apply wp_bind, wp_get_self.
  wp_apply wp_logging. intros r st1 (-> & Hs1).
  pose proof (silent_async_step _ _ Hs1) as H01.
  assert (Hs01 : fst st1 = fst st) by apply Hs1.
  assert (Hx1 : session (fst st1) = session (fst st)) by (rewrite Hs01; reflexivity).
  apply wp_bind. unfold await, _make_request. apply wp_bind, wp_get_self.
  eapply wp_mono;
    [apply wp_conj;
       [apply wp_async_make_request_loop
       |apply wp_async_fetch_fails; rewrite Hx1; exact Hx]|].
  intros r st2 [(H12 & Hx2 & Hres) Hfail]. rewrite Hs01 in Hfail.
  pose proof (async_step_trans _ _ _ H01 H12) as H02.
  assert (Hx02 : session (fst st2) = session (fst st)) by congruence.
  destruct r as [[text|]|e].
  - wp_apply wp_logging. intros r st3 (-> & Hs3).
    wp_apply wp_parse_items. intros r st4 (-> & Hs4).
    wp_apply wp_logging. intros r st5 (-> & Hs5).
    apply wp_ret.
    assert (Hs25 : silent st2 st5).
    { eapply silent_trans; [exact Hs3|]. eapply silent_trans; [exact Hs4|exact Hs5]. }
    split; [|split].
    + eapply async_step_trans; [exact H02|]. apply silent_async_step, Hs25.
    + destruct Hs25 as (-> & _). exact Hx02.
    + eexists. split; [reflexivity|]. left.
      eexists _, text. split; [exact Hres|reflexivity].
  - apply wp_raise. apply Hhandler; assumption.
  - apply Hhandler; assumption.
Qed.

(** The page loop never raises. *)
Lemma wp_async_scrape_loop n cb pages : forall stories k st,
  session (fst st) = OpenSession ->
  wp (scrape_loop E n cb pages stories k)
     (fun r st' =>
        async_step st st'
        /\ session (fst st') = session (fst st)
        /\ exists ls,
             r = Ok (stories ++ concat ls)
             /\ Forall2 (async_page_records E (config (fst st)))
                        (take (length ls) pages) ls
             /\ (_stop_flag (fst st) = false -> length ls = length pages))
     st.
Proof.
  induction pages as [|page rest IH]; intros stories k st Hx.
  - apply wp_ret. split; [apply async_step_refl|]. split; [reflexivity|].
    exists []. simpl. rewrite app_nil_r. repeat split. constructor.
  - cbn [scrape_loop]. apply wp_bind, wp_get_self.
    destruct (_stop_flag (fst st)) eqn:Hflag.
    + apply wp_ret. split; [apply async_step_refl|]. split; [reflexivity|].
      exists []. simpl. rewrite app_nil_r. repeat split; [constructor|discriminate].
    + unfold await. wp_apply wp_async_scrape_page_open; [exact Hx|].
      intros r st1 (H01 & Hx1 & page_stories & -> & Hres).
      apply wp_bind.
      eapply (wp_mono _ (fun r st' => r = Ok tt /\ silent st1 st')).
      { destruct cb; [apply wp_progress_callback|].
        apply wp_ret. split; [reflexivity|apply silent_refl]. }
      intros r st2 (-> & Hs2).
      pose proof (async_step_trans _ _ _ H01 (silent_async_step _ _ Hs2)) as H02.
      apply wp_bind.
      eapply (wp_mono _ (fun r st' => r = Ok tt /\ quiet st2 st')).
      { destruct (page <? n);
          [|apply wp_ret; split; [reflexivity|apply quiet_refl]].
        eapply wp_mono; [apply wp_asyncio_sleep|]. intros ? ? (? & ? & _). auto. }
      intros r st3 (-> & Hq3).
      pose proof (async_step_trans _ _ _ H02 (quiet_async_step _ _ Hq3)) as H03.
      assert (Hx3 : session (fst st3) = session (fst st)).
      { destruct Hq3 as (-> & _). destruct Hs2 as (-> & _). exact Hx1. }
      eapply wp_mono; [apply IH; rewrite Hx3; exact Hx|].
      intros r st4 (H34 & Hx4 & ls & -> & Hall & Hlen).
      split; [eapply async_step_trans; eassumption|].
      split; [congruence|].
      destruct H03 as (Hc3 & Hf3 & _).
      exists (page_stories :: ls). split; [|split].
      * simpl. rewrite <- app_assoc. reflexivity.
      * simpl. constructor; [exact Hres|]. rewrite <- Hc3. exact Hall.
      * intros _. simpl. f_equal. apply Hlen. congruence.
Qed.

(** [scrape_stories] never raises; the list returned is the concatenation
    of the page lists, and the session is closed at the end. *)
Lemma wp_async_scrape_stories n cb st :
  wp (scrape_stories E n cb)
     (fun r st' =>
        async_step st st'
        /\ session (fst st') = ClosedSession
        /\ exists ls,
             r = Ok (concat ls)
             /\ Forall2 (async_page_records E (config (fst st)))
                        (take (length ls) (range 1 (n + 1))) ls
             /\ (_stop_flag (fst st) = false ->
                 length ls = length (range 1 (n + 1))))
     st.
Proof.
  unfold scrape_stories, with_client_session. apply wp_try_except.
  wp_apply wp_set_session. intros r st1 (-> & H01 & Hx1).
  apply wp_try_finally.
  wp_apply wp_async_scrape_loop; [exact Hx1|].
  intros r st2 (H12 & _ & ls & -> & Hall & Hlen).
  wp_apply wp_logging. intros r st3 (-> & Hs3).
  apply wp_ret.
  eapply wp_mono; [apply wp_set_session|]. intros r st4 (-> & H34 & Hx4).
  split; [|split; [exact Hx4|]].
  - eapply async_step_trans; [exact H01|].
    eapply async_step_trans; [exact H12|].
    eapply async_step_trans; [apply silent_async_step, Hs3|exact H34].
  - destruct H01 as (Hc1 & Hf1 & _).
    exists ls. split; [reflexivity|]. rewrite <- Hc1, <- Hf1. split; assumption.
Qed.

End AsynchronousFacts.

(** ** Claims on the pipeline *)

Section PipelineClaims.
Context `{DT : DateTime}.
Variable E : Env.
Import Story.


Lemma range_length a b : length (range a b) = Z.to_nat (b - a).
Proof. unfold range. rewrite length_map, length_seq. reflexivity. Qed.


Lemma item_failures_app l1 l2 :
  item_failures (l1 ++ l2) = (item_failures l1 + item_failures l2)%nat.
Proof. unfold item_failures. rewrite List.filter_app, length_app. reflexivity. Qed.

Lemma parsed_or_failed now items :
  (length (parse_body_items now items) + length (failed_items now items))%nat
  = length items.
Proof.
  unfold parse_body_items, failed_items.
  induction items as [|i items IH]; [reflexivity|].
  cbn [List.filter length]. change (omap (extract now) (i :: items))
    with (match extract now i with
          | Some s => s :: omap (extract now) items
          | None => omap (extract now) items
          end).
  destruct (extract now i); simpl; lia.
Qed.

(** C4, amended: for every page, parsing never raises because of a
    malformed item: each item is read on its own, the operation returns the
    (possibly empty) list of the stories of the items that parse, in order,
    and nothing else.  The items that fail are not counted in what is
    returned; each of them leaves one warning in the log. *)
Theorem C4_parse_isolates_item_failures
    {Self : Type} (items : list Item) (st : Self * World) :
  let now := localtime E (clock (snd st)) in
  let run := parse_items E items [] st in
  fst run = Ok (parse_body_items now items)
  /\ item_failures (log (snd (snd run)))
     = (length (failed_items now items) + item_failures (log (snd st)))%nat
  /\ (length (parse_body_items now items) + length (failed_items now items))%nat
     = length items.
Proof.
  intros now run. subst run.
  destruct (parse_items_spec E items [] st) as (st' & Hrun & _ & _ & new & Hl & Hc).
  rewrite Hrun. simpl. split; [reflexivity|]. split.
  - rewrite Hl, item_failures_app, Hc. reflexivity.
  - apply parsed_or_failed.
Qed.



Lemma spaced_head_le rl t ts :
  spaced rl (t :: ts) -> forall j t2, ts !! j = Some t2 -> t2 <= t.
Proof.
  revert t. induction ts as [|t' ts IH]; intros t Hs j t2 Hj; [discriminate|].
  destruct Hs as [[_ Hle] Hs']. destruct j as [|j]; simpl in Hj.
  - injection Hj as <-. exact Hle.
  - specialize (IH t' Hs' j t2 Hj). lia.
Qed.

Lemma spaced_pairwise rl ts :
  spaced rl ts ->
  forall i j t1 t2, (i < j)%nat -> ts !! i = Some t1 -> ts !! j = Some t2 ->
                    t2 + rl <= t1.
Proof.
  induction ts as [|t ts IH]; intros Hs i j t1 t2 Hij Hi Hj; [discriminate|].
  destruct j as [|j]; [lia|]. simpl in Hj.
  destruct i as [|i]; simpl in Hi.
  - injection Hi as <-. destruct ts as [|t' ts']; [discriminate|].
    destruct Hs as [[Hgap Hle] Hs']. destruct j as [|j]; simpl in Hj.
    + injection Hj as <-. exact Hgap.
    + pose proof (spaced_head_le rl t' ts' Hs' j t2 Hj). lia.
  - destruct Hs as [_ Hs']. apply (IH Hs' i j); [lia|assumption|assumption].
Qed.

Lemma paced_start rl (w : World) lrt : paced rl w lrt w.
Proof. exists []. repeat split. Qed.

(** C9: across a whole run, whatever the number of pages, any two HTTP
    requests the run starts are at least the rate limit apart, in both
    scrapers.  Before a request [_respect_rate_limit] reads the clock,
    sleeps for what is missing of the interval since the time it last
    stored, and stores the time at which it returns, which is at least the
    rate limit after the previous one.  Time is the clock of the world:
    it never goes back, a sleep lasts at least as long as asked, and only
    sleeps and HTTP exchanges take time. *)
Theorem C9_requests_are_rate_limited (n : Z) (cb : bool) (w : World) :
  (forall s : HackerNewsScraper.Scraper,
     let st' := snd (HackerNewsScraper.scrape_stories E n cb (s, w)) in
     exists new,
       requests (snd st') = new ++ requests w
       /\ forall i j t1 t2,
            (i < j)%nat ->
            map fst new !! i = Some t1 -> map fst new !! j = Some t2 ->
            t2 + rate_limit (HackerNewsScraper.config s) <= t1)
  /\ (forall a : AsyncHackerNewsScraper.Scraper,
        let st' := snd (AsyncHackerNewsScraper.scrape_stories E n cb (a, w)) in
        exists new,
          requests (snd st') = new ++ requests w
          /\ forall i j t1 t2,
               (i < j)%nat ->
               map fst new !! i = Some t1 -> map fst new !! j = Some t2 ->
               t2 + rate_limit (AsyncHackerNewsScraper.config a) <= t1)
  /\ (forall s : HackerNewsScraper.Scraper,
        let st' := snd (HackerNewsScraper._respect_rate_limit E (s, w)) in
        HackerNewsScraper.last_request_time s
          + rate_limit (HackerNewsScraper.config s) <= clock (snd st')
        /\ HackerNewsScraper.last_request_time (fst st') = clock (snd st'))
  /\ (forall a : AsyncHackerNewsScraper.Scraper,
        let st' := snd (AsyncHackerNewsScraper._respect_rate_limit E (a, w)) in
        AsyncHackerNewsScraper.last_request_time a
          + rate_limit (AsyncHackerNewsScraper.config a) <= clock (snd st')
        /\ AsyncHackerNewsScraper.last_request_time (fst st') = clock (snd st')).
Proof.
  split; [|split; [|split]].
  - intros s st'. subst st'.
    pose proof (wp_scrape_stories E n cb (s, w)) as H. unfold wp in H.
    destruct H as [(_ & _ & _ & _ & _ & Hp) _].
    destruct (Hp w (paced_start _ _ _)) as (new & Hn & Hs & _).
    exists new. split; [exact Hn|]. apply spaced_pairwise, Hs.
  - intros a st'. subst st'.
    pose proof (wp_async_scrape_stories E n cb (a, w)) as H. unfold wp in H.
    destruct H as [(_ & _ & _ & _ & _ & Hp) _].
    destruct (Hp w (paced_start _ _ _)) as (new & Hn & Hs & _).
    exists new. split; [exact Hn|]. apply spaced_pairwise, Hs.
  - intros s st'. subst st'.
    pose proof (wp_respect_rate_limit E (s, w)) as H. unfold wp in H.
    destruct H as (_ & _ & _ & _ & _ & _ & Hl & Hg). auto.
  - intros a st'. subst st'.
    pose proof (wp_async_respect_rate_limit E (a, w)) as H. unfold wp in H.
    destruct H as (_ & _ & _ & _ & _ & _ & _ & Hl & Hg). auto.
Qed.

End PipelineClaims.

(** ** Claims on stopping *)

Section StopClaims.
Context `{DT : DateTime}.
Variable E : Env.
Import Story.

Lemma sync_stopped_scrape_stories n cb st :
  HackerNewsScraper._stop_flag (fst st) = true ->
  HackerNewsScraper.scrape_stories E n cb st = (Ok [], st).
Proof.
  intros Hflag. destruct st as [s w]. simpl in Hflag.
  unfold HackerNewsScraper.scrape_stories, try_except.
  destruct (range 1 (n + 1)) as [|page rest]; [reflexivity|].
  cbn [HackerNewsScraper.scrape_loop]. unfold bind, get_self. simpl.
  rewrite Hflag. reflexivity.
Qed.

Lemma sync_stopped_start_run callback n s w :
  sync_stopped (s, w) ->
  HackerNewsScraper.start_scraping E callback n (s, w)
  = (Ok tt,
     (HackerNewsScraper.mkScraper
        (HackerNewsScraper.config s) (HackerNewsScraper.session_user_agent s)
        (HackerNewsScraper.last_request_time s) (HackerNewsScraper.robot_parser s)
        false true (HackerNewsScraper._stop_flag s),
      if callback
      then mkWorld (clock w) (requests w) (sleeps w) (draws w) (log w)
                   (progress w) ([] :: delivered w)
      else w)).
Proof.
  intros [Hflag Hscr]. simpl in *.
  unfold HackerNewsScraper.start_scraping. unfold bind at 1. unfold get_self. simpl.
  rewrite Hscr.
  unfold bind at 1. simpl. unfold bind at 1. simpl.
  unfold try_except, try_finally. unfold bind at 1.
  rewrite sync_stopped_scrape_stories by exact Hflag.
  destruct callback; reflexivity.
Qed.

Lemma sync_stopped_start_scraping callback n st :
  sync_stopped st ->
  let st' := snd (HackerNewsScraper.start_scraping E callback n st) in
  sync_stopped st'
  /\ requests (snd st') = requests (snd st)
  /\ delivered (snd st')
     = if callback then [] :: delivered (snd st) else delivered (snd st).
Proof.
  intros H. destruct st as [s w]. cbv zeta.
  rewrite (sync_stopped_start_run callback n s w H).
  destruct H as [Hflag Hscr].
  destruct callback; simpl; repeat split; simpl; try assumption; reflexivity.
Qed.

Lemma sync_call_keeps_stopped c st :
  sync_stopped st -> sync_stopped (snd (sync_call E c st)).
Proof.
  intros [Hflag Hscr]. destruct c as [|n cb|p|callback n]; simpl.
  - destruct st as [s w]. split; reflexivity.
  - unfold bind. rewrite sync_stopped_scrape_stories by exact Hflag.
    split; assumption.
  - pose proof (wp_scrape_page E p st) as H. unfold wp in H. unfold bind.
    destruct (HackerNewsScraper.scrape_page E p st) as [[l|e] st'];
      simpl in *; destruct H as [(_ & Hf & Hg & _) _];
      split; congruence.
  - apply sync_stopped_start_scraping. split; assumption.
Qed.

Lemma sync_calls_keep_stopped cs : forall st,
  sync_stopped st -> sync_stopped (sync_calls E cs st).
Proof.
  induction cs as [|c cs IH]; intros st H; [exact H|].
  simpl. apply IH, sync_call_keeps_stopped, H.
Qed.

Lemma async_stopped_run n cb s w :
  AsyncHackerNewsScraper._stop_flag s = true ->
  AsyncHackerNewsScraper.scrape_stories E n cb (s, w)
  = (Ok [],
     (AsyncHackerNewsScraper.mkScraper
        (AsyncHackerNewsScraper.config s) AsyncHackerNewsScraper.ClosedSession
        (AsyncHackerNewsScraper.last_request_time s)
        (AsyncHackerNewsScraper.robot_parser s)
        (AsyncHackerNewsScraper._scraping s)
        (AsyncHackerNewsScraper._stop_flag s),
      mkWorld (clock w) (requests w) (sleeps w) (draws w)
              (mkLog INFO "Successfully scraped 0 stories total" :: log w)
              (progress w) (delivered w))).
Proof.
  intros Hflag.
  unfold AsyncHackerNewsScraper.scrape_stories,
    AsyncHackerNewsScraper.with_client_session, try_except, try_finally.
  unfold bind at 1. simpl.
  destruct (range 1 (n + 1)) as [|page rest].
  - reflexivity.
  - cbn [AsyncHackerNewsScraper.scrape_loop]. unfold bind at 1.
    unfold bind at 1. unfold get_self. simpl. rewrite Hflag. reflexivity.
Qed.

Lemma async_stopped_scrape_stories n cb st :
  async_stopped st ->
  let run := AsyncHackerNewsScraper.scrape_stories E n cb st in
  fst run = Ok []
  /\ requests (snd (snd run)) = requests (snd st)
  /\ async_stopped (snd run).
Proof.
  intros [Hflag Hscr]. destruct st as [s w]. cbv zeta.
  rewrite (async_stopped_run n cb s w Hflag).
  repeat split; assumption.
Qed.

Lemma async_stopped_start_run callback n s w :
  async_stopped (s, w) ->
  AsyncHackerNewsScraper.start_scraping E callback n (s, w)
  = (Ok tt,
     (AsyncHackerNewsScraper.mkScraper
        (AsyncHackerNewsScraper.config s) AsyncHackerNewsScraper.ClosedSession
        (AsyncHackerNewsScraper.last_request_time s)
        (AsyncHackerNewsScraper.robot_parser s)
        false (AsyncHackerNewsScraper._stop_flag s),
      mkWorld (clock w) (requests w) (sleeps w) (draws w)
              (mkLog INFO "Successfully scraped 0 stories total" :: log w)
              (progress w)
              (if callback then [] :: delivered w else delivered w))).
Proof.
  intros [Hflag Hscr]. simpl in Hflag, Hscr.
  unfold AsyncHackerNewsScraper.start_scraping. unfold bind at 1. unfold get_self.
  simpl. rewrite Hscr.
  unfold bind at 1. simpl. unfold try_finally, AsyncHackerNewsScraper.await.
  unfold bind at 1. rewrite async_stopped_run by exact Hflag.
  destruct callback; reflexivity.
Qed.

Lemma async_stopped_start_scraping callback n st :
  async_stopped st ->
  let st' := snd (AsyncHackerNewsScraper.start_scraping E callback n st) in
  async_stopped st'
  /\ requests (snd st') = requests (snd st)
  /\ delivered (snd st')
     = if callback then [] :: delivered (snd st) else delivered (snd st).
Proof.
  intros H. destruct st as [s w]. cbv zeta.
  rewrite (async_stopped_start_run callback n s w H).
  destruct H as [Hflag Hscr].
  destruct callback; simpl; repeat split; simpl; try assumption; reflexivity.
Qed.

Lemma async_call_keeps_stopped c st :
  async_stopped st -> async_stopped (snd (async_call E c st)).
Proof.
  intros [Hflag Hscr]. destruct c as [|n cb|p|callback n]; simpl.
  - destruct st as [s w]. split; reflexivity.
  - unfold bind.
    pose proof (async_stopped_scrape_stories n cb st (conj Hflag Hscr)) as (_ & _ & H).
    destruct (AsyncHackerNewsScraper.scrape_stories E n cb st) as [[l|e] st'];
      exact H.
  - pose proof (wp_async_scrape_page E p st) as H. unfold wp in H. unfold bind.
    destruct (AsyncHackerNewsScraper.scrape_page E p st) as [[l|e] st'];
      simpl in *; destruct H as [(_ & Hf & Hg & _) _];
      split; congruence.
  - apply async_stopped_start_scraping. split; assumption.
Qed.

Lemma async_calls_keep_stopped cs : forall st,
  async_stopped st -> async_stopped (async_calls E cs st).
Proof.
  induction cs as [|c cs IH]; intros st H; [exact H|].
  simpl. apply IH, async_call_keeps_stopped, H.
Qed.

(** C10, amended: once [stop_scraping] has been called on a scraper,
    sequential or asynchronous, no later call on that object clears the stop
    flag, so every later [scrape_stories] returns the empty list without
    fetching any page, and every later [start_scraping] hands the empty
    list to its callback without fetching any page: a stopped scraper never
    produces Records again through a run. *)
Theorem C10_stopped_scraper_stays_stopped (cs : list call) (n : Z) (cb : bool) :
  (forall st : HackerNewsScraper.Scraper * World,
     let st1 := sync_calls E cs (snd (HackerNewsScraper.stop_scraping st)) in
     HackerNewsScraper._stop_flag (fst st1) = true
     /\ HackerNewsScraper.scrape_stories E n cb st1 = (Ok [], st1)
     /\ (let st2 := snd (HackerNewsScraper.start_scraping E true n st1) in
         requests (snd st2) = requests (snd st1)
         /\ delivered (snd st2) = [] :: delivered (snd st1)))
  /\ (forall st : AsyncHackerNewsScraper.Scraper * World,
        let st1 := async_calls E cs (snd (AsyncHackerNewsScraper.stop_scraping st)) in
        AsyncHackerNewsScraper._stop_flag (fst st1) = true
        /\ (let run := AsyncHackerNewsScraper.scrape_stories E n cb st1 in
            fst run = Ok [] /\ requests (snd (snd run)) = requests (snd st1))
        /\ (let st2 := snd (AsyncHackerNewsScraper.start_scraping E true n st1) in
            requests (snd st2) = requests (snd st1)
            /\ delivered (snd st2) = [] :: delivered (snd st1))).
Proof.
  split.
  - intros st st1.
    assert (H : sync_stopped st1).
    { apply sync_calls_keep_stopped. destruct st as [s w]. split; reflexivity. }
    split; [apply H|]. split; [apply sync_stopped_scrape_stories, H|].
    apply (sync_stopped_start_scraping true n st1 H).
  - intros st st1.
    assert (H : async_stopped st1).
    { apply async_calls_keep_stopped. destruct st as [s w]. split; reflexivity. }
    split; [apply H|]. split.
    + pose proof (async_stopped_scrape_stories n cb st1 H) as (H1 & H2 & _). auto.
    + apply (async_stopped_start_scraping true n st1 H).
Qed.

End StopClaims.

(** ** The claims on concrete sites *)

Section ConcreteRuns.
Import Story Scenario.


(** In that run the asynchronous scraper returns the five Records of
    page 1, and the sequential scraper none. *)
Example scenario_async_returns_page1 :
  returned_ids
    (fst (AsyncHackerNewsScraper.scrape_stories (mk_env site_page2_down) 2 false
            (async0, world0)))
  = Some [Some "101"; Some "102"; Some "103"; Some "104"; Some "105"]
  /\ returned_ids
       (fst (HackerNewsScraper.scrape_stories (mk_env site_page2_down) 2 false
               (sync0, world0)))
     = None.
Proof. split; vm_compute; reflexivity. Qed.


(** C4 as stated fails: a page with one row that does not parse and a page
    with no row at all give the same returned value, the empty list, so the
    value returned does not tell how many items failed. *)
Lemma C4_counterexample :
  returned_ids
    (fst (HackerNewsScraper.scrape_page (mk_env site_broken) 1 (sync0, world0)))
  = Some []
  /\ returned_ids
       (fst (HackerNewsScraper.scrape_page (mk_env site_broken) 2 (sync0, world0)))
     = Some []
  /\ length (failed_items noon (select_athing (mk_env site_broken) "one broken row"))
     = 1%nat
  /\ length (failed_items noon (select_athing (mk_env site_broken) "no row"))
     = 0%nat.
Proof. repeat split; vm_compute; reflexivity. Qed.

(** C10 as stated fails on its last clause: after [stop_scraping], a direct
    call of the sequential [scrape_page], which does not read the flag,
    fetches the page and returns its Record. *)
Lemma C10_counterexample :
  let st := snd (HackerNewsScraper.stop_scraping (sync0, world0)) in
  let run := HackerNewsScraper.scrape_page (mk_env site_repeating) 1 st in
  HackerNewsScraper._stop_flag (fst st) = true
  /\ returned_ids (fst run) = Some [Some "101"]
  /\ requests (snd (snd run)) = [(0, page1)].
Proof. repeat split; vm_compute; reflexivity. Qed.

(** C3, on the code: where the site serves its robots.txt, constructing the
    sequential scraper makes one request for it and keeps the rules, while
    constructing the asynchronous scraper requests nothing and keeps no
    rules, because the coroutine built by [_load_robots_txt] is never
    awaited; where the site is unreachable the sequential constructor raises
    [RobotsTxtError] and the asynchronous one returns the same object as
    before, without any request and without logging a warning. *)
Theorem C3_robots_txt_at_construction :
  let sync_up := HackerNewsScraper.__init__ (mk_env site_page2_down) None world0 in
  let async_up := AsyncHackerNewsScraper.__init__ (mk_env site_page2_down) None world0 in
  let sync_down := HackerNewsScraper.__init__ (mk_env site_down) None world0 in
  let async_down := AsyncHackerNewsScraper.__init__ (mk_env site_down) None world0 in
  (fst sync_up = Ok sync_built
   /\ HackerNewsScraper.robot_parser sync_built = Some "User-agent: *"
   /\ requests (snd sync_up) = [(0, robots_txt)])
  /\ (fst async_up = Ok async_built
      /\ AsyncHackerNewsScraper.robot_parser async_built = None
      /\ requests (snd async_up) = []
      /\ log (snd async_up) = [])
  /\ (fst sync_down
        = Raise (mkExn RobotsTxtError "Failed to load robots.txt: unreachable")
      /\ requests (snd sync_down) = [(0, robots_txt)])
  /\ (fst async_down = Ok async_built
      /\ requests (snd async_down) = []
      /\ log (snd async_down) = []).
Proof. repeat split; vm_compute; reflexivity. Qed.


Lemma C7_witness :
  falsy None = true
  /\ exists id : string,
       Some "12346" = Some id
       /\ url (defaulting_rules "Test Story No URL" None 100 "testuser" 42
                                (Some "12346") (Some noon))
          = Some ("https://news.ycombinator.com/item?id=" +:+ id)
       /\ domain (defaulting_rules "Test Story No URL" None 100 "testuser" 42
                                   (Some "12346") (Some noon))
          = Some default_host
       /\ Urllib.netloc (base_url default_config) = Ok default_host.
Proof.
  split; [reflexivity|].
  apply (C7_missing_url_synthesized "Test Story No URL" None 100 "testuser" 42
           (Some "12346") (Some noon)); reflexivity.
Defined.

Lemma alpha_is_record : is_record alpha.
Proof.
  exists "Alpha", (Some "https://example.com/101"), 10, "pg", 12, (Some "101"),
    (Some noon). reflexivity.
Qed.

Lemma C8_witness :
  Forall is_record [alpha]
  /\ fst (FileStorage.save_stories [alpha] FileStorage.Missing) = Ok tt
  /\ FileStorage.load_stories
       (snd (FileStorage.save_stories [alpha] FileStorage.Missing)) = Ok [alpha]
  /\ (forall stored_domain : Story -> pyval,
        FileStorage.load_stories
          (FileStorage.Document
             (map (fun s => <["domain" := stored_domain s]> (to_dict s)) [alpha]))
        = Ok [alpha]).
Proof.
  assert (H : Forall is_record [alpha])
    by (constructor; [exact alpha_is_record|constructor]).
  split; [exact H|].
  apply (C8_save_load_roundtrip [alpha] FileStorage.Missing H).
Defined.

End ConcreteRuns.

(** ** More on the story model and the file store *)

Section StoreFacts.
Context `{DT : DateTime}.
Import Story FileStorage.

Lemma post_init_new s :
  __post_init__ s
  = new (title s) (url s) (points s) (username s) (comment_count s)
        (story_id s) (time s).
Proof. destruct s. reflexivity. Qed.



Lemma save_never_fails stories f :
  save_stories stories f = (Ok tt, Document (map to_dict stories)).
Proof. unfold save_stories. rewrite json_dump_to_dict. reflexivity. Qed.

Lemma load_saved stories f :
  Forall is_record stories ->
  load_stories (snd (save_stories stories f)) = Ok stories.
Proof.
  intros Hrec. rewrite save_never_fails. simpl.
  pose proof (from_dicts_to_dicts (fun s => of_optstr (domain s)) stories Hrec)
    as H.
  erewrite map_ext in H; [rewrite H; reflexivity|].
  intros s. simpl. apply insert_id. unfold to_dict.
  rewrite !lookup_insert_ne by discriminate. apply lookup_insert_eq.
Qed.


(** X1: validation is idempotent.  A story that [__post_init__] accepted
    is accepted again and comes back unchanged; its title, URL, author and
    identifier are non-empty, and the title, the identifier and the time
    are those of the candidate. *)
Theorem X1_post_init_idempotent (s s' : Story) :
  __post_init__ s = Ok s' ->
  __post_init__ s' = Ok s'
  /\ title s' <> EmptyString
  /\ falsy (url s') = false
  /\ username s' <> EmptyString
  /\ falsy (story_id s') = false
  /\ title s' = title s /\ story_id s' = story_id s /\ time s' = time s.
Proof.
  intros H. rewrite post_init_new in H.
  assert (Hrec : is_record s') by (do 7 eexists; exact H).
  split; [rewrite post_init_new; apply new_record, Hrec|].
  destruct (record_invariant s' Hrec)
    as (Ht & (u & Hu & Hu') & _ & Hun & _ & (i & Hi & Hi')).
  rewrite new_closed_form in H.
  destruct (decide (title s = EmptyString)); [discriminate|].
  destruct (falsy (story_id s)); [discriminate|].
  injection H as <-. simpl in *.
  repeat split; try assumption.
  - rewrite Hu. destruct u; [contradiction|reflexivity].
  - rewrite Hi. destruct i; [contradiction|reflexivity].
Qed.

(** X2: [from_dict] fills in no missing field.  It returns a story only
    for a dictionary whose keys, [domain] apart, are exactly the seven
    fields; the story is then a validated one, with the stored title and
    identifier and the stored points clamped at zero. *)
Theorem X2_from_dict_needs_exact_keys (data : gmap string pyval) (s : Story) :
  from_dict data = Ok s ->
  dom (delete "domain" data) = fields
  /\ is_record s
  /\ data !! "title" = Some (VStr (title s))
  /\ data !! "story_id" = Some (of_optstr (story_id s))
  /\ exists p, data !! "points" = Some (VInt p) /\ points s = Z.max 0 p.
Proof.
  unfold from_dict. intros H.
  destruct (parse_time (delete "domain" data)) as [d|e] eqn:Hpt; [|discriminate].
  simpl in H.
  assert (Hd : forall k, k <> "time" -> k <> "domain" -> d !! k = data !! k).
  { intros k Hk Hk'. unfold parse_time in Hpt.
    destruct (delete "domain" data !! "time") as [v|] eqn:Hv.
    - destruct (truthy v).
      + destruct v; try discriminate.
        destruct (fromisoformat s0); [|discriminate]. injection Hpt as <-.
        rewrite lookup_insert_ne by congruence. apply lookup_delete_ne. congruence.
      + injection Hpt as <-. apply lookup_delete_ne. congruence.
    - injection Hpt as <-. apply lookup_delete_ne. congruence. }
  assert (Hdom : dom d = dom (delete "domain" data)).
  { unfold parse_time in Hpt.
    destruct (delete "domain" data !! "time") as [v|] eqn:Hv.
    - destruct (truthy v).
      + destruct v; try discriminate.
        destruct (fromisoformat s0); [|discriminate]. injection Hpt as <-.
        rewrite dom_insert_L. apply elem_of_dom_2 in Hv.
        apply subseteq_union_1_L, singleton_subseteq_l, Hv.
      + injection Hpt as <-. reflexivity.
    - injection Hpt as <-. reflexivity. }
  unfold cls in H. destruct (decide (dom d = fields)) as [Hf|]; [|discriminate].
  unfold arg_str, arg_optstr, arg_int, arg_time in H.
  rewrite !Hd in H by discriminate.
  repeat match type of H with
         | context [data !! ?k] =>
             destruct (data !! k) as [[]|]; simpl in H; try discriminate
         | context [d !! ?k] =>
             destruct (d !! k) as [[]|]; simpl in H; try discriminate
         end;
    (split; [congruence|]);
    (split; [do 7 eexists; exact H|]);
    rewrite new_closed_form in H;
    (destruct (decide _); [discriminate|]);
    match type of H with
    | (if falsy ?x then _ else _) = _ => destruct (falsy x); [discriminate|]
    end;
    injection H as <-; simpl;
    repeat split; eexists; split; reflexivity.
Qed.


Lemma find_first {A} (P : A -> bool) (l : list A) :
  match List.find P l with
  | Some x =>
      exists l1 l2, l = l1 ++ x :: l2 /\ P x = true
                    /\ Forall (fun y => P y = false) l1
  | None => Forall (fun y => P y = false) l
  end.
Proof.
  induction l as [|a l IH]; simpl; [constructor|].
  destruct (P a) eqn:Ha.
  - exists [], l. repeat split; [exact Ha|constructor].
  - destruct (List.find P l) as [x|].
    + destruct IH as (l1 & l2 & -> & Hx & Hl1).
      exists (a :: l1), l2. repeat split; [exact Hx|constructor; assumption].
    + constructor; assumption.
Qed.

(** X4: looking a story up after a save.  [get_story_by_id] returns the
    first of the saved stories that carries the identifier, and [None]
    exactly when none of them does. *)
Theorem X4_get_story_by_id_after_save
    (stories : list Story) (id : string) (f : file) :
  Forall is_record stories ->
  exists r,
    get_story_by_id id (snd (save_stories stories f)) = Ok r
    /\ match r with
       | Some s =>
           exists before after,
             stories = before ++ s :: after
             /\ story_id s = Some id
             /\ Forall (fun x => story_id x <> Some id) before
       | None => Forall (fun x => story_id x <> Some id) stories
       end.
Proof.
  intros Hrec. unfold get_story_by_id. rewrite (load_saved stories f Hrec).
  eexists. split; [reflexivity|].
  assert (Hid : forall x, is_record x ->
            bool_decide (fmt (story_id x) = id) = true <-> story_id x = Some id).
  { intros x Hx. destruct (record_invariant x Hx) as (_ & _ & _ & _ & _ & i & -> & _).
    simpl. rewrite bool_decide_eq_true. split; congruence. }
  pose proof (find_first (fun s => bool_decide (fmt (story_id s) = id)) stories) as H.
  destruct (List.find _ stories) as [s|].
  - destruct H as (l1 & l2 & -> & Hs & Hl1).
    apply Forall_app in Hrec as [Hrec1 Hrec2].
    exists l1, l2. split; [reflexivity|]. split.
    + apply Hid; [|exact Hs]. apply Forall_cons in Hrec2 as [? _]. assumption.
    + apply Forall_forall. intros x Hx Heq.
      rewrite Forall_forall in Hl1, Hrec1.
      apply (Hid x (Hrec1 x Hx)) in Heq. rewrite (Hl1 x Hx) in Heq. discriminate.
  - apply Forall_forall. intros x Hx Heq.
    rewrite Forall_forall in H, Hrec.
    apply (Hid x (Hrec x Hx)) in Heq. rewrite (H x Hx) in Heq. discriminate.
Qed.

(** X5: counting and clearing.  After a save the count is the number of
    stories saved; after [clear_storage], whatever the file held, the store
    is empty: the count is zero, a load returns the empty list and no
    identifier is found; and clearing twice is clearing once. *)
Theorem X5_count_and_clear (stories : list Story) (f : file) :
  (Forall is_record stories ->
   get_story_count (snd (save_stories stories f))
   = Ok (Z.of_nat (length stories)))
  /\ fst (clear_storage f) = Ok tt
  /\ get_story_count (snd (clear_storage f)) = Ok 0
  /\ load_stories (snd (clear_storage f)) = Ok []
  /\ (forall id, get_story_by_id id (snd (clear_storage f)) = Ok None)
  /\ clear_storage (snd (clear_storage f)) = clear_storage f.
Proof.
  split.
  - intros Hrec. unfold get_story_count. rewrite (load_saved stories f Hrec).
    reflexivity.
  - repeat split.
Qed.



Lemma keyed_timestamp (l : list Story) :
  Py.keyed timestamp l
  = match l with
    | [] => Ok []
    | _ :: _ =>
        Raise (mkExn AttributeError "'Story' object has no attribute 'timestamp'")
    end.
Proof. destruct l; reflexivity. Qed.

(** X8: [get_latest_stories] never returns a story.  It sorts by an
    attribute [timestamp] that a story does not have: on a store that
    holds at least one story the call raises [StorageError], whatever the
    limit; it returns normally only on an empty store, with the empty
    list. *)
Theorem X8_get_latest_stories_needs_an_empty_store (limit : Z) (f : file) :
  (forall r, get_latest_stories limit f = Ok r ->
             r = [] /\ load_stories f = Ok [])
  /\ (forall s l, load_stories f = Ok (s :: l) ->
        get_latest_stories limit f
        = Raise (mkExn StorageError
                   ("Failed to get latest stories: "
                    +:+ "'Story' object has no attribute 'timestamp'")))
  /\ (load_stories f = Ok [] -> get_latest_stories limit f = Ok []).
Proof.
  unfold get_latest_stories, Py.sorted_reverse.
  split; [|split].
  - intros r. destruct (load_stories f) as [[|s l]|e]; simpl.
    + unfold Py.slice_to. simpl. destruct (limit <? 0); simpl;
        rewrite ?take_nil; intros H; injection H as <-; auto.
    + discriminate.
    + discriminate.
  - intros s l ->. reflexivity.
  - intros ->. simpl. unfold Py.slice_to. simpl.
    destruct (limit <? 0); simpl; rewrite ?take_nil; reflexivity.
Qed.

End StoreFacts.

(** ** File names ([utils.clean_filename]) *)

Section UtilsFacts.

Lemma clean_fold_cons (l : list ascii) : forall c s,
  fold_left (fun filename char => Py.replace_char char "_" filename) l (String c s)
  = String (fold_left (fun x char => if decide (x = char) then "_"%char else x) l c)
           (fold_left (fun filename char => Py.replace_char char "_" filename) l s).
Proof.
  induction l as [|a l IH]; intros c s; [reflexivity|].
  cbn [fold_left]. cbn [Py.replace_char]. apply IH.
Qed.

Lemma clean_char (l : list ascii) : forall c,
  "_"%char ∉ l ->
  fold_left (fun x char => if decide (x = char) then "_"%char else x) l c
  = if bool_decide (c ∈ l) then "_"%char else c.
Proof.
  induction l as [|a l IH]; intros c Hl; [reflexivity|].
  cbn [fold_left]. rewrite IH by (intros H; apply Hl; right; exact H).
  destruct (decide (c = a)) as [->|Hca].
  - rewrite (bool_decide_eq_true_2 (a ∈ a :: l)) by left.
    destruct (bool_decide _); reflexivity.
  - destruct (bool_decide (c ∈ l)) eqn:Hc.
    + apply bool_decide_eq_true_1 in Hc.
      rewrite bool_decide_eq_true_2 by (right; exact Hc). reflexivity.
    + apply bool_decide_eq_false_1 in Hc.
      rewrite bool_decide_eq_false_2; [reflexivity|].
      intros H. apply elem_of_cons in H as [?|?]; contradiction.
Qed.

Lemma underscore_is_valid : "_"%char ∉ Utils.invalid_chars.
Proof.
  unfold Utils.invalid_chars. intros H.
  repeat (apply elem_of_cons in H as [H|H]; [discriminate|]).
  inversion H.
Qed.

Lemma clean_filename_cons c s :
  Utils.clean_filename (String c s)
  = String (if bool_decide (c ∈ Utils.invalid_chars) then "_"%char else c)
           (Utils.clean_filename s).
Proof.
  unfold Utils.clean_filename. rewrite clean_fold_cons.
  rewrite (clean_char _ c underscore_is_valid). reflexivity.
Qed.

Lemma mem_cons c a s :
  Py.mem c (String a s) = bool_decide (a = c) || Py.mem c s.
Proof. simpl. destruct (decide (a = c)); [rewrite bool_decide_eq_true_2|rewrite bool_decide_eq_false_2]; auto. Qed.

(** X9: [clean_filename] replaces each of the nine invalid characters by
    an underscore and touches nothing else: the result has the length of
    the name, holds the same character wherever the name holds a valid one,
    contains no invalid character, is left alone by a second cleaning, and
    is the name itself when the name was clean. *)
Theorem X9_clean_filename (filename : string) :
  let cleaned := Utils.clean_filename filename in
  String.length cleaned = String.length filename
  /\ (forall i, String.get i cleaned
                = option_map (fun c => if bool_decide (c ∈ Utils.invalid_chars)
                                       then "_"%char else c)
                             (String.get i filename))
  /\ (forall c, c ∈ Utils.invalid_chars -> Py.mem c cleaned = false)
  /\ Utils.clean_filename cleaned = cleaned
  /\ ((forall c, c ∈ Utils.invalid_chars -> Py.mem c filename = false) ->
      cleaned = filename).
Proof.
  cbv zeta. induction filename as [|a s (IH1 & IH2 & IH3 & IH4 & IH5)].
  - repeat split; reflexivity.
  - rewrite clean_filename_cons. split; [simpl; congruence|].
    split; [intros [|i]; simpl; [reflexivity|apply IH2]|].
    split; [|split].
    + intros c Hc. rewrite mem_cons, (IH3 c Hc), orb_false_r.
      apply bool_decide_eq_false_2. intros <-.
      destruct (bool_decide (a ∈ Utils.invalid_chars)) eqn:Ha.
      * exact (underscore_is_valid Hc).
      * apply bool_decide_eq_false_1 in Ha. contradiction.
    + rewrite clean_filename_cons, IH4. f_equal.
      destruct (bool_decide (a ∈ Utils.invalid_chars)) eqn:Ha; [reflexivity|].
      rewrite Ha. reflexivity.
    + intros Hclean. f_equal.
      * destruct (bool_decide (a ∈ Utils.invalid_chars)) eqn:Ha; [|reflexivity].
        apply bool_decide_eq_true_1 in Ha. specialize (Hclean a Ha).
        rewrite mem_cons, bool_decide_eq_true_2 in Hclean by reflexivity.
        discriminate.
      * apply IH5. intros c Hc. specialize (Hclean c Hc).
        rewrite mem_cons in Hclean. apply orb_false_elim in Hclean as [_ H].
        exact H.
Qed.

End UtilsFacts.

(** ** Attempts, one by one *)

Section AttemptFacts.
Context `{DT : DateTime}.
Variable E : Env.
Context {Self : Type}.
Implicit Types st : Self * World.

Lemma later_refl w : later w w.
Proof. repeat split; lia. Qed.

Lemma later_trans w1 w2 w3 : later w1 w2 -> later w2 w3 -> later w1 w3.
Proof.
  intros (?&?&?&?) (?&?&?&?). repeat split; try congruence; lia.
Qed.

Lemma fetched_refl url w : fetched url 0 w w.
Proof. split; [exists []; auto|repeat split; lia]. Qed.

Lemma later_fetched url j w1 w2 w3 :
  later w1 w2 -> fetched url j w2 w3 -> fetched url j w1 w3.
Proof.
  intros (Hr & Hp & Hd & Hc) ((ts & Hlen & Hts) & Hp' & Hd' & Hc').
  split; [exists ts; split; [exact Hlen|congruence]|].
  repeat split; try congruence; lia.
Qed.

Lemma fetched_later url j w1 w2 w3 :
  fetched url j w1 w2 -> later w2 w3 -> fetched url j w1 w3.
Proof.
  intros ((ts & Hlen & Hts) & Hp' & Hd' & Hc') (Hr & Hp & Hd & Hc).
  split; [exists ts; split; [exact Hlen|congruence]|].
  repeat split; try congruence; lia.
Qed.

Lemma fetched_trans url i j w1 w2 w3 :
  fetched url i w1 w2 -> fetched url j w2 w3 -> fetched url (j + i) w1 w3.
Proof.
  intros ((ts & Hlen & Hts) & Hp & Hd & Hc) ((ts' & Hlen' & Hts') & Hp' & Hd' & Hc').
  split.
  - exists (ts' ++ ts). split; [rewrite length_app; lia|].
    rewrite Hts', Hts, map_app, app_assoc. reflexivity.
  - repeat split; try congruence; lia.
Qed.

Lemma fetched_length url j w w' :
  fetched url j w w' -> length (requests w') = (length (requests w) + j)%nat.
Proof.
  intros ((ts & Hlen & ->) & _). rewrite length_app, length_map. lia.
Qed.

Lemma wp_logging_later lvl msg st :
  wp (logging lvl msg)
     (fun r st' => r = Ok tt /\ fst st' = fst st /\ later (snd st) (snd st')
                   /\ clock (snd st') = clock (snd st)
                   /\ log (snd st') = mkLog lvl msg :: log (snd st))
     st.
Proof.
  destruct st as [s w]. unfold wp. simpl.
  repeat split; first [reflexivity|simpl; lia].
Qed.

Lemma wp_time_sleep_later d st :
  0 <= d ->
  wp (time_sleep E d)
     (fun r st' => r = Ok tt /\ fst st' = fst st /\ later (snd st) (snd st')
                   /\ clock (snd st) + d <= clock (snd st')
                   /\ log (snd st') = log (snd st))
     st.
Proof.
  intros Hd. destruct st as [s w]. unfold wp, time_sleep.
  destruct (Z.ltb_spec d 0); [lia|]. simpl.
  repeat split; first [reflexivity|simpl; lia].
Qed.

Lemma wp_asyncio_sleep_later d st :
  wp (asyncio_sleep E d)
     (fun r st' => r = Ok tt /\ fst st' = fst st /\ later (snd st) (snd st')
                   /\ clock (snd st) + d <= clock (snd st')
                   /\ log (snd st') = log (snd st))
     st.
Proof.
  destruct st as [s w]. unfold wp, asyncio_sleep.
  destruct (Z.leb_spec d 0); simpl;
    repeat split; first [reflexivity|simpl; lia].
Qed.

(** One GET, in full: what is recorded, and what comes back. *)
Lemma wp_http_get_exact url st :
  wp (http_get E url)
     (fun r st' =>
        fst st' = fst st
        /\ fetched url 1 (snd st) (snd st')
        /\ log (snd st') = log (snd st)
        /\ r = match respond E (length (requests (snd st))) url with
               | Response status text => Ok (status, text)
               | Failure msg => Raise (mkExn RequestException msg)
               end)
     st.
Proof.
  destruct st as [s w]. unfold wp, http_get, bind, get_world, put_world. simpl.
  destruct (respond E (length (requests w)) url) as [status text|msg]; simpl;
    (split; [reflexivity|]);
    (split; [split; [exists [clock w]; split; reflexivity
                    |repeat split; first [reflexivity|simpl; lia]]|]);
    split; reflexivity.
Qed.

Lemma wp_raise_for_status_exact (r0 : Z * string) st :
  wp (raise_for_status r0)
     (fun r st' =>
        st' = st
        /\ match good (Response (fst r0) (snd r0)) with
           | Some text => r = Ok tt /\ text = snd r0
           | None => r = Raise (mkExn RequestException
                                  (failure_text (Response (fst r0) (snd r0))))
           end)
     st.
Proof.
  unfold wp, raise_for_status, good, failure_text.
  destruct ((400 <=? fst r0) && (fst r0 <? 600)); simpl; auto.
Qed.

Lemma wp_random_choice_later l st :
  wp (random_choice E l)
     (fun r st' =>
        fst st' = fst st /\ later (snd st) (snd st')
        /\ clock (snd st') = clock (snd st)
        /\ log (snd st') = log (snd st)
        /\ (l = [] ->
            r = Raise (mkExn IndexError "Cannot choose from an empty sequence"))
        /\ (l <> [] -> exists x, r = Ok x /\ x ∈ l))
     st.
Proof.
  destruct st as [s w], l as [|x l];
    unfold wp, random_choice, bind, get_world, put_world, ret, raise;
    cbn [fst snd clock requests progress delivered log].
  - repeat split; try reflexivity; try lia; contradiction.
  - repeat split; try reflexivity; try lia; [discriminate|]. intros _.
    eexists. split; [reflexivity|].
    apply list_elem_of_In, nth_In. apply Nat.mod_upper_bound. discriminate.
Qed.

Lemma all_fail_0 url k0 : all_fail E url k0 0.
Proof. intros i Hi. lia. Qed.

Lemma all_fail_S url k0 j :
  good (respond E k0 url) = None -> all_fail E url (S k0) j ->
  all_fail E url k0 (S j).
Proof.
  intros H0 Hj [|i] Hi.
  - rewrite Nat.add_0_r. exact H0.
  - replace (k0 + S i)%nat with (S k0 + i)%nat by lia. apply Hj. lia.
Qed.

Lemma backoff_nonneg_total attempts : 0 <= backoff attempts.
Proof.
  induction attempts as [|a l IH]; simpl; [lia|].
  pose proof (Z.pow_nonneg 2 a). unfold second. lia.
Qed.

Lemma range_succ a b : a <= b -> range a (b + 1) = range a b ++ [b].
Proof.
  intros H. unfold range.
  replace (Z.to_nat (b + 1 - a)) with (Z.to_nat (b - a) + 1)%nat by lia.
  rewrite seq_app, map_app. simpl. do 2 f_equal. lia.
Qed.

Lemma backoff_app l1 l2 : backoff (l1 ++ l2) = backoff l1 + backoff l2.
Proof. induction l1 as [|a l1 IH]; simpl; lia. Qed.

(** The sleeps after attempts [0] to [j - 1] add up to [2^j - 1]
    seconds. *)
Lemma backoff_range j : 0 <= j -> backoff (range 0 j) = (2 ^ j - 1) * second.
Proof.
  revert j. apply natlike_ind; [reflexivity|].
  intros j Hj IH. unfold Z.succ. rewrite range_succ by lia.
  rewrite backoff_app, IH. simpl. rewrite Z.pow_add_r by lia. lia.
Qed.

Lemma wp_parse_items_later items stories st :
  wp (parse_items E items stories)
     (fun r st' =>
        r = Ok (stories ++ parse_body_items (localtime E (clock (snd st))) items)
        /\ fst st' = fst st
        /\ later (snd st) (snd st')
        /\ clock (snd st') = clock (snd st))
     st.
Proof.
  destruct (parse_items_spec E items stories st) as (st' & Hrun & Hs & Hw & _).
  unfold wp. rewrite Hrun. simpl. split; [reflexivity|]. split; [exact Hs|].
  destruct Hw as (Hc & Hr & _ & _ & Hp & Hd).
  repeat split; try assumption. lia.
Qed.

End AttemptFacts.

(** ** The sequential scraper, request by request *)

Section SequentialTrace.
Context `{DT : DateTime}.
Variable E : Env.
Import Story HackerNewsScraper.
Implicit Types st : Scraper * World.

Lemma sync_same_object_refl s : sync_same_object s s.
Proof. repeat split. Qed.

Lemma sync_same_object_trans s1 s2 s3 :
  sync_same_object s1 s2 -> sync_same_object s2 s3 -> sync_same_object s1 s3.
Proof.
  unfold sync_same_object. intros (?&?&?&?&?&?) (?&?&?&?&?&?).
  repeat split; congruence.
Qed.

Lemma wp_respect_rate_limit_frame st :
  wp (_respect_rate_limit E)
     (fun r st' =>
        r = Ok tt
        /\ sync_same_object (fst st) (fst st')
        /\ later (snd st) (snd st'))
     st.
Proof.
  destruct st as [s w].
  unfold wp, _respect_rate_limit, bind, get_self, time_time, get_world, ret,
    set_last_request_time, put_self. simpl.
  destruct (Z.ltb_spec (clock w - last_request_time s) (rate_limit (config s))).
  - unfold time_sleep.
    destruct (Z.ltb_spec (rate_limit (config s) - (clock w - last_request_time s)) 0);
      [lia|].
    simpl. repeat split; first [reflexivity|simpl; lia].
  - simpl. repeat split; first [reflexivity|simpl; lia].
Qed.

(** The attempts loop, in full: how many requests it makes, which answers
    they got, how long it slept, and what it returns or raises. *)
Lemma wp_make_request_loop_trace url attempts : forall st,
  wp (_make_request_loop E url attempts)
     (fun r st' =>
        let k0 := length (requests (snd st)) in
        sync_same_object (fst st) (fst st')
        /\ exists j,
             fetched url j (snd st) (snd st')
             /\ match r with
                | Ok (Some response) =>
                    exists j0,
                      j = S j0 /\ (j0 < length attempts)%nat
                      /\ all_fail E url k0 j0
                      /\ respond E (k0 + j0) url
                         = Response (fst response) (snd response)
                      /\ good (respond E (k0 + j0) url) = Some (snd response)
                      /\ clock (snd st) + backoff (take j0 attempts)
                         <= clock (snd st')
                | Ok None =>
                    j = length attempts
                    /\ all_fail E url k0 j
                    /\ Forall (fun a => a <> max_retries (config (fst st)) - 1)
                              attempts
                    /\ clock (snd st) + backoff attempts <= clock (snd st')
                | Raise e =>
                    exists j0,
                      j = S j0
                      /\ all_fail E url k0 j
                      /\ attempts !! j0 = Some (max_retries (config (fst st)) - 1)
                      /\ e = mkExn ScrapingError
                               ("Failed to fetch " +:+ url +:+ ": "
                                +:+ failure_text (respond E (k0 + j0) url))
                      /\ clock (snd st) + backoff (take j0 attempts)
                         <= clock (snd st')
                end)
     st.
Proof.
  induction attempts as [|attempt rest IH]; intros st; cbv zeta.
  - apply wp_ret. split; [apply sync_same_object_refl|].
    exists 0%nat. split; [apply fetched_refl|].
    split; [reflexivity|]. split; [apply all_fail_0|]. split; [constructor|].
    simpl. lia.
  - cbn [_make_request_loop].
    apply wp_bind, wp_get_self.
    set (k0 := length (requests (snd st))).
    set (Q := fun (r : result (option (Z * string))) (st' : Scraper * World) =>
        sync_same_object (fst st) (fst st')
        /\ exists j,
             fetched url j (snd st) (snd st')
             /\ match r with
                | Ok (Some response) =>
                    exists j0,
                      j = S j0 /\ (j0 < length (attempt :: rest))%nat
                      /\ all_fail E url k0 j0
                      /\ respond E (k0 + j0) url
                         = Response (fst response) (snd response)
                      /\ good (respond E (k0 + j0) url) = Some (snd response)
                      /\ clock (snd st) + backoff (take j0 (attempt :: rest))
                         <= clock (snd st')
                | Ok None =>
                    j = length (attempt :: rest)
                    /\ all_fail E url k0 j
                    /\ Forall (fun a => a <> max_retries (config (fst st)) - 1)
                              (attempt :: rest)
                    /\ clock (snd st) + backoff (attempt :: rest) <= clock (snd st')
                | Raise e =>
                    exists j0,
                      j = S j0
                      /\ all_fail E url k0 j
                      /\ (attempt :: rest) !! j0
                         = Some (max_retries (config (fst st)) - 1)
                      /\ e = mkExn ScrapingError
                               ("Failed to fetch " +:+ url +:+ ": "
                                +:+ failure_text (respond E (k0 + j0) url))
                      /\ clock (snd st) + backoff (take j0 (attempt :: rest))
                         <= clock (snd st')
                end).
    change (wp (let* returned :=
                  try_except_class [RequestException]
                    (do* _respect_rate_limit E in
                     do* logging DEBUG ("Making request to " +:+ url +:+ " "
                           +:+ attempt_msg attempt (max_retries (config (fst st)))) in
                     let* response := http_get E url in
                     do* raise_for_status response in
                     do* logging DEBUG ("Request successful: "
                                        +:+ Py.str_int (fst response)) in
                     ret (Some response))
                    (fun e =>
                       do* logging WARNING ("Request failed (attempt "
                                            +:+ Py.str_int (attempt + 1) +:+ "): "
                                            +:+ str_exn e) in
                       if decide (attempt = max_retries (config (fst st)) - 1)
                       then raise (mkExn ScrapingError
                                     ("Failed to fetch " +:+ url +:+ ": "
                                      +:+ str_exn e))
                       else
                         do* time_sleep E (2 ^ attempt * second) in
                         ret None) in
                match returned with
                | Some response => ret (Some response)
                | None => _make_request_loop E url rest
                end) Q st).
    apply wp_bind. apply wp_try_except_class.
    wp_apply wp_respect_rate_limit_frame. intros r st1 (-> & Ho1 & Hl1).
    wp_apply wp_logging_later. intros r st2 (-> & Hs2 & Hl2 & _).
    wp_apply wp_http_get_exact. intros r st3 (Hs3 & Hf3 & _ & ->).
    assert (Hk2 : length (requests (snd st2)) = k0).
    { unfold k0. rewrite (proj1 Hl2), (proj1 Hl1). reflexivity. }
    rewrite Hk2.
    assert (Ho3 : sync_same_object (fst st) (fst st3))
      by (rewrite Hs3, Hs2; exact Ho1).
    assert (Hf03 : fetched url 1 (snd st) (snd st3)).
    { eapply later_fetched; [exact Hl1|].
      eapply later_fetched; [exact Hl2|exact Hf3]. }
    assert (Hhandler : forall st4,
      good (respond E k0 url) = None ->
      sync_same_object (fst st) (fst st4) ->
      fetched url 1 (snd st) (snd st4) ->
      wp (do* logging WARNING ("Request failed (attempt "
                               +:+ Py.str_int (attempt + 1) +:+ "): "
                               +:+ failure_text (respond E k0 url)) in
          if decide (attempt = max_retries (config (fst st)) - 1)
          then raise (mkExn ScrapingError
                        ("Failed to fetch " +:+ url +:+ ": "
                         +:+ failure_text (respond E k0 url)))
          else do* time_sleep E (2 ^ attempt * second) in ret None)
         (fun r st' =>
            match r with
            | Ok (Some response) => wp (ret (Some response)) Q st'
            | Ok None => wp (_make_request_loop E url rest) Q st'
            | Raise e => Q (Raise e) st'
            end) st4).
    { intros st4 Hbad Ho4 Hf4.
      wp_apply wp_logging_later. intros r' st5 (-> & Hs5 & Hl5 & _).
      assert (Ho5 : sync_same_object (fst st) (fst st5)) by (rewrite Hs5; exact Ho4).
      pose proof (fetched_later _ _ _ _ _ Hf4 Hl5) as Hf5.
      destruct (decide _) as [Hlast|Hmore].
      - apply wp_raise. split; [exact Ho5|]. exists 1%nat. split; [exact Hf5|].
        exists 0%nat. split; [reflexivity|].
        split; [apply all_fail_S; [exact Hbad|apply all_fail_0]|].
        split; [simpl; congruence|].
        split; [rewrite Nat.add_0_r; reflexivity|].
        simpl. destruct Hf5 as (_ & _ & _ & ?). lia.
      - wp_apply wp_time_sleep_later; [apply backoff_nonneg|].
        intros r' st6 (-> & Hs6 & Hl6 & Ht6 & _).
        apply wp_ret.
        assert (Ho6 : sync_same_object (fst st) (fst st6)) by (rewrite Hs6; exact Ho5).
        pose proof (fetched_later _ _ _ _ _ Hf5 Hl6) as Hf6.
        pose proof (fetched_length _ _ _ _ Hf6) as Hk6. fold k0 in Hk6.
        eapply wp_mono; [apply IH|]. cbv zeta.
        intros r st7 (Ho7 & j & Hf7 & Hres).
        rewrite Hk6 in Hres.
        assert (Hcfg : config (fst st6) = config (fst st)) by apply Ho6.
        rewrite Hcfg in Hres.
        assert (Hc6 : clock (snd st) + 2 ^ attempt * second <= clock (snd st6)).
        { destruct Hf5 as (_ & _ & _ & ?). lia. }
        split; [eapply sync_same_object_trans; eassumption|].
        exists (j + 1)%nat. split; [eapply fetched_trans; eassumption|].
        destruct r as [[response|]|e].
        + destruct Hres as (j0 & -> & Hlt & Hall & Hresp & Hgood & Hclock).
          exists (S j0). split; [lia|]. split; [simpl; lia|].
          split; [apply all_fail_S; [exact Hbad|];
                  replace (S k0) with (k0 + 1)%nat by lia; exact Hall|].
          replace (k0 + S j0)%nat with (k0 + 1 + j0)%nat by lia.
          split; [exact Hresp|]. split; [exact Hgood|]. simpl. lia.
        + destruct Hres as (-> & Hall & Hne & Hclock).
          split; [simpl; lia|].
          split; [replace (length rest + 1)%nat with (S (length rest)) by lia;
                  apply all_fail_S; [exact Hbad|];
                  replace (S k0) with (k0 + 1)%nat by lia; exact Hall|].
          split; [constructor; assumption|]. simpl. lia.
        + destruct Hres as (j0 & -> & Hall & Hlook & -> & Hclock).
          exists (S j0). split; [lia|].
          split; [replace (S j0 + 1)%nat with (S (S j0)) by lia;
                  apply all_fail_S; [exact Hbad|];
                  replace (S k0) with (k0 + 1)%nat by lia; exact Hall|].
          split; [exact Hlook|].
          replace (k0 + S j0)%nat with (k0 + 1 + j0)%nat by lia.
          split; [reflexivity|]. simpl. lia. }
    destruct (respond E k0 url) as [status text|msg] eqn:Hresp; cbv beta iota.
    + wp_apply wp_raise_for_status_exact. intros r st4 (-> & Hgood).
      cbn [fst snd] in Hgood.
      destruct (good (Response status text)) as [text'|] eqn:Hg.
      * destruct Hgood as [-> ->].
        wp_apply wp_logging_later. intros r st5 (-> & Hs5 & Hl5 & _).
        apply wp_ret. apply wp_ret.
        split; [rewrite Hs5; exact Ho3|].
        exists 1%nat. split; [eapply fetched_later; eassumption|].
        exists 0%nat. split; [reflexivity|]. split; [simpl; lia|].
        split; [apply all_fail_0|]. rewrite Nat.add_0_r, Hresp.
        split; [reflexivity|]. split; [exact Hg|].
        simpl. destruct Hf03 as (_ & _ & _ & ?), Hl5 as (_ & _ & _ & ?). lia.
      * rewrite Hgood. simpl.
        eapply wp_mono; [apply (Hhandler st3 eq_refl Ho3 Hf03)|].
        intros [[resp|]|e'] st'; auto.
    + simpl.
      eapply wp_mono; [apply (Hhandler st3 eq_refl Ho3 Hf03)|].
      intros [[resp|]|e'] st'; auto.
Qed.


Lemma range_lookup_Some a b i x : range a b !! i = Some x -> x = a + Z.of_nat i /\ a + Z.of_nat i < b.
Proof.
  unfold range. rewrite list_lookup_fmap. intros H.
  destruct (seq 0 (Z.to_nat (b - a)) !! i) as [k|] eqn:Hk; [|discriminate].
  apply lookup_seq in Hk as [-> Hlt]. injection H as <-. lia.
Qed.

Lemma range_elem a b x : x ∈ range a b <-> a <= x < b.
Proof.
  unfold range. rewrite list_elem_of_fmap. split.
  - intros (i & -> & Hi). apply elem_of_seq in Hi. lia.
  - intros H. exists (Z.to_nat (x - a)). split; [lia|]. apply elem_of_seq. lia.
Qed.

Lemma take_range a b (j : nat) :
  a + Z.of_nat j <= b -> take j (range a b) = range a (a + Z.of_nat j).
Proof.
  intros H. unfold range. rewrite <- fmap_take, take_seq.
  do 2 f_equal. lia.
Qed.

(** [scrape_page], in full: the requests it makes, and where its result
    comes from. *)
Lemma wp_scrape_page_trace p st :
  wp (scrape_page E p)
     (fun r st' =>
        let url := page_url (config (fst st)) p in
        let k0 := length (requests (snd st)) in
        let m := max_retries (config (fst st)) in
        sync_same_object (fst st) (fst st')
        /\ exists j,
             fetched url j (snd st) (snd st')
             /\ Z.of_nat j <= Z.max 0 m
             /\ match r with
                | Ok l =>
                    exists j0 status text now,
                      j = S j0
                      /\ all_fail E url k0 j0
                      /\ respond E (k0 + j0) url = Response status text
                      /\ good (respond E (k0 + j0) url) = Some text
                      /\ l = parse_body E now text
                      /\ clock (snd st) + (2 ^ Z.of_nat j0 - 1) * second
                         <= clock (snd st')
                | Raise e =>
                    all_fail E url k0 j
                    /\ Z.of_nat j = Z.max 0 m
                    /\ e = mkExn ScrapingError
                             ("Failed to scrape page " +:+ Py.str_int p +:+ ": "
                              +:+ (if m <=? 0
                                   then "'NoneType' object has no attribute 'text'"
                                   else "Failed to fetch " +:+ url +:+ ": "
                                        +:+ failure_text
                                              (respond E (k0 + (j - 1)) url)))
                    /\ clock (snd st) + (2 ^ (Z.max 1 m - 1) - 1) * second
                       <= clock (snd st')
                end)
     st.
Proof.
  unfold scrape_page. cbv zeta.
  set (url := page_url (config (fst st)) p).
  set (k0 := length (requests (snd st))).
  set (m := max_retries (config (fst st))).
  apply wp_try_except.
  apply wp_bind, wp_get_self. fold url.
  wp_apply wp_logging_later. intros r st1 (-> & Hs1 & Hl1 & _).
  apply wp_bind. unfold _make_request. apply wp_bind, wp_get_self.
  eapply wp_mono; [apply wp_make_request_loop_trace|]. cbv zeta.
  intros r st2 (Ho2 & j & Hf2 & Hres).
  rewrite (proj1 Hl1) in Hres. fold k0 in Hres.
  rewrite Hs1 in Ho2, Hres. fold m in Hres.
  pose proof (later_fetched _ _ _ _ _ Hl1 Hf2) as Hf02.
  assert (Hc02 : clock (snd st) <= clock (snd st2)) by apply Hf02.
  assert (Hfail : forall msg st3,
    sync_same_object (fst st) (fst st3) ->
    fetched url j (snd st) (snd st3) ->
    all_fail E url k0 j -> Z.of_nat j = Z.max 0 m ->
    msg = (if m <=? 0
           then "'NoneType' object has no attribute 'text'"
           else "Failed to fetch " +:+ url +:+ ": "
                +:+ failure_text (respond E (k0 + (j - 1)) url)) ->
    clock (snd st) + (2 ^ (Z.max 1 m - 1) - 1) * second <= clock (snd st3) ->
    wp (do* logging ERROR ("Failed to scrape page " +:+ Py.str_int p +:+ ": " +:+ msg) in
        raise (mkExn ScrapingError
                 ("Failed to scrape page " +:+ Py.str_int p +:+ ": " +:+ msg)))
       (fun (r : result (list Story)) st' =>
          sync_same_object (fst st) (fst st')
          /\ exists j,
               fetched url j (snd st) (snd st')
               /\ Z.of_nat j <= Z.max 0 m
               /\ match r with
                  | Ok l => False
                  | Raise e =>
                      all_fail E url k0 j
                      /\ Z.of_nat j = Z.max 0 m
                      /\ e = mkExn ScrapingError
                               ("Failed to scrape page " +:+ Py.str_int p +:+ ": "
                                +:+ (if m <=? 0
                                     then "'NoneType' object has no attribute 'text'"
                                     else "Failed to fetch " +:+ url +:+ ": "
                                          +:+ failure_text
                                                (respond E (k0 + (j - 1)) url)))
                      /\ clock (snd st) + (2 ^ (Z.max 1 m - 1) - 1) * second
                         <= clock (snd st')
                  end) st3).
  { intros msg st3 Ho3 Hf3 Hall Hj -> Hclock.
    wp_apply wp_logging_later. intros r' st4 (-> & Hs4 & Hl4 & Hc4 & _).
    apply wp_raise. split; [rewrite Hs4; exact Ho3|].
    exists j. split; [eapply fetched_later; eassumption|].
    split; [lia|]. split; [exact Hall|]. split; [exact Hj|].
    split; [reflexivity|]. lia. }
  destruct r as [[[status text]|]|e].
  - destruct Hres as (j0 & -> & Hlt & Hall & Hresp & Hgood & Hclock).
    rewrite range_length in Hlt.
    rewrite take_range, Z.add_0_l, backoff_range in Hclock by lia.
    wp_apply wp_logging_later. intros r st3 (-> & Hs3 & Hl3 & _).
    wp_apply wp_parse_items_later. intros r st4 (-> & Hs4 & Hl4 & _).
    wp_apply wp_logging_later. intros r st5 (-> & Hs5 & Hl5 & _).
    apply wp_ret.
    split; [rewrite Hs5, Hs4, Hs3; exact Ho2|].
    exists (S j0). split.
    { eapply fetched_later; [|exact Hl5].
      eapply fetched_later; [|exact Hl4].
      eapply fetched_later; [exact Hf02|exact Hl3]. }
    split; [lia|].
    exists j0, status, text, (localtime E (clock (snd st3))).
    split; [reflexivity|]. split; [exact Hall|]. split; [exact Hresp|].
    split; [exact Hgood|]. split; [reflexivity|].
    destruct Hl3 as (_ & _ & _ & ?), Hl4 as (_ & _ & _ & ?), Hl5 as (_ & _ & _ & ?).
    destruct Hl1 as (_ & _ & _ & ?). lia.
  - destruct Hres as (-> & Hall & Hne & Hclock).
    rewrite range_length in *.
    assert (Hm : m <= 0).
    { destruct (Z.le_gt_cases m 0) as [|Hpos]; [assumption|]. exfalso.
      rewrite Forall_forall in Hne. apply (Hne (m - 1)); [|reflexivity].
      apply range_elem. lia. }
    apply wp_raise.
    eapply wp_mono;
      [apply (Hfail "'NoneType' object has no attribute 'text'" st2 Ho2 Hf02 Hall)|].
    + lia.
    + destruct (Z.leb_spec m 0); [reflexivity|lia].
    + replace (Z.max 1 m - 1) with 0 by lia. simpl. lia.
    + intros [l|e] st' (Ho & j & Hf & Hj & Hres); [contradiction|].
      split; [exact Ho|]. exists j. auto.
  - destruct Hres as (j0 & -> & Hall & Hlook & -> & Hclock).
    apply range_lookup_Some in Hlook as [Hj0 Hlt].
    rewrite take_range, Z.add_0_l, backoff_range in Hclock by lia.
    eapply wp_mono; [apply (Hfail _ st2 Ho2 Hf02 Hall)|].
    + lia.
    + destruct (Z.leb_spec m 0); [lia|].
      replace (S j0 - 1)%nat with j0 by lia. reflexivity.
    + replace (Z.max 1 m - 1) with (Z.of_nat j0) by lia.
      destruct Hl1 as (_ & _ & _ & ?). lia.
    + intros [l|e] st' (Ho & j & Hf & Hj & Hres); [contradiction|].
      split; [exact Ho|]. exists j. auto.
Qed.

Lemma progress_report_first (stories l : list Story) ls :
  progress_report (stories :: l :: ls) 1
  = (Z.of_nat (length (stories ++ l)), _calculate_stats (stories ++ l)).
Proof.
  unfold progress_report. cbn [take concat]. rewrite take_0. cbn [concat].
  rewrite app_nil_r. reflexivity.
Qed.

Lemma progress_report_shift (stories l : list Story) ls i :
  progress_report (stories :: l :: ls) (S (S i))
  = progress_report ((stories ++ l) :: ls) (S i).
Proof.
  unfold progress_report. cbn [take concat]. rewrite app_assoc. reflexivity.
Qed.

Lemma progress_reports_cons cb (stories l : list Story) ls (rest : list (Z * Stats)) :
  (if cb : bool
   then rev (map (fun i => progress_report ((stories ++ l) :: ls) (S i))
                 (seq 0 (length ls)))
   else [])
  ++ (if cb
      then [(Z.of_nat (length (stories ++ l)), _calculate_stats (stories ++ l))]
      else [])
  ++ rest
  = (if cb
     then rev (map (fun i => progress_report (stories :: l :: ls) (S i))
                   (seq 0 (length (l :: ls))))
     else [])
    ++ rest.
Proof.
  destruct cb; [|reflexivity].
  cbn [length seq map rev]. rewrite progress_report_first.
  rewrite <- seq_shift, map_map.
  rewrite (map_ext (fun i => progress_report (stories :: l :: ls) (S (S i)))
                   (fun i => progress_report ((stories ++ l) :: ls) (S i)))
    by (intros i; apply progress_report_shift).
  rewrite <- app_assoc. reflexivity.
Qed.

(** The page loop, in full: the requests all go to pages of the loop, and
    the progress callback is called once after every page scraped. *)
Lemma wp_scrape_loop_trace n cb pages : forall stories st,
  wp (scrape_loop E n cb pages stories (Z.of_nat (length stories)))
     (fun r st' =>
        sync_same_object (fst st) (fst st')
        /\ delivered (snd st') = delivered (snd st)
        /\ clock (snd st) <= clock (snd st')
        /\ (exists new,
              requests (snd st') = new ++ requests (snd st)
              /\ Forall (fun q => exists p, p ∈ pages
                                  /\ snd q = page_url (config (fst st)) p) new
              /\ Z.of_nat (length new)
                 <= Z.of_nat (length pages) * Z.max 0 (max_retries (config (fst st))))
        /\ exists ls,
             (length ls <= length pages)%nat
             /\ progress (snd st')
                = (if cb
                   then rev (map (fun i => progress_report (stories :: ls) (S i))
                                 (seq 0 (length ls)))
                   else [])
                  ++ progress (snd st)
             /\ match r with
                | Ok l =>
                    l = stories ++ concat ls
                    /\ (_stop_flag (fst st) = false -> length ls = length pages)
                | Raise _ => True
                end)
     st.
Proof.
  induction pages as [|page rest IH]; intros stories st.
  - apply wp_ret. split; [apply sync_same_object_refl|]. split; [reflexivity|].
    split; [lia|]. split; [exists []; repeat split; [constructor|simpl; lia]|].
    exists []. split; [simpl; lia|]. split; [destruct cb; reflexivity|].
    simpl. rewrite app_nil_r. auto.
  - cbn [scrape_loop]. apply wp_bind, wp_get_self.
    destruct (_stop_flag (fst st)) eqn:Hflag.
    { apply wp_ret. split; [apply sync_same_object_refl|]. split; [reflexivity|].
      split; [lia|]. split; [exists []; repeat split; [constructor|simpl; lia]|].
      exists []. split; [simpl; lia|]. split; [destruct cb; reflexivity|].
      simpl. rewrite app_nil_r. split; [reflexivity|discriminate]. }
    wp_apply wp_scrape_page_trace. cbv zeta.
    intros r st1 (Ho1 & j & Hf1 & Hj & Hres).
    assert (Hnew1 : exists new,
              requests (snd st1) = new ++ requests (snd st)
              /\ Forall (fun q => exists p, p ∈ page :: rest
                                  /\ snd q = page_url (config (fst st)) p) new
              /\ Z.of_nat (length new) <= Z.max 0 (max_retries (config (fst st)))).
    { destruct Hf1 as ((ts & Hlen & Hts) & _).
      exists (map (fun t => (t, page_url (config (fst st)) page)) ts).
      split; [exact Hts|]. split; [|rewrite length_map; lia].
      apply Forall_forall. intros q Hq. apply list_elem_of_fmap in Hq as (t & -> & _).
      exists page. split; [left|reflexivity]. }
    destruct r as [page_stories|e].
    2:{ split; [exact Ho1|]. split; [apply Hf1|]. split; [apply Hf1|].
        split.
        - destruct Hnew1 as (new & Hn & Hall & Hlen). exists new.
          split; [exact Hn|]. split; [exact Hall|].
          cbn [length]. nia.
        - exists []. split; [simpl; lia|]. split; [|trivial].
          destruct Hf1 as (_ & -> & _). destruct cb; reflexivity. }
    clear Hres.
    apply wp_bind.
    eapply (wp_mono _ (fun r st' =>
              r = Ok tt /\ fst st' = fst st1 /\ requests (snd st') = requests (snd st1)
              /\ delivered (snd st') = delivered (snd st1)
              /\ clock (snd st') = clock (snd st1)
              /\ progress (snd st')
                 = (if cb
                    then [(Z.of_nat (length (stories ++ page_stories)),
                           _calculate_stats (stories ++ page_stories))]
                    else []) ++ progress (snd st1))).
    { destruct cb.
      - destruct st1 as [s1 w1]. unfold wp. simpl.
        rewrite length_app, Nat2Z.inj_add. repeat split.
      - apply wp_ret. repeat split. }
    intros r st2 (-> & Hs2 & Hr2 & Hd2 & Hc2 & Hp2).
    apply wp_bind.
    eapply (wp_mono _ (fun r st' => fst st' = fst st2 /\ later (snd st2) (snd st'))).
    { destruct (page <? n); [|apply wp_ret; split; [reflexivity|apply later_refl]].
      destruct st2 as [s2 w2]. unfold wp, time_sleep.
      destruct (Z.ltb_spec (rate_limit (config (fst st))) 0); simpl;
        (split; [reflexivity|]);
        repeat split; first [reflexivity|simpl; lia]. }
    intros r st3 (Hs3 & Hl3).
    assert (Ho3 : sync_same_object (fst st) (fst st3))
      by (rewrite Hs3, Hs2; exact Ho1).
    assert (Hcfg : config (fst st3) = config (fst st)) by apply Ho3.
    assert (Hd3 : delivered (snd st3) = delivered (snd st)).
    { destruct Hl3 as (_ & _ & -> & _). rewrite Hd2. apply Hf1. }
    assert (Hc3 : clock (snd st) <= clock (snd st3)).
    { destruct Hl3 as (_ & _ & _ & ?), Hf1 as (_ & _ & _ & ?). lia. }
    assert (Hp3 : progress (snd st3)
                  = (if cb
                     then [(Z.of_nat (length (stories ++ page_stories)),
                            _calculate_stats (stories ++ page_stories))]
                     else []) ++ progress (snd st)).
    { destruct Hl3 as (_ & -> & _). rewrite Hp2. f_equal. apply Hf1. }
    assert (Hnew3 : exists new,
              requests (snd st3) = new ++ requests (snd st)
              /\ Forall (fun q => exists p, p ∈ page :: rest
                                  /\ snd q = page_url (config (fst st)) p) new
              /\ Z.of_nat (length new) <= Z.max 0 (max_retries (config (fst st)))).
    { destruct Hnew1 as (new & Hn & Hrest). exists new. split; [|exact Hrest].
      destruct Hl3 as (-> & _). rewrite Hr2. exact Hn. }
    destruct r as [[]|e].
    2:{ split; [exact Ho3|]. split; [exact Hd3|]. split; [exact Hc3|]. split.
        - destruct Hnew3 as (new & Hn & Hall & Hlen). exists new.
          split; [exact Hn|]. split; [exact Hall|]. cbn [length]. nia.
        - exists [page_stories]. split; [simpl; lia|]. split; [|trivial].
          rewrite Hp3. destruct cb; [|reflexivity].
          cbn [length seq map rev]. rewrite progress_report_first. reflexivity. }
    replace (Z.of_nat (length stories) + Z.of_nat (length page_stories))
      with (Z.of_nat (length (stories ++ page_stories)))
      by (rewrite length_app; lia).
    eapply wp_mono; [apply IH|].
    intros r st4 (Ho4 & Hd4 & Hc4 & (new' & Hn' & Hall' & Hlen') & ls & Hls & Hp4 & Hres).
    split; [eapply sync_same_object_trans; eassumption|].
    split; [congruence|]. split; [lia|]. split.
    + destruct Hnew3 as (new & Hn & Hall & Hlen). exists (new' ++ new).
      split; [rewrite Hn', Hn; apply app_assoc|]. split.
      * apply Forall_app. split; [|exact Hall].
        eapply Forall_impl; [exact Hall'|]. intros q (p & Hp & Hq).
        exists p. split; [right; exact Hp|]. rewrite Hq, Hcfg. reflexivity.
      * rewrite Hcfg in Hlen'. rewrite length_app. cbn [length]. nia.
    + exists (page_stories :: ls). split; [simpl; lia|]. split.
      * rewrite Hp4, Hp3. apply progress_reports_cons.
      * destruct r as [l|e]; [|trivial]. destruct Hres as [-> Hlen].
        split; [simpl; rewrite <- app_assoc; reflexivity|].
        intros _. simpl. f_equal. apply Hlen.
        destruct Ho3 as (_ & _ & _ & _ & _ & ->). exact Hflag.
Qed.

Lemma progress_reports_from_nil cb (ls : list (list Story)) :
  (if cb : bool
   then rev (map (fun i => progress_report ([] :: ls) (S i)) (seq 0 (length ls)))
   else [])
  = if cb then progress_reports ls else [].
Proof. reflexivity. Qed.

(** [scrape_stories], in full. *)
Lemma wp_scrape_stories_trace n cb st :
  wp (scrape_stories E n cb)
     (fun r st' =>
        sync_same_object (fst st) (fst st')
        /\ delivered (snd st') = delivered (snd st)
        /\ clock (snd st) <= clock (snd st')
        /\ (exists new,
              requests (snd st') = new ++ requests (snd st)
              /\ Forall (fun q => exists p, 1 <= p <= n
                                  /\ snd q = page_url (config (fst st)) p) new
              /\ Z.of_nat (length new)
                 <= Z.max 0 n * Z.max 0 (max_retries (config (fst st))))
        /\ exists ls,
             (length ls <= Z.to_nat n)%nat
             /\ progress (snd st')
                = (if cb then progress_reports ls else []) ++ progress (snd st)
             /\ match r with
                | Ok l =>
                    l = concat ls
                    /\ (_stop_flag (fst st) = false -> length ls = Z.to_nat n)
                | Raise _ => True
                end)
     st.
Proof.
  unfold scrape_stories. apply wp_try_except.
  eapply wp_mono; [apply (wp_scrape_loop_trace n cb (range 1 (n + 1)) [] st)|].
  intros r st1 (Ho1 & Hd1 & Hc1 & (new & Hn & Hall & Hlen) & ls & Hls & Hp & Hres).
  rewrite range_length in *. replace (n + 1 - 1) with n in * by lia.
  rewrite progress_reports_from_nil in Hp.
  assert (Hnew : Forall (fun q => exists p, 1 <= p <= n
                                  /\ snd q = page_url (config (fst st)) p) new).
  { eapply Forall_impl; [exact Hall|]. intros q (p & Hp' & Hq).
    exists p. split; [apply range_elem in Hp'; lia|exact Hq]. }
  assert (Hcount : Z.of_nat (length new)
                   <= Z.max 0 n * Z.max 0 (max_retries (config (fst st)))).
  { replace (Z.of_nat (Z.to_nat n)) with (Z.max 0 n) in Hlen by lia. exact Hlen. }
  destruct r as [l|e].
  - split; [exact Ho1|]. split; [exact Hd1|]. split; [exact Hc1|].
    split; [exists new; auto|]. exists ls. auto.
  - cbv zeta. wp_apply wp_logging_later. intros r st2 (-> & Hs2 & Hl2 & Hc2 & _).
    apply wp_raise. split; [rewrite Hs2; exact Ho1|].
    destruct Hl2 as (Hr2 & Hp2 & Hd2 & _).
    split; [congruence|]. split; [lia|].
    split; [exists new; split; [congruence|auto]|].
    exists ls. split; [exact Hls|]. split; [congruence|trivial].
Qed.

End SequentialTrace.

(** ** The asynchronous scraper, request by request *)

Section AsynchronousTrace.
Context `{DT : DateTime}.
Variable E : Env.
Import Story AsyncHackerNewsScraper.
Implicit Types st : Scraper * World.

Lemma async_same_object_refl s : async_same_object s s.
Proof. repeat split. Qed.

Lemma async_same_object_trans s1 s2 s3 :
  async_same_object s1 s2 -> async_same_object s2 s3 -> async_same_object s1 s3.
Proof.
  unfold async_same_object. intros (?&?&?&?&?) (?&?&?&?&?).
  repeat split; congruence.
Qed.

Lemma wp_async_respect_rate_limit_frame st :
  wp (_respect_rate_limit E)
     (fun r st' =>
        r = Ok tt
        /\ async_same_object (fst st) (fst st')
        /\ later (snd st) (snd st'))
     st.
Proof.
  destruct st as [s w].
  unfold wp, _respect_rate_limit, bind, get_self, time_time, get_world, ret,
    set_last_request_time, put_self. simpl.
  destruct (Z.ltb_spec (clock w - last_request_time s) (rate_limit (config s))).
  - unfold asyncio_sleep.
    destruct (Z.leb_spec (rate_limit (config s) - (clock w - last_request_time s)) 0);
      [lia|].
    simpl. repeat split; first [reflexivity|simpl; lia].
  - simpl. repeat split; first [reflexivity|simpl; lia].
Qed.

(** The attempts loop of an object that can send requests. *)
Lemma wp_async_make_request_loop_trace url attempts : forall st,
  can_request (fst st) ->
  wp (_make_request_loop E url attempts)
     (fun r st' =>
        let k0 := length (requests (snd st)) in
        async_same_object (fst st) (fst st')
        /\ exists j,
             fetched url j (snd st) (snd st')
             /\ match r with
                | Ok (Some html) =>
                    exists j0 status,
                      j = S j0 /\ (j0 < length attempts)%nat
                      /\ all_fail E url k0 j0
                      /\ respond E (k0 + j0) url = Response status html
                      /\ good (respond E (k0 + j0) url) = Some html
                      /\ clock (snd st) + backoff (take j0 attempts)
                         <= clock (snd st')
                | Ok None =>
                    j = length attempts
                    /\ all_fail E url k0 j
                    /\ Forall (fun a => a <> max_retries (config (fst st)) - 1)
                              attempts
                    /\ clock (snd st) + backoff attempts <= clock (snd st')
                | Raise e =>
                    exists j0,
                      j = S j0
                      /\ all_fail E url k0 j
                      /\ attempts !! j0 = Some (max_retries (config (fst st)) - 1)
                      /\ e = mkExn ScraperError
                               ("Failed to fetch " +:+ url +:+ ": "
                                +:+ failure_text (respond E (k0 + j0) url))
                      /\ clock (snd st) + backoff (take j0 attempts)
                         <= clock (snd st')
                end)
     st.
Proof.
  induction attempts as [|attempt rest IH]; intros st Hcan; cbv zeta.
  - apply wp_ret. split; [apply async_same_object_refl|].
    exists 0%nat. split; [apply fetched_refl|].
    split; [reflexivity|]. split; [apply all_fail_0|]. split; [constructor|].
    simpl. lia.
  - cbn [_make_request_loop].
    apply wp_bind, wp_get_self.
    set (k0 := length (requests (snd st))).
    set (Q := fun (r : result (option string)) (st' : Scraper * World) =>
        async_same_object (fst st) (fst st')
        /\ exists j,
             fetched url j (snd st) (snd st')
             /\ match r with
                | Ok (Some html) =>
                    exists j0 status,
                      j = S j0 /\ (j0 < length (attempt :: rest))%nat
                      /\ all_fail E url k0 j0
                      /\ respond E (k0 + j0) url = Response status html
                      /\ good (respond E (k0 + j0) url) = Some html
                      /\ clock (snd st) + backoff (take j0 (attempt :: rest))
                         <= clock (snd st')
                | Ok None =>
                    j = length (attempt :: rest)
                    /\ all_fail E url k0 j
                    /\ Forall (fun a => a <> max_retries (config (fst st)) - 1)
                              (attempt :: rest)
                    /\ clock (snd st) + backoff (attempt :: rest) <= clock (snd st')
                | Raise e =>
                    exists j0,
                      j = S j0
                      /\ all_fail E url k0 j
                      /\ (attempt :: rest) !! j0
                         = Some (max_retries (config (fst st)) - 1)
                      /\ e = mkExn ScraperError
                               ("Failed to fetch " +:+ url +:+ ": "
                                +:+ failure_text (respond E (k0 + j0) url))
                      /\ clock (snd st) + backoff (take j0 (attempt :: rest))
                         <= clock (snd st')
                end).
    change (wp (let* returned :=
                  try_except
                    (do* await (_respect_rate_limit E) in
                     let* user_agent :=
                       random_choice E (user_agents (config (fst st))) in
                     let* response := session_get E url in
                     do* raise_for_status response in
                     ret (Some (snd response)))
                    (fun e =>
                       if decide (attempt = max_retries (config (fst st)) - 1)
                       then raise (mkExn ScraperError
                                     ("Failed to fetch " +:+ url +:+ ": "
                                      +:+ str_exn e))
                       else
                         do* asyncio_sleep E (2 ^ attempt * second) in
                         ret None) in
                match returned with
                | Some html => ret (Some html)
                | None => _make_request_loop E url rest
                end) Q st).
    apply wp_bind. apply wp_try_except. unfold await.
    wp_apply wp_async_respect_rate_limit_frame. intros r st1 (-> & Ho1 & Hl1).
    wp_apply wp_random_choice_later.
    intros r st2 (Hs2 & Hl2 & _ & _ & _ & Hua).
    destruct (Hua (proj2 Hcan)) as (ua & -> & _).
    cbv beta iota. apply wp_bind. unfold session_get. apply wp_bind, wp_get_self.
    assert (Hx2 : session (fst st2) = OpenSession).
    { rewrite Hs2. destruct Ho1 as (_ & -> & _). apply Hcan. }
    rewrite Hx2.
    eapply wp_mono; [apply wp_http_get_exact|]. intros r st3 (Hs3 & Hf3 & _ & ->).
    assert (Hk2 : length (requests (snd st2)) = k0).
    { unfold k0. rewrite (proj1 Hl2), (proj1 Hl1). reflexivity. }
    rewrite Hk2.
    assert (Ho3 : async_same_object (fst st) (fst st3))
      by (rewrite Hs3, Hs2; exact Ho1).
    assert (Hf03 : fetched url 1 (snd st) (snd st3)).
    { eapply later_fetched; [exact Hl1|].
      eapply later_fetched; [exact Hl2|exact Hf3]. }
    assert (Hhandler : forall st4,
      good (respond E k0 url) = None ->
      async_same_object (fst st) (fst st4) ->
      fetched url 1 (snd st) (snd st4) ->
      wp (if decide (attempt = max_retries (config (fst st)) - 1)
          then raise (mkExn ScraperError
                        ("Failed to fetch " +:+ url +:+ ": "
                         +:+ failure_text (respond E k0 url)))
          else do* asyncio_sleep E (2 ^ attempt * second) in ret None)
         (fun r st' =>
            match r with
            | Ok (Some html) => wp (ret (Some html)) Q st'
            | Ok None => wp (_make_request_loop E url rest) Q st'
            | Raise e => Q (Raise e) st'
            end) st4).
    { intros st5 Hbad Ho5 Hf5.
      destruct (decide _) as [Hlast|Hmore].
      - apply wp_raise. split; [exact Ho5|]. exists 1%nat. split; [exact Hf5|].
        exists 0%nat. split; [reflexivity|].
        split; [apply all_fail_S; [exact Hbad|apply all_fail_0]|].
        split; [simpl; congruence|].
        split; [rewrite Nat.add_0_r; reflexivity|].
        simpl. destruct Hf5 as (_ & _ & _ & ?). lia.
      - wp_apply wp_asyncio_sleep_later.
        intros r' st6 (-> & Hs6 & Hl6 & Ht6 & _).
        apply wp_ret.
        assert (Ho6 : async_same_object (fst st) (fst st6)) by (rewrite Hs6; exact Ho5).
        pose proof (fetched_later _ _ _ _ _ Hf5 Hl6) as Hf6.
        pose proof (fetched_length _ _ _ _ Hf6) as Hk6. fold k0 in Hk6.
        assert (Hcan6 : can_request (fst st6)).
        { destruct Ho6 as (Hc & Hx & _). unfold can_request.
          rewrite Hc, Hx. exact Hcan. }
        eapply wp_mono; [apply (IH st6 Hcan6)|]. cbv zeta.
        intros r st7 (Ho7 & j & Hf7 & Hres).
        rewrite Hk6 in Hres.
        assert (Hcfg : config (fst st6) = config (fst st)) by apply Ho6.
        rewrite Hcfg in Hres.
        assert (Hc6 : clock (snd st) + 2 ^ attempt * second <= clock (snd st6)).
        { destruct Hf5 as (_ & _ & _ & ?). lia. }
        split; [eapply async_same_object_trans; eassumption|].
        exists (j + 1)%nat. split; [eapply fetched_trans; eassumption|].
        destruct r as [[html|]|e].
        + destruct Hres as (j0 & status & -> & Hlt & Hall & Hresp & Hgood & Hclock).
          exists (S j0), status. split; [lia|]. split; [simpl; lia|].
          split; [apply all_fail_S; [exact Hbad|];
                  replace (S k0) with (k0 + 1)%nat by lia; exact Hall|].
          replace (k0 + S j0)%nat with (k0 + 1 + j0)%nat by lia.
          split; [exact Hresp|]. split; [exact Hgood|]. simpl. lia.
        + destruct Hres as (-> & Hall & Hne & Hclock).
          split; [simpl; lia|].
          split; [replace (length rest + 1)%nat with (S (length rest)) by lia;
                  apply all_fail_S; [exact Hbad|];
                  replace (S k0) with (k0 + 1)%nat by lia; exact Hall|].
          split; [constructor; assumption|]. simpl. lia.
        + destruct Hres as (j0 & -> & Hall & Hlook & -> & Hclock).
          exists (S j0). split; [lia|].
          split; [replace (S j0 + 1)%nat with (S (S j0)) by lia;
                  apply all_fail_S; [exact Hbad|];
                  replace (S k0) with (k0 + 1)%nat by lia; exact Hall|].
          split; [exact Hlook|].
          replace (k0 + S j0)%nat with (k0 + 1 + j0)%nat by lia.
          split; [reflexivity|]. simpl. lia. }
    destruct (respond E k0 url) as [status text|msg] eqn:Hresp; cbv beta iota.
    + wp_apply wp_raise_for_status_exact. intros r st4 (-> & Hgood).
      cbn [fst snd] in Hgood.
      destruct (good (Response status text)) as [text'|] eqn:Hg.
      * destruct Hgood as [-> ->].
        apply wp_ret. apply wp_ret.
        split; [exact Ho3|].
        exists 1%nat. split; [exact Hf03|].
        exists 0%nat, status. split; [reflexivity|]. split; [simpl; lia|].
        split; [apply all_fail_0|]. rewrite Nat.add_0_r, Hresp.
        split; [reflexivity|]. split; [exact Hg|].
        simpl. destruct Hf03 as (_ & _ & _ & ?). lia.
      * rewrite Hgood.
        eapply wp_mono; [apply (Hhandler st3 eq_refl Ho3 Hf03)|].
        intros [[resp|]|e'] st'; auto.
    + eapply wp_mono; [apply (Hhandler st3 eq_refl Ho3 Hf03)|].
      intros [[resp|]|e'] st'; auto.
Qed.


Lemma blocked_text_same s s' :
  async_same_object s s' -> blocked_text s' = blocked_text s.
Proof. intros (Hc & Hx & _). unfold blocked_text. rewrite Hc, Hx. reflexivity. Qed.

Lemma can_request_same s s' :
  async_same_object s s' -> can_request s' <-> can_request s.
Proof. intros (Hc & Hx & _). unfold can_request. rewrite Hc, Hx. reflexivity. Qed.

Lemma can_request_dec s : {can_request s} + {~ can_request s}.
Proof.
  unfold can_request. destruct (session s);
    destruct (user_agents (config s)); try (right; intros [? ?]; congruence).
  left. split; [reflexivity|discriminate].
Defined.

(** The attempts loop of an object that cannot send requests: no request
    is made; every attempt ends with the same exception. *)
Lemma wp_async_make_request_loop_blocked url attempts : forall st,
  ~ can_request (fst st) ->
  wp (_make_request_loop E url attempts)
     (fun r st' =>
        async_same_object (fst st) (fst st')
        /\ later (snd st) (snd st')
        /\ match r with
           | Ok (Some html) => False
           | Ok None =>
               Forall (fun a => a <> max_retries (config (fst st)) - 1) attempts
               /\ clock (snd st) + backoff attempts <= clock (snd st')
           | Raise e =>
               exists j0,
                 attempts !! j0 = Some (max_retries (config (fst st)) - 1)
                 /\ e = mkExn ScraperError
                          ("Failed to fetch " +:+ url +:+ ": "
                           +:+ blocked_text (fst st))
                 /\ clock (snd st) + backoff (take j0 attempts) <= clock (snd st')
           end)
     st.
Proof.
  induction attempts as [|attempt rest IH]; intros st Hcannot.
  - apply wp_ret. split; [apply async_same_object_refl|].
    split; [apply later_refl|]. split; [constructor|simpl; lia].
  - cbn [_make_request_loop].
    apply wp_bind, wp_get_self.
    set (Q := fun (r : result (option string)) (st' : Scraper * World) =>
        async_same_object (fst st) (fst st')
        /\ later (snd st) (snd st')
        /\ match r with
           | Ok (Some html) => False
           | Ok None =>
               Forall (fun a => a <> max_retries (config (fst st)) - 1)
                      (attempt :: rest)
               /\ clock (snd st) + backoff (attempt :: rest) <= clock (snd st')
           | Raise e =>
               exists j0,
                 (attempt :: rest) !! j0 = Some (max_retries (config (fst st)) - 1)
                 /\ e = mkExn ScraperError
                          ("Failed to fetch " +:+ url +:+ ": "
                           +:+ blocked_text (fst st))
                 /\ clock (snd st) + backoff (take j0 (attempt :: rest))
                    <= clock (snd st')
           end).
    change (wp (let* returned :=
                  try_except
                    (do* await (_respect_rate_limit E) in
                     let* user_agent :=
                       random_choice E (user_agents (config (fst st))) in
                     let* response := session_get E url in
                     do* raise_for_status response in
                     ret (Some (snd response)))
                    (fun e =>
                       if decide (attempt = max_retries (config (fst st)) - 1)
                       then raise (mkExn ScraperError
                                     ("Failed to fetch " +:+ url +:+ ": "
                                      +:+ str_exn e))
                       else
                         do* asyncio_sleep E (2 ^ attempt * second) in
                         ret None) in
                match returned with
                | Some html => ret (Some html)
                | None => _make_request_loop E url rest
                end) Q st).
    apply wp_bind. apply wp_try_except. unfold await.
    assert (Hhandler : forall st4,
      async_same_object (fst st) (fst st4) ->
      later (snd st) (snd st4) ->
      wp (if decide (attempt = max_retries (config (fst st)) - 1)
          then raise (mkExn ScraperError
                        ("Failed to fetch " +:+ url +:+ ": "
                         +:+ blocked_text (fst st)))
          else do* asyncio_sleep E (2 ^ attempt * second) in ret None)
         (fun r st' =>
            match r with
            | Ok (Some html) => wp (ret (Some html)) Q st'
            | Ok None => wp (_make_request_loop E url rest) Q st'
            | Raise e => Q (Raise e) st'
            end) st4).
    { intros st5 Ho5 Hl5.
      destruct (decide _) as [Hlast|Hmore].
      - apply wp_raise. split; [exact Ho5|]. split; [exact Hl5|].
        exists 0%nat. split; [simpl; congruence|]. split; [reflexivity|].
        simpl. destruct Hl5 as (_ & _ & _ & ?). lia.
      - wp_apply wp_asyncio_sleep_later.
        intros r' st6 (-> & Hs6 & Hl6 & Ht6 & _).
        apply wp_ret.
        assert (Ho6 : async_same_object (fst st) (fst st6)) by (rewrite Hs6; exact Ho5).
        pose proof (later_trans _ _ _ Hl5 Hl6) as Hl06.
        assert (Hcannot6 : ~ can_request (fst st6))
          by (rewrite (can_request_same _ _ Ho6); exact Hcannot).
        eapply wp_mono; [apply (IH st6 Hcannot6)|].
        intros r st7 (Ho7 & Hl7 & Hres).
        assert (Hcfg : config (fst st6) = config (fst st)) by apply Ho6.
        rewrite Hcfg, (blocked_text_same _ _ Ho6) in Hres.
        assert (Hc6 : clock (snd st) + 2 ^ attempt * second <= clock (snd st6)).
        { destruct Hl5 as (_ & _ & _ & ?). lia. }
        split; [eapply async_same_object_trans; eassumption|].
        split; [eapply later_trans; eassumption|].
        destruct r as [[html|]|e].
        + exact Hres.
        + destruct Hres as (Hne & Hclock).
          split; [constructor; assumption|]. simpl. lia.
        + destruct Hres as (j0 & Hlook & -> & Hclock).
          exists (S j0). split; [exact Hlook|]. split; [reflexivity|]. simpl. lia. }
    wp_apply wp_async_respect_rate_limit_frame. intros r st1 (-> & Ho1 & Hl1).
    wp_apply wp_random_choice_later.
    intros r st2 (Hs2 & Hl2 & _ & _ & Hnone & Hua).
    assert (Ho2 : async_same_object (fst st) (fst st2)) by (rewrite Hs2; exact Ho1).
    pose proof (later_trans _ _ _ Hl1 Hl2) as Hl02.
    destruct (user_agents (config (fst st))) as [|ua0 uas] eqn:Hagents.
    + rewrite (Hnone eq_refl). cbv beta iota.
      pose proof (Hhandler st2 Ho2 Hl02) as Hh.
      unfold blocked_text in Hh. rewrite Hagents in Hh.
      eapply wp_mono; [exact Hh|]. intros [[resp|]|e'] st'; auto.
    + destruct (Hua ltac:(discriminate)) as (ua & -> & _).
      cbv beta iota. apply wp_bind. unfold session_get. apply wp_bind, wp_get_self.
      assert (Hx2 : session (fst st2) = session (fst st)) by apply Ho2.
      rewrite Hx2.
      pose proof (Hhandler st2 Ho2 Hl02) as Hh.
      unfold blocked_text in Hh. rewrite Hagents in Hh.
      destruct (session (fst st)) eqn:Hx.
      * apply wp_raise.
        eapply wp_mono; [exact Hh|]. intros [[resp|]|e'] st'; auto.
      * exfalso. apply Hcannot. split; [exact Hx|]. rewrite Hagents. discriminate.
      * apply wp_raise.
        eapply wp_mono; [exact Hh|]. intros [[resp|]|e'] st'; auto.
Qed.


(** [scrape_page] of an object that can send requests, in full. *)
Lemma wp_async_scrape_page_trace p st :
  can_request (fst st) ->
  wp (scrape_page E p)
     (fun r st' =>
        let url := page_url (config (fst st)) p in
        let k0 := length (requests (snd st)) in
        let m := max_retries (config (fst st)) in
        async_same_object (fst st) (fst st')
        /\ exists j,
             fetched url j (snd st) (snd st')
             /\ Z.of_nat j <= Z.max 0 m
             /\ exists l,
                  r = Ok l
                  /\ ((exists j0 status text now,
                         j = S j0
                         /\ all_fail E url k0 j0
                         /\ respond E (k0 + j0) url = Response status text
                         /\ good (respond E (k0 + j0) url) = Some text
                         /\ l = parse_body E now text
                         /\ clock (snd st) + (2 ^ Z.of_nat j0 - 1) * second
                            <= clock (snd st'))
                      \/ (l = []
                          /\ all_fail E url k0 j
                          /\ Z.of_nat j = Z.max 0 m
                          /\ (exists older,
                                log (snd st')
                                = mkLog ERROR
                                    ("Failed to scrape page " +:+ Py.str_int p +:+ ": "
                                     +:+ (if m <=? 0
                                          then "object of type 'NoneType' has no len()"
                                          else "Failed to fetch " +:+ url +:+ ": "
                                               +:+ failure_text
                                                     (respond E (k0 + (j - 1)) url)))
                                  :: older)
                          /\ clock (snd st) + (2 ^ (Z.max 1 m - 1) - 1) * second
                             <= clock (snd st'))))
     st.
Proof.
  intros Hcan. unfold scrape_page. cbv zeta.
  set (url := page_url (config (fst st)) p).
  set (k0 := length (requests (snd st))).
  set (m := max_retries (config (fst st))).
  apply wp_try_except.
  apply wp_bind, wp_get_self. fold url.
  wp_apply wp_logging_later. intros r st1 (-> & Hs1 & Hl1 & _).
  apply wp_bind. unfold await, _make_request. apply wp_bind, wp_get_self.
  assert (Hcan1 : can_request (fst st1)) by (rewrite Hs1; exact Hcan).
  eapply wp_mono; [apply (wp_async_make_request_loop_trace url _ st1 Hcan1)|].
  cbv zeta. intros r st2 (Ho2 & j & Hf2 & Hres).
  rewrite (proj1 Hl1) in Hres. fold k0 in Hres.
  rewrite Hs1 in Ho2, Hres. fold m in Hres.
  pose proof (later_fetched _ _ _ _ _ Hl1 Hf2) as Hf02.
  assert (Hc02 : clock (snd st) <= clock (snd st2)) by apply Hf02.
  assert (Hfail : forall msg st3,
    async_same_object (fst st) (fst st3) ->
    fetched url j (snd st) (snd st3) ->
    all_fail E url k0 j -> Z.of_nat j = Z.max 0 m ->
    msg = (if m <=? 0
           then "object of type 'NoneType' has no len()"
           else "Failed to fetch " +:+ url +:+ ": "
                +:+ failure_text (respond E (k0 + (j - 1)) url)) ->
    clock (snd st) + (2 ^ (Z.max 1 m - 1) - 1) * second <= clock (snd st3) ->
    wp (do* logging ERROR ("Failed to scrape page " +:+ Py.str_int p +:+ ": " +:+ msg) in
        ret [])
       (fun (r : result (list Story)) st' =>
          async_same_object (fst st) (fst st')
          /\ exists j,
               fetched url j (snd st) (snd st')
               /\ Z.of_nat j <= Z.max 0 m
               /\ exists l,
                    r = Ok l
                    /\ ((exists j0 status text now,
                           j = S j0
                           /\ all_fail E url k0 j0
                           /\ respond E (k0 + j0) url = Response status text
                           /\ good (respond E (k0 + j0) url) = Some text
                           /\ l = parse_body E now text
                           /\ clock (snd st) + (2 ^ Z.of_nat j0 - 1) * second
                              <= clock (snd st'))
                        \/ (l = []
                            /\ all_fail E url k0 j
                            /\ Z.of_nat j = Z.max 0 m
                            /\ (exists older,
                                  log (snd st')
                                  = mkLog ERROR
                                      ("Failed to scrape page " +:+ Py.str_int p +:+ ": "
                                       +:+ (if m <=? 0
                                            then "object of type 'NoneType' has no len()"
                                            else "Failed to fetch " +:+ url +:+ ": "
                                                 +:+ failure_text
                                                       (respond E (k0 + (j - 1)) url)))
                                    :: older)
                            /\ clock (snd st) + (2 ^ (Z.max 1 m - 1) - 1) * second
                               <= clock (snd st')))) st3).
  { intros msg st3 Ho3 Hf3 Hall Hj -> Hclock.
    wp_apply wp_logging_later. intros r' st4 (-> & Hs4 & Hl4 & Hc4 & Hlog).
    apply wp_ret. split; [rewrite Hs4; exact Ho3|].
    exists j. split; [eapply fetched_later; eassumption|].
    split; [lia|]. exists []. split; [reflexivity|]. right.
    split; [reflexivity|]. split; [exact Hall|]. split; [exact Hj|].
    split; [eexists; exact Hlog|]. lia. }
  destruct r as [[text|]|e].
  - destruct Hres as (j0 & status & -> & Hlt & Hall & Hresp & Hgood & Hclock).
    rewrite range_length in Hlt.
    rewrite take_range, Z.add_0_l, backoff_range in Hclock by lia.
    wp_apply wp_logging_later. intros r st3 (-> & Hs3 & Hl3 & _).
    wp_apply wp_parse_items_later. intros r st4 (-> & Hs4 & Hl4 & _).
    wp_apply wp_logging_later. intros r st5 (-> & Hs5 & Hl5 & _).
    apply wp_ret.
    split; [rewrite Hs5, Hs4, Hs3; exact Ho2|].
    exists (S j0). split.
    { eapply fetched_later; [|exact Hl5].
      eapply fetched_later; [|exact Hl4].
      eapply fetched_later; [exact Hf02|exact Hl3]. }
    split; [lia|]. eexists. split; [reflexivity|]. left.
    exists j0, status, text, (localtime E (clock (snd st3))).
    split; [reflexivity|]. split; [exact Hall|]. split; [exact Hresp|].
    split; [exact Hgood|]. split; [reflexivity|].
    destruct Hl3 as (_ & _ & _ & ?), Hl4 as (_ & _ & _ & ?), Hl5 as (_ & _ & _ & ?).
    destruct Hl1 as (_ & _ & _ & ?). lia.
  - destruct Hres as (-> & Hall & Hne & Hclock).
    rewrite range_length in *.
    assert (Hm : m <= 0).
    { destruct (Z.le_gt_cases m 0) as [|Hpos]; [assumption|]. exfalso.
      rewrite Forall_forall in Hne. apply (Hne (m - 1)); [|reflexivity].
      apply range_elem. lia. }
    apply wp_raise.
    apply (Hfail "object of type 'NoneType' has no len()" st2 Ho2 Hf02 Hall).
    + lia.
    + destruct (Z.leb_spec m 0); [reflexivity|lia].
    + replace (Z.max 1 m - 1) with 0 by lia. simpl. lia.
  - destruct Hres as (j0 & -> & Hall & Hlook & -> & Hclock).
    apply range_lookup_Some in Hlook as [Hj0 Hlt].
    rewrite take_range, Z.add_0_l, backoff_range in Hclock by lia.
    apply (Hfail _ st2 Ho2 Hf02 Hall).
    + lia.
    + destruct (Z.leb_spec m 0); [lia|].
      replace (S j0 - 1)%nat with j0 by lia. reflexivity.
    + replace (Z.max 1 m - 1) with (Z.of_nat j0) by lia.
      destruct Hl1 as (_ & _ & _ & ?). lia.
Qed.

(** [scrape_page] of an object that cannot send requests: the empty list,
    and no request. *)
Lemma wp_async_scrape_page_blocked p st :
  ~ can_request (fst st) ->
  wp (scrape_page E p)
     (fun r st' =>
        let url := page_url (config (fst st)) p in
        let m := max_retries (config (fst st)) in
        async_same_object (fst st) (fst st')
        /\ later (snd st) (snd st')
        /\ r = Ok []
        /\ (exists older,
              log (snd st')
              = mkLog ERROR
                  ("Failed to scrape page " +:+ Py.str_int p +:+ ": "
                   +:+ (if m <=? 0
                        then "object of type 'NoneType' has no len()"
                        else "Failed to fetch " +:+ url +:+ ": "
                             +:+ blocked_text (fst st)))
                :: older)
        /\ clock (snd st) + (2 ^ (Z.max 1 m - 1) - 1) * second
           <= clock (snd st'))
     st.
Proof.
  intros Hcannot. unfold scrape_page. cbv zeta.
  set (url := page_url (config (fst st)) p).
  set (m := max_retries (config (fst st))).
  apply wp_try_except.
  apply wp_bind, wp_get_self. fold url.
  wp_apply wp_logging_later. intros r st1 (-> & Hs1 & Hl1 & _).
  apply wp_bind. unfold await, _make_request. apply wp_bind, wp_get_self.
  assert (Hcannot1 : ~ can_request (fst st1)) by (rewrite Hs1; exact Hcannot).
  eapply wp_mono; [apply (wp_async_make_request_loop_blocked url _ st1 Hcannot1)|].
  intros r st2 (Ho2 & Hl2 & Hres).
  rewrite Hs1 in Ho2, Hres. fold m in Hres.
  pose proof (later_trans _ _ _ Hl1 Hl2) as Hl02.
  assert (Hfail : forall msg st3,
    async_same_object (fst st) (fst st3) ->
    later (snd st) (snd st3) ->
    msg = (if m <=? 0
           then "object of type 'NoneType' has no len()"
           else "Failed to fetch " +:+ url +:+ ": " +:+ blocked_text (fst st)) ->
    clock (snd st) + (2 ^ (Z.max 1 m - 1) - 1) * second <= clock (snd st3) ->
    wp (do* logging ERROR ("Failed to scrape page " +:+ Py.str_int p +:+ ": " +:+ msg) in
        ret [])
       (fun (r : result (list Story)) st' =>
          async_same_object (fst st) (fst st')
          /\ later (snd st) (snd st')
          /\ r = Ok []
          /\ (exists older,
                log (snd st')
                = mkLog ERROR
                    ("Failed to scrape page " +:+ Py.str_int p +:+ ": "
                     +:+ (if m <=? 0
                          then "object of type 'NoneType' has no len()"
                          else "Failed to fetch " +:+ url +:+ ": "
                               +:+ blocked_text (fst st)))
                  :: older)
          /\ clock (snd st) + (2 ^ (Z.max 1 m - 1) - 1) * second
             <= clock (snd st')) st3).
  { intros msg st3 Ho3 Hl3 -> Hclock.
    wp_apply wp_logging_later. intros r' st4 (-> & Hs4 & Hl4 & Hc4 & Hlog).
    apply wp_ret. split; [rewrite Hs4; exact Ho3|].
    split; [eapply later_trans; eassumption|]. split; [reflexivity|].
    split; [eexists; exact Hlog|]. lia. }
  destruct r as [[text|]|e].
  - contradiction.
  - destruct Hres as (Hne & Hclock).
    assert (Hm : m <= 0).
    { destruct (Z.le_gt_cases m 0) as [|Hpos]; [assumption|]. exfalso.
      rewrite Forall_forall in Hne. apply (Hne (m - 1)); [|reflexivity].
      apply range_elem. lia. }
    apply wp_raise.
    apply (Hfail "object of type 'NoneType' has no len()" st2 Ho2 Hl02).
    + destruct (Z.leb_spec m 0); [reflexivity|lia].
    + replace (Z.max 1 m - 1) with 0 by lia. simpl.
      destruct Hl02 as (_ & _ & _ & ?). lia.
  - destruct Hres as (j0 & Hlook & -> & Hclock).
    apply range_lookup_Some in Hlook as [Hj0 Hlt].
    rewrite take_range, Z.add_0_l, backoff_range in Hclock by lia.
    apply (Hfail _ st2 Ho2 Hl02).
    + destruct (Z.leb_spec m 0); [lia|]. reflexivity.
    + replace (Z.max 1 m - 1) with (Z.of_nat j0) by lia.
      destruct Hl1 as (_ & _ & _ & ?). lia.
Qed.

(** [scrape_page] never raises, and asks only for its page. *)
Lemma wp_async_scrape_page_frame p st :
  wp (scrape_page E p)
     (fun r st' =>
        async_same_object (fst st) (fst st')
        /\ (exists j,
              fetched (page_url (config (fst st)) p) j (snd st) (snd st')
              /\ Z.of_nat j <= Z.max 0 (max_retries (config (fst st))))
        /\ exists l, r = Ok l)
     st.
Proof.
  destruct (can_request_dec (fst st)) as [Hcan|Hcannot].
  - eapply wp_mono; [apply (wp_async_scrape_page_trace p st Hcan)|]. cbv zeta.
    intros r st' (Ho & j & Hf & Hj & l & Hl & _).
    split; [exact Ho|]. split; [exists j; auto|]. exists l. exact Hl.
  - eapply wp_mono; [apply (wp_async_scrape_page_blocked p st Hcannot)|]. cbv zeta.
    intros r st' (Ho & Hl & Hr & _).
    split; [exact Ho|]. split; [|exists []; exact Hr].
    exists 0%nat. split; [|lia].
    destruct Hl as (Hr' & Hp & Hd & Hc).
    split; [exists []; auto|auto].
Qed.


(** The page loop, in full. *)
Lemma wp_async_scrape_loop_trace n cb pages : forall stories st,
  wp (scrape_loop E n cb pages stories (Z.of_nat (length stories)))
     (fun r st' =>
        async_same_object (fst st) (fst st')
        /\ delivered (snd st') = delivered (snd st)
        /\ clock (snd st) <= clock (snd st')
        /\ (exists new,
              requests (snd st') = new ++ requests (snd st)
              /\ Forall (fun q => exists p, p ∈ pages
                                  /\ snd q = page_url (config (fst st)) p) new
              /\ Z.of_nat (length new)
                 <= Z.of_nat (length pages) * Z.max 0 (max_retries (config (fst st))))
        /\ exists ls,
             (length ls <= length pages)%nat
             /\ progress (snd st')
                = (if cb
                   then rev (map (fun i => progress_report (stories :: ls) (S i))
                                 (seq 0 (length ls)))
                   else [])
                  ++ progress (snd st)
             /\ r = Ok (stories ++ concat ls)
             /\ (_stop_flag (fst st) = false -> length ls = length pages))
     st.
Proof.
  induction pages as [|page rest IH]; intros stories st.
  - apply wp_ret. split; [apply async_same_object_refl|]. split; [reflexivity|].
    split; [lia|]. split; [exists []; repeat split; [constructor|simpl; lia]|].
    exists []. split; [simpl; lia|]. split; [destruct cb; reflexivity|].
    simpl. rewrite app_nil_r. auto.
  - cbn [scrape_loop]. apply wp_bind, wp_get_self.
    destruct (_stop_flag (fst st)) eqn:Hflag.
    { apply wp_ret. split; [apply async_same_object_refl|]. split; [reflexivity|].
      split; [lia|]. split; [exists []; repeat split; [constructor|simpl; lia]|].
      exists []. split; [simpl; lia|]. split; [destruct cb; reflexivity|].
      simpl. rewrite app_nil_r. split; [reflexivity|discriminate]. }
    unfold await. wp_apply wp_async_scrape_page_frame.
    intros r st1 (Ho1 & (j & Hf1 & Hj) & page_stories & ->).
    assert (Hnew1 : exists new,
              requests (snd st1) = new ++ requests (snd st)
              /\ Forall (fun q => exists p, p ∈ page :: rest
                                  /\ snd q = page_url (config (fst st)) p) new
              /\ Z.of_nat (length new) <= Z.max 0 (max_retries (config (fst st)))).
    { destruct Hf1 as ((ts & Hlen & Hts) & _).
      exists (map (fun t => (t, page_url (config (fst st)) page)) ts).
      split; [exact Hts|]. split; [|rewrite length_map; lia].
      apply Forall_forall. intros q Hq. apply list_elem_of_fmap in Hq as (t & -> & _).
      exists page. split; [left|reflexivity]. }
    apply wp_bind.
    eapply (wp_mono _ (fun r st' =>
              r = Ok tt /\ fst st' = fst st1 /\ requests (snd st') = requests (snd st1)
              /\ delivered (snd st') = delivered (snd st1)
              /\ clock (snd st') = clock (snd st1)
              /\ progress (snd st')
                 = (if cb
                    then [(Z.of_nat (length (stories ++ page_stories)),
                           _calculate_stats (stories ++ page_stories))]
                    else []) ++ progress (snd st1))).
    { destruct cb.
      - destruct st1 as [s1 w1]. unfold wp. simpl.
        rewrite length_app, Nat2Z.inj_add. repeat split.
      - apply wp_ret. repeat split. }
    intros r st2 (-> & Hs2 & Hr2 & Hd2 & Hc2 & Hp2).
    apply wp_bind.
    eapply (wp_mono _ (fun r st' =>
              r = Ok tt /\ fst st' = fst st2 /\ later (snd st2) (snd st'))).
    { destruct (page <? n);
        [|apply wp_ret; split; [reflexivity|split; [reflexivity|apply later_refl]]].
      eapply wp_mono; [apply wp_asyncio_sleep_later|].
      intros r st' (-> & Hs & Hl & _). auto. }
    intros r st3 (-> & Hs3 & Hl3).
    assert (Ho3 : async_same_object (fst st) (fst st3))
      by (rewrite Hs3, Hs2; exact Ho1).
    assert (Hcfg : config (fst st3) = config (fst st)) by apply Ho3.
    assert (Hd3 : delivered (snd st3) = delivered (snd st)).
    { destruct Hl3 as (_ & _ & -> & _). rewrite Hd2. apply Hf1. }
    assert (Hc3 : clock (snd st) <= clock (snd st3)).
    { destruct Hl3 as (_ & _ & _ & ?), Hf1 as (_ & _ & _ & ?). lia. }
    assert (Hp3 : progress (snd st3)
                  = (if cb
                     then [(Z.of_nat (length (stories ++ page_stories)),
                            _calculate_stats (stories ++ page_stories))]
                     else []) ++ progress (snd st)).
    { destruct Hl3 as (_ & -> & _). rewrite Hp2. f_equal. apply Hf1. }
    assert (Hnew3 : exists new,
              requests (snd st3) = new ++ requests (snd st)
              /\ Forall (fun q => exists p, p ∈ page :: rest
                                  /\ snd q = page_url (config (fst st)) p) new
              /\ Z.of_nat (length new) <= Z.max 0 (max_retries (config (fst st)))).
    { destruct Hnew1 as (new & Hn & Hrest). exists new. split; [|exact Hrest].
      destruct Hl3 as (-> & _). rewrite Hr2. exact Hn. }
    replace (Z.of_nat (length stories) + Z.of_nat (length page_stories))
      with (Z.of_nat (length (stories ++ page_stories)))
      by (rewrite length_app; lia).
    eapply wp_mono; [apply IH|].
    intros r st4 (Ho4 & Hd4 & Hc4 & (new' & Hn' & Hall' & Hlen') & ls & Hls & Hp4 & -> & Hlen).
    split; [eapply async_same_object_trans; eassumption|].
    split; [congruence|]. split; [lia|]. split.
    + destruct Hnew3 as (new & Hn & Hall & Hlen3). exists (new' ++ new).
      split; [rewrite Hn', Hn; apply app_assoc|]. split.
      * apply Forall_app. split; [|exact Hall].
        eapply Forall_impl; [exact Hall'|]. intros q (p & Hp & Hq).
        exists p. split; [right; exact Hp|]. rewrite Hq, Hcfg. reflexivity.
      * rewrite Hcfg in Hlen'. rewrite length_app. cbn [length]. nia.
    + exists (page_stories :: ls). split; [simpl; lia|]. split.
      * rewrite Hp4, Hp3. apply progress_reports_cons.
      * split; [simpl; rewrite <- app_assoc; reflexivity|].
        intros _. simpl. f_equal. apply Hlen.
        destruct Ho3 as (_ & _ & _ & _ & ->). exact Hflag.
Qed.

(** [scrape_stories], in full. *)
Lemma wp_async_scrape_stories_trace n cb st :
  wp (scrape_stories E n cb)
     (fun r st' =>
        config (fst st') = config (fst st)
        /\ robot_parser (fst st') = robot_parser (fst st)
        /\ _scraping (fst st') = _scraping (fst st)
        /\ _stop_flag (fst st') = _stop_flag (fst st)
        /\ session (fst st') = ClosedSession
        /\ delivered (snd st') = delivered (snd st)
        /\ clock (snd st) <= clock (snd st')
        /\ (exists new,
              requests (snd st') = new ++ requests (snd st)
              /\ Forall (fun q => exists p, 1 <= p <= n
                                  /\ snd q = page_url (config (fst st)) p) new
              /\ Z.of_nat (length new)
                 <= Z.max 0 n * Z.max 0 (max_retries (config (fst st))))
        /\ exists ls,
             (length ls <= Z.to_nat n)%nat
             /\ progress (snd st')
                = (if cb then progress_reports ls else []) ++ progress (snd st)
             /\ r = Ok (concat ls)
             /\ (_stop_flag (fst st) = false -> length ls = Z.to_nat n))
     st.
Proof.
  unfold scrape_stories, with_client_session. apply wp_try_except.
  apply wp_bind.
  eapply (wp_mono _ (fun r st' =>
            r = Ok tt /\ snd st' = snd st
            /\ config (fst st') = config (fst st)
            /\ robot_parser (fst st') = robot_parser (fst st)
            /\ _scraping (fst st') = _scraping (fst st)
            /\ _stop_flag (fst st') = _stop_flag (fst st))).
  { destruct st as [s w]. unfold wp. simpl. repeat split. }
  intros r st1 (-> & Hw1 & Hc1 & Hrp1 & Hsc1 & Hsf1).
  apply wp_try_finally. unfold await.
  apply wp_bind.
  eapply wp_mono; [apply (wp_async_scrape_loop_trace n cb (range 1 (n + 1)) [] st1)|].
  intros r st2 (Ho2 & Hd2 & Hc2 & (new & Hn & Hall & Hlen) & ls & Hls & Hp & -> & Hfull).
  rewrite range_length in *. replace (n + 1 - 1) with n in * by lia.
  rewrite progress_reports_from_nil in Hp.
  wp_apply wp_logging_later. intros r st3 (-> & Hs3 & Hl3 & Hc3 & _).
  apply wp_ret.
  destruct st3 as [s3 w3]. unfold wp. simpl in *.
  destruct Ho2 as (Hcfg2 & _ & Hrp2 & Hsc2 & Hsf2).
  destruct Hl3 as (Hr3 & Hp3 & Hd3 & _).
  rewrite Hw1 in *.
  split; [congruence|]. split; [congruence|]. split; [congruence|].
  split; [congruence|]. split; [reflexivity|]. split; [congruence|].
  split; [lia|]. split.
  - exists new. split; [congruence|]. split.
    + eapply Forall_impl; [exact Hall|]. intros q (p & Hp' & Hq).
      exists p. split; [apply range_elem in Hp'; lia|]. rewrite Hq, Hc1. reflexivity.
    + rewrite Hc1 in Hlen.
      replace (Z.of_nat (Z.to_nat n)) with (Z.max 0 n) in Hlen by lia. exact Hlen.
  - exists ls. split; [exact Hls|]. split; [congruence|]. split; [reflexivity|].
    intros Hflag. apply Hfull. congruence.
Qed.

End AsynchronousTrace.

(** ** What a page costs: retries, back-off, and the requests of a run *)

Section RetryFacts.
Context `{DT : DateTime}.
Variable E : Env.
Import Story.

Lemma first_good_unique url k0 j0 j1 text text' status status' :
  all_fail E url k0 j0 ->
  respond E (k0 + j0) url = Response status text ->
  good (Response status text) = Some text ->
  all_fail E url k0 j1 ->
  respond E (k0 + j1) url = Response status' text' ->
  good (respond E (k0 + j1) url) = Some text' ->
  j1 = j0 /\ text' = text.
Proof.
  intros Hall0 Hresp0 Hgood0 Hall1 Hresp1 Hgood1.
  destruct (lt_eq_lt_dec j0 j1) as [[Hlt|Heq]|Hlt].
  - specialize (Hall1 j0 Hlt). rewrite Hresp0, Hgood0 in Hall1. discriminate.
  - subst j1. split; [reflexivity|]. congruence.
  - specialize (Hall0 j1 Hlt). rewrite Hgood1 in Hall0. discriminate.
Qed.

(** X12: the sequential [scrape_page] takes the first usable answer.
    When the first [j0] answers to the page's requests are unusable and the
    next one is usable, with [j0] below [max_retries], the call returns the
    stories parsed from that answer, after exactly [j0 + 1] requests, all
    for the page's URL, and after sleeping at least [2^j0 - 1] seconds of
    back-off. *)
Theorem X12_sequential_page_takes_first_good_answer
    (p : Z) (s : HackerNewsScraper.Scraper) (w : World)
    (j0 : nat) (status : Z) (text : string) :
  let url := HackerNewsScraper.page_url (HackerNewsScraper.config s) p in
  let k0 := length (requests w) in
  Z.of_nat j0 < max_retries (HackerNewsScraper.config s) ->
  all_fail E url k0 j0 ->
  respond E (k0 + j0) url = Response status text ->
  good (Response status text) = Some text ->
  let run := HackerNewsScraper.scrape_page E p (s, w) in
  (exists now, fst run = Ok (parse_body E now text))
  /\ (exists ts,
        length ts = S j0
        /\ requests (snd (snd run)) = map (fun t => (t, url)) ts ++ requests w)
  /\ clock w + (2 ^ Z.of_nat j0 - 1) * second <= clock (snd (snd run)).
Proof.
  intros url k0 Hj0 Hall Hresp Hgood run. subst run.
  pose proof (wp_scrape_page_trace E p (s, w)) as H. unfold wp in H.
  cbv zeta in H. cbn [fst snd] in H. fold url k0 in H.
  destruct (HackerNewsScraper.scrape_page E p (s, w)) as [r st']. cbn [fst snd] in *.
  destruct H as (_ & j & Hf & Hj & Hres).
  destruct r as [l|e].
  - destruct Hres as (j1 & status' & text' & now & -> & Hall1 & Hresp1 & Hgood1 & -> & Hclock).
    destruct (first_good_unique _ _ _ _ _ _ _ _ Hall Hresp Hgood Hall1 Hresp1 Hgood1)
      as [-> ->].
    split; [eauto|]. split; [apply Hf|exact Hclock].
  - exfalso. destruct Hres as (Hall1 & Hjm & _).
    assert (Hlt : (j0 < j)%nat) by lia.
    specialize (Hall1 j0 Hlt). rewrite Hresp, Hgood in Hall1. discriminate.
Qed.


(** X14: the asynchronous [scrape_page], during a run, takes the first
    usable answer.  With an open session and a non-empty list of user
    agents, when the first [j0] answers are unusable and the next one is
    usable, with [j0] below [max_retries], the call returns the stories
    parsed from that answer after exactly [j0 + 1] requests for the page's
    URL. *)
Theorem X14_asynchronous_page_takes_first_good_answer
    (p : Z) (s : AsyncHackerNewsScraper.Scraper) (w : World)
    (j0 : nat) (status : Z) (text : string) :
  let url := AsyncHackerNewsScraper.page_url (AsyncHackerNewsScraper.config s) p in
  let k0 := length (requests w) in
  AsyncHackerNewsScraper.session s = AsyncHackerNewsScraper.OpenSession ->
  user_agents (AsyncHackerNewsScraper.config s) <> [] ->
  Z.of_nat j0 < max_retries (AsyncHackerNewsScraper.config s) ->
  all_fail E url k0 j0 ->
  respond E (k0 + j0) url = Response status text ->
  good (Response status text) = Some text ->
  let run := AsyncHackerNewsScraper.scrape_page E p (s, w) in
  (exists now, fst run = Ok (parse_body E now text))
  /\ (exists ts,
        length ts = S j0
        /\ requests (snd (snd run)) = map (fun t => (t, url)) ts ++ requests w)
  /\ clock w + (2 ^ Z.of_nat j0 - 1) * second <= clock (snd (snd run)).
Proof.
  intros url k0 Hx Hua Hj0 Hall Hresp Hgood run. subst run.
  pose proof (wp_async_scrape_page_trace E p (s, w) (conj Hx Hua)) as H.
  unfold wp in H. cbv zeta in H. cbn [fst snd] in H. fold url k0 in H.
  destruct (AsyncHackerNewsScraper.scrape_page E p (s, w)) as [r st'].
  cbn [fst snd] in *.
  destruct H as (_ & j & Hf & Hj & l & -> & [Hres|Hres]).
  - destruct Hres as (j1 & status' & text' & now & -> & Hall1 & Hresp1 & Hgood1 & -> & Hclock).
    destruct (first_good_unique _ _ _ _ _ _ _ _ Hall Hresp Hgood Hall1 Hresp1 Hgood1)
      as [-> ->].
    split; [eauto|]. split; [apply Hf|exact Hclock].
  - exfalso. destruct Hres as (_ & Hall1 & Hjm & _).
    assert (Hlt : (j0 < j)%nat) by lia.
    specialize (Hall1 j0 Hlt). rewrite Hresp, Hgood in Hall1. discriminate.
Qed.


(** X16: the asynchronous [scrape_page] outside a run.  On an object
    whose session is not open (as the constructor leaves it, or after a
    run) or whose list of user agents is empty, the call sends nothing: it
    returns the empty list, the requests are those made before, and with at
    least one retry configured it has slept through the whole back-off and
    logged the reason. *)
Theorem X16_asynchronous_page_without_session
    (p : Z) (s : AsyncHackerNewsScraper.Scraper) (w : World) :
  let url := AsyncHackerNewsScraper.page_url (AsyncHackerNewsScraper.config s) p in
  let m := max_retries (AsyncHackerNewsScraper.config s) in
  AsyncHackerNewsScraper.session s <> AsyncHackerNewsScraper.OpenSession
  \/ user_agents (AsyncHackerNewsScraper.config s) = [] ->
  let run := AsyncHackerNewsScraper.scrape_page E p (s, w) in
  fst run = Ok []
  /\ requests (snd (snd run)) = requests w
  /\ (0 < m ->
      head (log (snd (snd run)))
      = Some (mkLog ERROR
                ("Failed to scrape page " +:+ Py.str_int p +:+ ": "
                 +:+ "Failed to fetch " +:+ url +:+ ": " +:+ blocked_text s))
      /\ clock w + (2 ^ (m - 1) - 1) * second <= clock (snd (snd run))).
Proof.
  intros url m Hblocked run. subst run.
  assert (Hcannot : ~ can_request s).
  { intros [Hx Hua]. destruct Hblocked; contradiction. }
  pose proof (wp_async_scrape_page_blocked E p (s, w) Hcannot) as H.
  unfold wp in H. cbv zeta in H. cbn [fst snd] in H. fold url m in H.
  destruct (AsyncHackerNewsScraper.scrape_page E p (s, w)) as [r st'].
  cbn [fst snd] in *.
  destruct H as (_ & Hl & -> & (older & Hlog) & Hclock).
  split; [reflexivity|]. split; [apply Hl|].
  intros Hm. destruct (Z.leb_spec m 0); [lia|].
  split; [rewrite Hlog; reflexivity|].
  replace (Z.max 1 m - 1) with (m - 1) in Hclock by lia. exact Hclock.
Qed.

End RetryFacts.

(** ** Runs: their requests, their progress reports, their stories *)

Section RunFacts.
Context `{DT : DateTime}.
Variable E : Env.
Import Story.

(** X17: a run asks for listing pages only.  Every request made during
    [scrape_stories], in either scraper, is for the URL of one of the pages
    1 to [num_pages] (the robots file is not fetched again, and no story
    link is followed), and there are at most [num_pages * max_retries] of
    them. *)
Theorem X17_run_requests_only_listing_pages (n : Z) (cb : bool) (w : World) :
  (forall s : HackerNewsScraper.Scraper,
     let st' := snd (HackerNewsScraper.scrape_stories E n cb (s, w)) in
     let cfg := HackerNewsScraper.config s in
     exists new,
       requests (snd st') = new ++ requests w
       /\ Forall (fun q => exists p, 1 <= p <= n
                           /\ snd q = HackerNewsScraper.page_url cfg p) new
       /\ Z.of_nat (length new) <= Z.max 0 n * Z.max 0 (max_retries cfg))
  /\ (forall a : AsyncHackerNewsScraper.Scraper,
        let st' := snd (AsyncHackerNewsScraper.scrape_stories E n cb (a, w)) in
        let cfg := AsyncHackerNewsScraper.config a in
        exists new,
          requests (snd st') = new ++ requests w
          /\ Forall (fun q => exists p, 1 <= p <= n
                              /\ snd q = AsyncHackerNewsScraper.page_url cfg p) new
          /\ Z.of_nat (length new) <= Z.max 0 n * Z.max 0 (max_retries cfg)).
Proof.
  split.
  - intros s. cbv zeta.
    pose proof (wp_scrape_stories_trace E n cb (s, w)) as H. unfold wp in H.
    destruct H as (_ & _ & _ & Hnew & _). exact Hnew.
  - intros a. cbv zeta.
    pose proof (wp_async_scrape_stories_trace E n cb (a, w)) as H. unfold wp in H.
    destruct H as (_ & _ & _ & _ & _ & _ & _ & Hnew & _). exact Hnew.
Qed.


Lemma progress_reports_length (ls : list (list Story)) :
  length (progress_reports ls) = length ls.
Proof.
  unfold progress_reports. rewrite length_rev, length_map, length_seq. reflexivity.
Qed.






(** X20: nothing to do.  A run over no page (a page count of zero or
    less) returns the empty list at once, in both scrapers, and sends
    nothing.  With [max_retries] at zero or less no request is ever sent
    for a page: the sequential [scrape_page] raises [ScrapingError] (the
    response it expects is missing), the asynchronous one returns the empty
    list. *)
Theorem X20_no_page_or_no_attempt (p n : Z) (cb : bool) (w : World) :
  (forall s : HackerNewsScraper.Scraper,
     n <= 0 -> HackerNewsScraper.scrape_stories E n cb (s, w) = (Ok [], (s, w)))
  /\ (forall a : AsyncHackerNewsScraper.Scraper,
        n <= 0 ->
        let run := AsyncHackerNewsScraper.scrape_stories E n cb (a, w) in
        fst run = Ok [] /\ requests (snd (snd run)) = requests w
        /\ clock (snd (snd run)) = clock w)
  /\ (forall s : HackerNewsScraper.Scraper,
        max_retries (HackerNewsScraper.config s) <= 0 ->
        let run := HackerNewsScraper.scrape_page E p (s, w) in
        fst run
        = Raise (mkExn ScrapingError
                   ("Failed to scrape page " +:+ Py.str_int p +:+ ": "
                    +:+ "'NoneType' object has no attribute 'text'"))
        /\ requests (snd (snd run)) = requests w)
  /\ (forall a : AsyncHackerNewsScraper.Scraper,
        max_retries (AsyncHackerNewsScraper.config a) <= 0 ->
        let run := AsyncHackerNewsScraper.scrape_page E p (a, w) in
        fst run = Ok [] /\ requests (snd (snd run)) = requests w).
Proof.
  split; [|split; [|split]].
  - intros s Hn. unfold HackerNewsScraper.scrape_stories, try_except.
    rewrite range_nil by lia. reflexivity.
  - intros a Hn. cbv zeta.
    unfold AsyncHackerNewsScraper.scrape_stories,
      AsyncHackerNewsScraper.with_client_session, try_except.
    rewrite range_nil by lia. destruct a. repeat split.
  - intros s Hm. cbv zeta.
    pose proof (wp_scrape_page_trace E p (s, w)) as H. unfold wp in H.
    cbv zeta in H. cbn [fst snd] in H.
    destruct (HackerNewsScraper.scrape_page E p (s, w)) as [r st']. cbn [fst snd] in *.
    destruct H as (_ & j & Hf & Hj & Hres).
    assert (j = 0%nat) as -> by lia.
    destruct Hf as ((ts & Hlen & Hts) & _). destruct ts; [|discriminate].
    split; [|exact Hts].
    destruct r as [l|e].
    + destruct Hres as (j0 & _ & _ & _ & Hbad & _). discriminate.
    + destruct Hres as (_ & _ & -> & _).
      destruct (Z.leb_spec (max_retries (HackerNewsScraper.config s)) 0); [reflexivity|lia].
  - intros a Hm. cbv zeta.
    pose proof (wp_async_scrape_page_frame E p (a, w)) as H. unfold wp in H.
    cbn [fst snd] in H.
    destruct (AsyncHackerNewsScraper.scrape_page E p (a, w)) as [r st'] eqn:Hrun.
    cbn [fst snd] in *.
    destruct H as (_ & (j & Hf & Hj) & l & ->).
    assert (j = 0%nat) as -> by lia.
    destruct Hf as ((ts & Hlen & Hts) & _). destruct ts; [|discriminate].
    split; [|exact Hts]. f_equal.
    destruct (can_request_dec a) as [Hcan|Hcannot].
    + pose proof (wp_async_scrape_page_trace E p (a, w) Hcan) as H. unfold wp in H.
      rewrite Hrun in H. cbv zeta in H. cbn [fst snd] in H.
      destruct H as (_ & j & _ & Hj' & l' & Hl' & [Hres|Hres]).
      * destruct Hres as (j0 & _ & _ & _ & -> & _). lia.
      * destruct Hres as (-> & _). congruence.
    + pose proof (wp_async_scrape_page_blocked E p (a, w) Hcannot) as H. unfold wp in H.
      rewrite Hrun in H. cbv zeta in H. cbn [fst snd] in H.
      destruct H as (_ & _ & Hr & _). congruence.
Qed.

Lemma extract_record now item s :
  extract now item = Some s -> is_record s /\ exists d, time s = Some d.
Proof.
  unfold extract. intros H.
  destruct (title_anchor item) as [[text href]|]; [|discriminate].
  destruct (next_row item) as [[st|]|]; try discriminate.
  destruct (points_of st) as [pts|]; [|discriminate].
  destruct (new _ _ _ _ _ _ _) as [s'|e] eqn:Hnew; [|discriminate].
  injection H as <-. split; [do 7 eexists; exact Hnew|].
  rewrite new_closed_form in Hnew.
  destruct (decide _); [discriminate|]. destruct (falsy _); [discriminate|].
  injection Hnew as <-. simpl. eauto.
Qed.

Lemma parse_body_records now text :
  Forall (fun s => is_record s /\ exists d, time s = Some d) (parse_body E now text).
Proof.
  unfold parse_body, parse_body_items. apply Forall_forall. intros s Hs.
  apply list_elem_of_omap in Hs as (item & _ & Hitem).
  apply (extract_record now item s Hitem).
Qed.


Lemma record_is_valid s :
  is_record s /\ (exists d, time s = Some d) ->
  __post_init__ s = Ok s
  /\ title s <> EmptyString /\ falsy (url s) = false /\ 0 <= points s
  /\ username s <> EmptyString /\ 0 <= comment_count s
  /\ falsy (story_id s) = false /\ time s <> None.
Proof.
  intros [Hrec (d & Hd)].
  destruct (record_invariant s Hrec)
    as (Ht & (u & Hu & Hu') & Hp & Hun & Hc & (i & Hi & Hi')).
  split; [rewrite post_init_new; apply new_record, Hrec|].
  repeat split; try assumption.
  - rewrite Hu. destruct u; [contradiction|reflexivity].
  - rewrite Hi. destruct i; [contradiction|reflexivity].
  - rewrite Hd. discriminate.
Qed.

Lemma Forall_concat (P : Story -> Prop) (ls : list (list Story)) :
  Forall (Forall P) ls -> Forall P (concat ls).
Proof. intros H. induction H; simpl; [constructor|]. apply Forall_app; auto. Qed.

Lemma sync_page_records p st l :
  fst (HackerNewsScraper.scrape_page E p st) = Ok l ->
  Forall (fun s => is_record s /\ exists d, time s = Some d) l.
Proof.
  intros Hrun.
  pose proof (wp_scrape_page E p st) as H. unfold wp in H. rewrite Hrun in H.
  destruct H as (_ & now & text & _ & ->). apply parse_body_records.
Qed.

Lemma sync_run_records n cb st l :
  fst (HackerNewsScraper.scrape_stories E n cb st) = Ok l ->
  Forall (fun s => is_record s /\ exists d, time s = Some d) l.
Proof.
  intros Hrun.
  pose proof (wp_scrape_stories E n cb st) as H. unfold wp in H. rewrite Hrun in H.
  destruct H as (_ & ls & -> & Hall & _). apply Forall_concat.
  clear Hrun. induction Hall as [|q l' qs ls' Hq _ IH]; constructor; [|exact IH].
  destruct Hq as (now & text & _ & ->). apply parse_body_records.
Qed.

Lemma async_page_records_valid p st l :
  fst (AsyncHackerNewsScraper.scrape_page E p st) = Ok l ->
  Forall (fun s => is_record s /\ exists d, time s = Some d) l.
Proof.
  intros Hrun.
  destruct (can_request_dec (fst st)) as [Hcan|Hcannot].
  - pose proof (wp_async_scrape_page_trace E p st Hcan) as H. unfold wp in H.
    rewrite Hrun in H. cbv zeta in H.
    destruct H as (_ & j & _ & _ & l' & Hl & [Hres|Hres]).
    + destruct Hres as (j0 & status & text & now & _ & _ & _ & _ & -> & _).
      injection Hl as ->. apply parse_body_records.
    + destruct Hres as (-> & _). injection Hl as ->. constructor.
  - pose proof (wp_async_scrape_page_blocked E p st Hcannot) as H. unfold wp in H.
    rewrite Hrun in H. cbv zeta in H.
    destruct H as (_ & _ & Hl & _). injection Hl as ->. constructor.
Qed.

Lemma async_run_records n cb st l :
  fst (AsyncHackerNewsScraper.scrape_stories E n cb st) = Ok l ->
  Forall (fun s => is_record s /\ exists d, time s = Some d) l.
Proof.
  intros Hrun.
  pose proof (wp_async_scrape_stories E n cb st) as H. unfold wp in H.
  rewrite Hrun in H.
  destruct H as (_ & _ & ls & Hl & Hall & _). injection Hl as ->.
  apply Forall_concat. clear Hrun.
  induction Hall as [|q l' qs ls' Hq _ IH]; constructor; [|exact IH].
  destruct Hq as [(now & text & _ & ->)|[-> _]];
    [apply parse_body_records|constructor].
Qed.

(** X10: whatever the scrapers return has been validated.  Every story
    in a list returned by [scrape_page] or [scrape_stories], in either
    scraper, is one that [__post_init__] accepts unchanged: its title, URL,
    author and identifier are not empty, its points and comment count are
    not negative, and it carries a time. *)
Theorem X10_scraped_stories_are_validated (n p : Z) (cb : bool) :
  let valid := fun s : Story =>
    __post_init__ s = Ok s
    /\ title s <> EmptyString /\ falsy (url s) = false /\ 0 <= points s
    /\ username s <> EmptyString /\ 0 <= comment_count s
    /\ falsy (story_id s) = false /\ time s <> None in
  (forall st l,
     fst (HackerNewsScraper.scrape_page E p st) = Ok l -> Forall valid l)
  /\ (forall st l,
        fst (HackerNewsScraper.scrape_stories E n cb st) = Ok l -> Forall valid l)
  /\ (forall st l,
        fst (AsyncHackerNewsScraper.scrape_page E p st) = Ok l -> Forall valid l)
  /\ (forall st l,
        fst (AsyncHackerNewsScraper.scrape_stories E n cb st) = Ok l ->
        Forall valid l).
Proof.
  cbv zeta.
  split; [|split; [|split]]; intros st l Hrun;
    (eapply Forall_impl; [|intros s; apply record_is_valid]).
  - apply (sync_page_records p st l Hrun).
  - apply (sync_run_records n cb st l Hrun).
  - apply (async_page_records_valid p st l Hrun).
  - apply (async_run_records n cb st l Hrun).
Qed.


End RunFacts.

(** ** Construction, background runs, and the command-line entry points *)

Section LifeCycleFacts.
Context `{DT : DateTime}.
Variable E : Env.
Import Story.


Lemma async_call_frame c st :
  let st' := snd (async_call E c st) in
  (AsyncHackerNewsScraper._scraping (fst st) = true
   \/ AsyncHackerNewsScraper._stop_flag (fst st) = true) ->
  (AsyncHackerNewsScraper._scraping (fst st') = true
   \/ AsyncHackerNewsScraper._stop_flag (fst st') = true)
  /\ (delivered (snd st') = delivered (snd st)
      \/ delivered (snd st') = [] :: delivered (snd st)).
Proof.
  cbv zeta. intros Hinv. destruct c as [|n cb|p|callback n]; cbn [async_call].
  - destruct st as [s w]. cbn. split; [right; reflexivity|left; reflexivity].
  - unfold bind.
    pose proof (wp_async_scrape_stories_trace E n cb st) as H. unfold wp in H.
    destruct (AsyncHackerNewsScraper.scrape_stories E n cb st) as [r st'].
    cbn [fst snd] in H.
    destruct H as (_ & _ & Hsc & Hsf & _ & Hd & _).
    destruct r; unfold ret; cbn [fst snd];
      (split; [rewrite Hsc, Hsf; exact Hinv|left; exact Hd]).
  - unfold bind.
    pose proof (wp_async_scrape_page_frame E p st) as H. unfold wp in H.
    destruct (AsyncHackerNewsScraper.scrape_page E p st) as [r st'].
    cbn [fst snd] in H.
    destruct H as ((_ & _ & _ & Hsc & Hsf) & (j & Hf & _) & _).
    destruct r; unfold ret; cbn [fst snd];
      (split; [rewrite Hsc, Hsf; exact Hinv|left; apply Hf]).
  - destruct st as [s w]. cbn [fst snd] in *.
    destruct (AsyncHackerNewsScraper._scraping s) eqn:Hscr.
    + unfold AsyncHackerNewsScraper.start_scraping, bind, get_self. cbn [fst snd].
      rewrite Hscr. cbn. split; [left; exact Hscr|left; reflexivity].
    + destruct Hinv as [Hbad|Hflag]; [discriminate|].
      rewrite (async_stopped_start_run E callback n s w (conj Hflag Hscr)).
      cbn. split; [right; exact Hflag|].
      destruct callback; [right|left]; reflexivity.
Qed.

(** X22: [start_scraping] of the asynchronous scraper never delivers a
    story.  The constructor leaves [_scraping] set, so on a new object
    [start_scraping] raises "already in progress" and does nothing; the only
    method that clears [_scraping] for it is [stop_scraping], which also
    sets the stop flag for good.  Hence, whatever public methods are called
    on a new object and in whatever order, every list handed to a
    completion callback is empty. *)
Theorem X22_asynchronous_start_scraping_delivers_nothing
    (config : option ScraperConfig) (w : World) (cs : list call) :
  exists a,
    AsyncHackerNewsScraper.__init__ E config w = (Ok a, w)
    /\ (forall callback n,
          AsyncHackerNewsScraper.start_scraping E callback n (a, w)
          = (Raise (mkExn ScraperError "Scraping is already in progress"), (a, w)))
    /\ exists k,
         delivered (snd (async_calls E cs (a, w))) = repeat [] k ++ delivered w.
Proof.
  eexists. split; [reflexivity|]. split; [reflexivity|].
  set (a := AsyncHackerNewsScraper.mkScraper _ _ _ _ _ _).
  assert (Hinv : AsyncHackerNewsScraper._scraping (fst (a, w)) = true
                 \/ AsyncHackerNewsScraper._stop_flag (fst (a, w)) = true)
    by (left; reflexivity).
  change (delivered w) with (delivered (snd (a, w))).
  generalize dependent (a, w). clear a w.
  induction cs as [|c cs IH]; intros st Hinv.
  - exists 0%nat. reflexivity.
  - cbn [async_calls fold_left].
    destruct (async_call_frame c st Hinv) as [Hinv' Hd].
    destruct (IH _ Hinv') as (k & Hk).
    unfold async_calls in Hk. rewrite Hk.
    destruct Hd as [->| ->].
    + exists k. reflexivity.
    + exists (S k). cbn [repeat]. rewrite repeat_cons, <- app_assoc. reflexivity.
Qed.





Lemma sync_call_keeps_agent c st :
  let st' := snd (sync_call E c st) in
  HackerNewsScraper.config (fst st') = HackerNewsScraper.config (fst st)
  /\ HackerNewsScraper.session_user_agent (fst st')
     = HackerNewsScraper.session_user_agent (fst st).
Proof.
  cbv zeta. destruct c as [|n cb|p|callback n]; cbn [sync_call].
  - destruct st as [s w]. split; reflexivity.
  - unfold bind.
    pose proof (wp_scrape_stories_trace E n cb st) as H. unfold wp in H.
    destruct (HackerNewsScraper.scrape_stories E n cb st) as [r st'].
    cbn [fst snd] in H. destruct H as ((Hc & Hua & _) & _).
    destruct r; unfold ret; cbn [fst snd]; auto.
  - unfold bind.
    pose proof (wp_scrape_page_trace E p st) as H. unfold wp in H.
    destruct (HackerNewsScraper.scrape_page E p st) as [r st'].
    cbn [fst snd] in H. destruct H as ((Hc & Hua & _) & _).
    destruct r; unfold ret; cbn [fst snd]; auto.
  - destruct st as [s w].
    unfold HackerNewsScraper.start_scraping, bind, get_self. cbn [fst snd].
    destruct (HackerNewsScraper._scraping s); [split; reflexivity|].
    cbn [HackerNewsScraper.set_scraping HackerNewsScraper.set_scrape_thread
         bind get_self put_self fst snd].
    unfold HackerNewsScraper.set_scraping, HackerNewsScraper.set_scrape_thread,
      bind, get_self, put_self. cbn [fst snd].
    set (s1 := HackerNewsScraper.mkScraper _ _ _ _ _ _ _).
    unfold try_except, try_finally.
    pose proof (wp_scrape_stories_trace E n false (s1, w)) as H. unfold wp in H.
    destruct (HackerNewsScraper.scrape_stories E n false (s1, w)) as [r [s2 w2]].
    cbn [fst snd] in H. destruct H as ((Hc & Hua & _) & _).
    destruct r as [l|e]; cbn [fst snd].
    + destruct callback; cbn; auto.
    + cbn. auto.
Qed.

(** X25: the sequential scraper never rotates its user agent.  The user
    agent is drawn once, in the constructor; whatever public methods are
    called afterwards, and in whatever order, the session keeps that user
    agent, and the configuration is not touched either. *)
Theorem X25_sequential_user_agent_is_never_rotated
    (cs : list call) (st : HackerNewsScraper.Scraper * World) :
  HackerNewsScraper.session_user_agent (fst (sync_calls E cs st))
  = HackerNewsScraper.session_user_agent (fst st)
  /\ HackerNewsScraper.config (fst (sync_calls E cs st))
     = HackerNewsScraper.config (fst st).
Proof.
  revert st. induction cs as [|c cs IH]; intros st; [split; reflexivity|].
  cbn [sync_calls fold_left].
  destruct (sync_call_keeps_agent c st) as [Hc Hua].
  destruct (IH (snd (sync_call E c st))) as [IHua IHc].
  unfold sync_calls in IHua, IHc. rewrite IHua, IHc. auto.
Qed.

End LifeCycleFacts.

(** ** What the rules of the robots file change: nothing *)

Section Commutation.
Context `{DT : DateTime}.
Variable E : Env.
Context {Self : Type}.
Variable f : Self -> Self.

Lemma commutes_ret {A} (a : A) : commutes f (ret a).
Proof. intros s w. reflexivity. Qed.

Lemma commutes_raise {A} e : commutes f (raise (A:=A) e).
Proof. intros s w. reflexivity. Qed.

Lemma commutes_lift {A} (r : result A) : commutes f (lift r).
Proof. intros s w. reflexivity. Qed.

Lemma commutes_bind {A B} (m : M Self A) (k : A -> M Self B) :
  commutes f m -> (forall a, commutes f (k a)) -> commutes f (bind m k).
Proof.
  intros Hm Hk s w. unfold bind. rewrite Hm.
  destruct (m (s, w)) as [[a|e] [s' w']]; cbn [fst snd]; [apply Hk|reflexivity].
Qed.

Lemma commutes_try_except {A} (m : M Self A) h :
  commutes f m -> (forall e, commutes f (h e)) -> commutes f (try_except m h).
Proof.
  intros Hm Hh s w. unfold try_except. rewrite Hm.
  destruct (m (s, w)) as [[a|e] [s' w']]; cbn [fst snd]; [reflexivity|apply Hh].
Qed.

Lemma commutes_try_except_class {A} cs (m : M Self A) h :
  commutes f m -> (forall e, commutes f (h e)) ->
  commutes f (try_except_class cs m h).
Proof.
  intros Hm Hh. apply commutes_try_except; [exact Hm|].
  intros e. destruct (bool_decide _); [apply Hh|apply commutes_raise].
Qed.

Lemma commutes_try_finally {A} (m : M Self A) g :
  commutes f m -> commutes f g -> commutes f (try_finally m g).
Proof.
  intros Hm Hg s w. unfold try_finally. rewrite Hm.
  destruct (m (s, w)) as [r [s' w']]; cbn [fst snd]. rewrite Hg.
  destruct (g (s', w')) as [[u|e] [s'' w'']]; reflexivity.
Qed.

Lemma commutes_get_self_bind {A} (k : Self -> M Self A) :
  (forall s st, k (f s) st = k s st) -> (forall s, commutes f (k s)) ->
  commutes f (bind get_self k).
Proof.
  intros Hins Hk s w. unfold bind, get_self. cbn [fst snd].
  rewrite Hins. apply Hk.
Qed.

Lemma commutes_get_world_bind {A} (k : World -> M Self A) :
  (forall w, commutes f (k w)) -> commutes f (bind get_world k).
Proof. intros Hk s w. unfold bind, get_world. cbn [fst snd]. apply Hk. Qed.

Lemma commutes_put_world w' : commutes f (put_world w').
Proof. intros s w. reflexivity. Qed.

Lemma commutes_logging lvl msg : commutes f (logging lvl msg).
Proof. intros s w. reflexivity. Qed.

Lemma commutes_progress_callback n stats : commutes f (progress_callback n stats).
Proof. intros s w. reflexivity. Qed.

Lemma commutes_deliver l : commutes f (deliver l).
Proof. intros s w. reflexivity. Qed.

Lemma commutes_time_time : commutes f time_time.
Proof. intros s w. reflexivity. Qed.

Lemma commutes_datetime_now : commutes f (datetime_now E).
Proof. intros s w. reflexivity. Qed.

Lemma commutes_time_sleep d : commutes f (time_sleep E d).
Proof. intros s w. unfold time_sleep. destruct (d <? 0); reflexivity. Qed.

Lemma commutes_asyncio_sleep d : commutes f (asyncio_sleep E d).
Proof. intros s w. unfold asyncio_sleep. destruct (d <=? 0); reflexivity. Qed.

Lemma commutes_http_get url : commutes f (http_get E url).
Proof.
  intros s w. unfold http_get, bind, get_world, put_world. cbn [fst snd].
  destruct (respond E (length (requests w)) url); reflexivity.
Qed.

Lemma commutes_raise_for_status r : commutes f (raise_for_status r).
Proof.
  intros s w. unfold raise_for_status.
  destruct ((400 <=? fst r) && (fst r <? 600)); reflexivity.
Qed.

Lemma commutes_random_choice l : commutes f (random_choice E l).
Proof. intros s w. destruct l; reflexivity. Qed.

End Commutation.

Ltac commute :=
  repeat first
    [ assumption
    | match goal with H : context [commutes] |- _ => apply H end
    | match goal with
      | |- commutes _ (ret _) => apply commutes_ret
      | |- commutes _ (raise _) => apply commutes_raise
      | |- commutes _ (lift _) => apply commutes_lift
      | |- commutes _ (logging _ _) => apply commutes_logging
      | |- commutes _ (progress_callback _ _) => apply commutes_progress_callback
      | |- commutes _ (deliver _) => apply commutes_deliver
      | |- commutes _ time_time => apply commutes_time_time
      | |- commutes _ (datetime_now _) => apply commutes_datetime_now
      | |- commutes _ (time_sleep _ _) => apply commutes_time_sleep
      | |- commutes _ (asyncio_sleep _ _) => apply commutes_asyncio_sleep
      | |- commutes _ (http_get _ _) => apply commutes_http_get
      | |- commutes _ (raise_for_status _) => apply commutes_raise_for_status
      | |- commutes _ (random_choice _ _) => apply commutes_random_choice
      | |- commutes _ (bind get_self _) =>
          apply commutes_get_self_bind; [intros [] ?; reflexivity|intros ?]
      | |- commutes _ (bind get_world _) =>
          apply commutes_get_world_bind; intros ?
      | |- commutes _ (bind _ _) => apply commutes_bind; [|intros ?]
      | |- commutes _ (try_except_class _ _ _) =>
          apply commutes_try_except_class; [|intros ?]
      | |- commutes _ (try_except _ _) => apply commutes_try_except; [|intros ?]
      | |- commutes _ (try_finally _ _) => apply commutes_try_finally
      | |- commutes _ (match ?x with _ => _ end) => destruct x
      | |- commutes _ (if ?b then _ else _) => destruct b
      end ].

Section ParserCommutation.
Context `{DT : DateTime}.
Variable E : Env.
Context {Self : Type}.
Variable f : Self -> Self.

Lemma commutes_parse_item item : commutes f (_parse_item E item).
Proof.
  unfold _parse_item, _parse_item_body, parse_points, parse_post_time,
    parse_comment_count.
  commute.
Qed.

Lemma commutes_parse_items items : forall stories,
  commutes f (parse_items E items stories).
Proof.
  induction items as [|item rest IH]; intros stories; cbn [parse_items].
  - commute.
  - pose proof commutes_parse_item as Hitem. commute.
Qed.

End ParserCommutation.

Section SequentialCommutation.
Context `{DT : DateTime}.
Variable E : Env.
Variable rules : option string.
Import HackerNewsScraper.

Lemma commutes_set_last_request_time t :
  commutes (sync_with_rules rules) (set_last_request_time t).
Proof. intros [] w. reflexivity. Qed.

Lemma commutes_set_scraping b : commutes (sync_with_rules rules) (set_scraping b).
Proof. intros [] w. reflexivity. Qed.

Lemma commutes_set_scrape_thread b :
  commutes (sync_with_rules rules) (set_scrape_thread b).
Proof. intros [] w. reflexivity. Qed.

Lemma commutes_set_stop_flag b : commutes (sync_with_rules rules) (set_stop_flag b).
Proof. intros [] w. reflexivity. Qed.

Lemma commutes_respect_rate_limit :
  commutes (sync_with_rules rules) (_respect_rate_limit E).
Proof.
  pose proof commutes_set_last_request_time. unfold _respect_rate_limit. commute.
Qed.

Lemma commutes_make_request_loop url attempts :
  commutes (sync_with_rules rules) (_make_request_loop E url attempts).
Proof.
  pose proof commutes_respect_rate_limit as Hrl.
  induction attempts as [|attempt rest IH]; cbn [_make_request_loop]; commute.
Qed.

Lemma commutes_scrape_page p : commutes (sync_with_rules rules) (scrape_page E p).
Proof.
  pose proof commutes_make_request_loop as Hloop.
  pose proof (commutes_parse_items E (sync_with_rules rules)) as Hitems.
  unfold scrape_page, _make_request. commute.
Qed.

Lemma commutes_scrape_loop n cb pages : forall stories k,
  commutes (sync_with_rules rules) (scrape_loop E n cb pages stories k).
Proof.
  pose proof commutes_scrape_page as Hpage.
  induction pages as [|page rest IH]; intros stories k; cbn [scrape_loop]; commute.
Qed.

Lemma commutes_scrape_stories n cb :
  commutes (sync_with_rules rules) (scrape_stories E n cb).
Proof.
  pose proof commutes_scrape_loop as Hloop. unfold scrape_stories. commute.
Qed.

Lemma commutes_sync_call c : commutes (sync_with_rules rules) (sync_call E c).
Proof.
  pose proof commutes_scrape_stories as Hrun.
  pose proof commutes_scrape_page as Hpage.
  pose proof commutes_set_scraping as H1.
  pose proof commutes_set_scrape_thread as H2.
  pose proof commutes_set_stop_flag as H3.
  destruct c; cbn [sync_call]; unfold start_scraping, stop_scraping; commute.
Qed.

End SequentialCommutation.

Section AsynchronousCommutation.
Context `{DT : DateTime}.
Variable E : Env.
Variable rules : option string.
Import AsyncHackerNewsScraper.

Lemma commutes_async_set_last_request_time t :
  commutes (async_with_rules rules) (set_last_request_time t).
Proof. intros [] w. reflexivity. Qed.

Lemma commutes_async_set_scraping b :
  commutes (async_with_rules rules) (set_scraping b).
Proof. intros [] w. reflexivity. Qed.

Lemma commutes_async_set_stop_flag b :
  commutes (async_with_rules rules) (set_stop_flag b).
Proof. intros [] w. reflexivity. Qed.

Lemma commutes_async_set_session x :
  commutes (async_with_rules rules) (set_session x).
Proof. intros [] w. reflexivity. Qed.

Lemma commutes_async_respect_rate_limit :
  commutes (async_with_rules rules) (_respect_rate_limit E).
Proof.
  pose proof commutes_async_set_last_request_time.
  unfold _respect_rate_limit. commute.
Qed.

Lemma commutes_session_get url : commutes (async_with_rules rules) (session_get E url).
Proof. unfold session_get. commute. Qed.

Lemma commutes_async_make_request_loop url attempts :
  commutes (async_with_rules rules) (_make_request_loop E url attempts).
Proof.
  pose proof commutes_async_respect_rate_limit as Hrl.
  pose proof commutes_session_get as Hget.
  induction attempts as [|attempt rest IH]; cbn [_make_request_loop];
    unfold await; commute.
Qed.

Lemma commutes_async_scrape_page p :
  commutes (async_with_rules rules) (scrape_page E p).
Proof.
  pose proof commutes_async_make_request_loop as Hloop.
  pose proof (commutes_parse_items E (async_with_rules rules)) as Hitems.
  unfold scrape_page, _make_request, await. commute.
Qed.

Lemma commutes_async_scrape_loop n cb pages : forall stories k,
  commutes (async_with_rules rules) (scrape_loop E n cb pages stories k).
Proof.
  pose proof commutes_async_scrape_page as Hpage.
  induction pages as [|page rest IH]; intros stories k; cbn [scrape_loop];
    unfold await; commute.
Qed.

Lemma commutes_async_scrape_stories n cb :
  commutes (async_with_rules rules) (scrape_stories E n cb).
Proof.
  pose proof commutes_async_scrape_loop as Hloop.
  pose proof commutes_async_set_session as Hx.
  unfold scrape_stories, with_client_session. commute.
Qed.

Lemma commutes_async_call c : commutes (async_with_rules rules) (async_call E c).
Proof.
  pose proof commutes_async_scrape_stories as Hrun.
  pose proof commutes_async_scrape_page as Hpage.
  pose proof commutes_async_set_scraping as H1.
  pose proof commutes_async_set_stop_flag as H3.
  destruct c; cbn [async_call]; unfold start_scraping, stop_scraping, await; commute.
Qed.

End AsynchronousCommutation.

Section RulesFacts.
Context `{DT : DateTime}.
Variable E : Env.

(** X24: the rules of the robots file are never consulted.  Whatever
    public method is called, on either scraper, the call does on an object
    holding other rules (or none) exactly what it does on the object
    itself: the same result, the same requests, log and timing; and the
    rules the object holds are still the same afterwards.  Loading the
    robots file has no effect on what is scraped. *)
Theorem X24_robots_rules_are_never_consulted
    (rules : option string) (c : call) (w : World) :
  (forall s : HackerNewsScraper.Scraper,
     let run := sync_call E c (s, w) in
     sync_call E c (sync_with_rules rules s, w)
     = (fst run, (sync_with_rules rules (fst (snd run)), snd (snd run)))
     /\ HackerNewsScraper.robot_parser (fst (snd run))
        = HackerNewsScraper.robot_parser s)
  /\ (forall a : AsyncHackerNewsScraper.Scraper,
        let run := async_call E c (a, w) in
        async_call E c (async_with_rules rules a, w)
        = (fst run, (async_with_rules rules (fst (snd run)), snd (snd run)))
        /\ AsyncHackerNewsScraper.robot_parser (fst (snd run))
           = AsyncHackerNewsScraper.robot_parser a).
Proof.
  split.
  - intros s. cbv zeta. split; [apply commutes_sync_call|].
    pose proof (commutes_sync_call E (HackerNewsScraper.robot_parser s) c s w) as H.
    replace (sync_with_rules (HackerNewsScraper.robot_parser s) s) with s in H
      by (destruct s; reflexivity).
    destruct (sync_call E c (s, w)) as [r [s' w']]. cbn [fst snd] in *.
    injection H as H. rewrite H at 1. reflexivity.
  - intros a. cbv zeta. split; [apply commutes_async_call|].
    pose proof (commutes_async_call E (AsyncHackerNewsScraper.robot_parser a) c a w)
      as H.
    replace (async_with_rules (AsyncHackerNewsScraper.robot_parser a) a) with a in H
      by (destruct a; reflexivity).
    destruct (async_call E c (a, w)) as [r [a' w']]. cbn [fst snd] in *.
    injection H as H. rewrite H at 1. reflexivity.
Qed.

End RulesFacts.

(** ** core/analysis.py *)

Section SortFacts.
Context {A : Type}.

Lemma insert_desc_perm k (x : A) l : Py.insert_desc k x l ≡ₚ (k, x) :: l.
Proof.
  induction l as [|[k' y] l IH]; simpl; [reflexivity|].
  destruct (k' <=? k); [reflexivity|].
  rewrite IH. apply Permutation_swap.
Qed.

Lemma sort_desc_perm (l : list (Z * A)) : Py.sort_desc l ≡ₚ l.
Proof.
  unfold Py.sort_desc.
  induction l as [|[k x] l IH]; simpl; [reflexivity|].
  rewrite insert_desc_perm. constructor. exact IH.
Qed.

Lemma insert_desc_descending k (x : A) l :
  keys_descending l -> keys_descending (Py.insert_desc k x l).
Proof.
  induction l as [|[k' y] l IH]; simpl; intros Hl.
  - split; [constructor|exact I].
  - destruct Hl as [Hall Hl].
    destruct (Z.leb_spec k' k) as [Hle|Hlt]; simpl.
    + split; [|split; assumption].
      constructor; [exact Hle|].
      eapply Forall_impl; [exact Hall|]. simpl. intros b Hb. lia.
    + split; [|apply IH, Hl].
      rewrite insert_desc_perm. constructor; [simpl; lia|exact Hall].
Qed.

Lemma sort_desc_descending (l : list (Z * A)) : keys_descending (Py.sort_desc l).
Proof.
  unfold Py.sort_desc.
  induction l as [|[k x] l IH]; simpl; [exact I|].
  apply insert_desc_descending, IH.
Qed.

Lemma keys_descending_app (l1 l2 : list (Z * A)) :
  keys_descending (l1 ++ l2) ->
  forall a b, a ∈ l1 -> b ∈ l2 -> fst b <= fst a.
Proof.
  induction l1 as [|c l1 IH]; simpl; intros Hd a b Ha Hb.
  - inversion Ha.
  - destruct Hd as [Hall Hd].
    apply elem_of_cons in Ha as [->|Ha].
    + rewrite Forall_forall in Hall. apply Hall, elem_of_app. right. exact Hb.
    + eapply IH; eassumption.
Qed.

Lemma keys_descending_lookup (l : list (Z * A)) :
  keys_descending l ->
  forall i j a b, (i < j)%nat -> l !! i = Some a -> l !! j = Some b ->
                  fst b <= fst a.
Proof.
  induction l as [|c l IH]; simpl; intros Hd i j a b Hij Ha Hb.
  - rewrite lookup_nil in Ha. discriminate.
  - destruct Hd as [Hall Hd].
    destruct j as [|j]; [lia|]. simpl in Hb.
    destruct i as [|i]; simpl in Ha.
    + injection Ha as <-. rewrite Forall_forall in Hall.
      apply Hall. eapply list_elem_of_lookup_2, Hb.
    + apply (IH Hd i j); [lia|assumption|assumption].
Qed.

End SortFacts.

Section CounterFacts.
Import StoryAnalyzer.

Lemma occurrences_cons x y l :
  occurrences x (y :: l) = (if String.eqb x y then 1 else 0) + occurrences x l.
Proof.
  unfold occurrences. rewrite filter_cons.
  destruct (String.eqb_spec x y) as [->|Hne].
  - rewrite decide_True by reflexivity. simpl length. lia.
  - rewrite decide_False by congruence. lia.
Qed.

Lemma occurrences_nonneg x l : 0 <= occurrences x l.
Proof. unfold occurrences. lia. Qed.

Lemma occurrences_pos x l : 0 < occurrences x l <-> x ∈ l.
Proof.
  induction l as [|y l IH].
  - unfold occurrences. simpl. split; [lia|]. intros H. inversion H.
  - rewrite occurrences_cons, elem_of_cons.
    pose proof (occurrences_nonneg x l).
    destruct (String.eqb_spec x y) as [->|Hne].
    + split; [auto|lia].
    + split.
      * intros Hp. right. apply IH. lia.
      * intros [Heq|Hin]; [contradiction|]. apply IH in Hin. lia.
Qed.

Lemma counter_add_keys x c d :
  d ∈ (counter_add x c).*1 <-> d = x \/ d ∈ c.*1.
Proof.
  induction c as [|[y n] c IH]; simpl.
  - rewrite elem_of_cons. split; intros [H|H]; auto; inversion H.
  - destruct (String.eqb_spec x y) as [->|Hne]; simpl; rewrite !elem_of_cons.
    + tauto.
    + rewrite IH. tauto.
Qed.

Lemma counter_add_NoDup x c : NoDup c.*1 -> NoDup (counter_add x c).*1.
Proof.
  induction c as [|[y n] c IH]; simpl; intros Hnd.
  - constructor; [intros H; inversion H|constructor].
  - apply NoDup_cons in Hnd as [Hy Hnd].
    destruct (String.eqb_spec x y) as [->|Hne]; simpl.
    + constructor; assumption.
    + constructor; [|apply IH, Hnd].
      rewrite counter_add_keys. intros [Heq|Hin]; [congruence|contradiction].
Qed.

Lemma counter_add_count x c d :
  lookup_count (counter_add x c) d
  = lookup_count c d + (if String.eqb d x then 1 else 0).
Proof.
  induction c as [|[y n] c IH]; simpl.
  - destruct (String.eqb d x); lia.
  - destruct (String.eqb_spec x y) as [->|Hne]; simpl.
    + destruct (String.eqb_spec d y); lia.
    + destruct (String.eqb_spec d y) as [->|Hdy].
      * destruct (String.eqb_spec y x); [congruence|lia].
      * exact IH.
Qed.

Lemma counter_fold l c :
  NoDup c.*1 ->
  let c' := fold_left (fun c x => counter_add x c) l c in
  NoDup c'.*1
  /\ (forall d, d ∈ c'.*1 <-> d ∈ l \/ d ∈ c.*1)
  /\ (forall d, lookup_count c' d = lookup_count c d + occurrences d l).
Proof.
  revert c. induction l as [|x l IH]; intros c Hnd; simpl.
  - split; [exact Hnd|]. split.
    + intros d. split; [auto|]. intros [H|H]; [inversion H|exact H].
    + intros d. unfold occurrences. simpl. lia.
  - destruct (IH (counter_add x c) (counter_add_NoDup x c Hnd))
      as (Hnd' & Hkeys & Hcount).
    split; [exact Hnd'|]. split.
    + intros d. rewrite Hkeys, counter_add_keys, elem_of_cons. tauto.
    + intros d. rewrite Hcount, counter_add_count, occurrences_cons. lia.
Qed.

Lemma lookup_count_elem c d n :
  NoDup c.*1 -> ((d, n) ∈ c <-> d ∈ c.*1 /\ lookup_count c d = n).
Proof.
  induction c as [|[y m] c IH]; simpl; intros Hnd.
  - split; [intros H; inversion H|intros [H _]; inversion H].
  - apply NoDup_cons in Hnd as [Hy Hnd].
    rewrite !elem_of_cons, (IH Hnd).
    destruct (String.eqb_spec d y) as [->|Hne].
    + split.
      * intros [Heq|[Hin _]]; [injection Heq as <-; auto|contradiction].
      * intros [_ <-]. auto.
    + split.
      * intros [Heq|[Hin Hc]]; [congruence|auto].
      * intros [[Heq|Hin] Hc]; [congruence|auto].
Qed.

(** The counter of a list: its keys are distinct, and it holds an element
    with a count exactly when the element occurs that often, at least
    once. *)
Lemma Counter_spec l :
  NoDup (Counter l).*1
  /\ forall d n, (d, n) ∈ Counter l <-> d ∈ l /\ n = occurrences d l.
Proof.
  destruct (counter_fold l [] (NoDup_nil_2)) as (Hnd & Hkeys & Hcount).
  fold (Counter l) in Hnd, Hkeys, Hcount.
  split; [exact Hnd|]. intros d n.
  rewrite (lookup_count_elem _ d n Hnd), Hkeys, Hcount. simpl.
  split.
  - intros [[H|H] <-]; [split; [exact H|lia]|inversion H].
  - intros [H ->]. split; [auto|lia].
Qed.

(** [most_common]: a prefix, of at most [n] items, of a rearrangement of
    the counter in which counts never increase; an item left out has no
    larger count than any item kept. *)
Lemma most_common_spec n c :
  let top := most_common n c in
  (length top <= Z.to_nat n)%nat
  /\ (NoDup c.*1 -> NoDup top.*1)
  /\ (forall item, item ∈ top -> item ∈ c)
  /\ (forall i j a b, (i < j)%nat -> top !! i = Some a -> top !! j = Some b ->
                      snd b <= snd a)
  /\ (forall item, item ∈ c ->
        item ∈ top
        \/ (length top = Z.to_nat n /\ forall t, t ∈ top -> snd item <= snd t)).
Proof.
  cbv zeta. unfold most_common.
  set (keyed := map (fun item : string * Z => (snd item, item)) c).
  set (sorted := Py.sort_desc keyed).
  assert (Hperm : map snd sorted ≡ₚ c).
  { unfold sorted. rewrite sort_desc_perm. unfold keyed.
    rewrite map_map. simpl. rewrite map_id. reflexivity. }
  assert (Hkey : forall p, p ∈ sorted -> fst p = snd (snd p)).
  { intros p Hp. unfold sorted in Hp. rewrite sort_desc_perm in Hp.
    unfold keyed in Hp. apply list_elem_of_fmap in Hp as (item & -> & _).
    reflexivity. }
  pose proof (sort_desc_descending keyed) as Hdesc. fold sorted in Hdesc.
  split; [rewrite length_take; lia|]. split; [|split; [|split]].
  - intros Hnd. rewrite <- Hperm in Hnd.
    rewrite fmap_take.
    eapply sublist_NoDup; [exact Hnd|apply sublist_take].
  - intros item Hin. rewrite <- Hperm.
    rewrite <- (take_drop (Z.to_nat n) (map snd sorted)).
    apply elem_of_app. left. exact Hin.
  - intros i j a b Hij Ha Hb.
    apply lookup_take_Some in Ha as [Ha _]. apply lookup_take_Some in Hb as [Hb _].
    rewrite list_lookup_fmap in Ha, Hb.
    destruct (sorted !! i) as [pa|] eqn:Hpa; [|discriminate].
    destruct (sorted !! j) as [pb|] eqn:Hpb; [|discriminate].
    simpl in Ha, Hb. injection Ha as <-. injection Hb as <-.
    rewrite <- (Hkey pa), <- (Hkey pb)
      by (eapply list_elem_of_lookup_2; eassumption).
    eapply (keys_descending_lookup sorted Hdesc i j); eassumption.
  - intros item Hin. rewrite <- Hperm in Hin.
    rewrite <- (take_drop (Z.to_nat n) (map snd sorted)) in Hin.
    apply elem_of_app in Hin as [Hin|Hin]; [left; exact Hin|right].
    split.
    + rewrite length_take.
      destruct (le_lt_dec (length (map snd sorted)) (Z.to_nat n)) as [Hle|Hlt];
        [|lia].
      rewrite drop_ge in Hin by exact Hle. inversion Hin.
    + intros t Ht.
      rewrite <- fmap_take in Ht. rewrite <- fmap_drop in Hin.
      apply list_elem_of_fmap in Ht as (pt & -> & Hpt).
      apply list_elem_of_fmap in Hin as (pi & -> & Hpi).
      rewrite <- (Hkey pt), <- (Hkey pi).
      * apply (keys_descending_app (take (Z.to_nat n) sorted)
                                   (drop (Z.to_nat n) sorted));
          [rewrite take_drop; exact Hdesc|exact Hpt|exact Hpi].
      * rewrite <- (take_drop (Z.to_nat n) sorted). apply elem_of_app. auto.
      * rewrite <- (take_drop (Z.to_nat n) sorted). apply elem_of_app. auto.
Qed.

End CounterFacts.

Section AnalysisFacts.
Context `{DT : DateTime}.
Import Story.

Lemma dom_to_dict s : dom (to_dict s) = fields ∪ {["domain"]}.
Proof.
  unfold to_dict, fields. rewrite !dom_insert_L, dom_empty_L. set_solver.
Qed.

Lemma columns_to_dicts s l :
  StoryAnalyzer.columns (map to_dict (s :: l)) = fields ∪ {["domain"]}.
Proof.
  assert (Hsub : forall k, StoryAnalyzer.columns (map to_dict k)
                           ⊆ fields ∪ {["domain"]}).
  { induction k as [|x k IH]; [apply empty_subseteq|].
    unfold StoryAnalyzer.columns in *. simpl. rewrite dom_to_dict.
    apply union_subseteq. split; [reflexivity|exact IH]. }
  specialize (Hsub l). unfold StoryAnalyzer.columns in *. simpl.
  rewrite dom_to_dict. rewrite (comm_L (∪)). apply subseteq_union_1_L, Hsub.
Qed.

Lemma column_of_no_story name :
  StoryAnalyzer.column name (map to_dict []) = inl ("'" +:+ name +:+ "'").
Proof.
  unfold StoryAnalyzer.column. rewrite decide_False; [reflexivity|].
  unfold StoryAnalyzer.columns. simpl. apply not_elem_of_empty.
Qed.

Lemma column_of_stories name s l :
  name ∈ fields ∪ {["domain"]} ->
  StoryAnalyzer.column name (map to_dict (s :: l))
  = inr (map (fun x => to_dict x !! name) (s :: l)).
Proof.
  intros Hin. unfold StoryAnalyzer.column.
  rewrite decide_True by (rewrite columns_to_dicts; exact Hin).
  rewrite map_map. reflexivity.
Qed.

Lemma timestamp_is_no_column l :
  "timestamp" ∉ StoryAnalyzer.columns (map to_dict l).
Proof.
  destruct l as [|s l].
  - unfold StoryAnalyzer.columns. simpl. apply not_elem_of_empty.
  - rewrite columns_to_dicts. unfold fields.
    rewrite !elem_of_union, !elem_of_singleton.
    intuition discriminate.
Qed.



Lemma cell_url s : to_dict s !! "url" = Some (of_optstr (url s)).
Proof.
  unfold to_dict. repeat (rewrite lookup_insert_ne by discriminate).
  apply lookup_insert_eq.
Qed.






Lemma domain_of_cell_nonempty cell d :
  StoryAnalyzer.domain_of_cell cell = Some d -> d <> "".
Proof.
  unfold StoryAnalyzer.domain_of_cell.
  destruct cell as [[| | |u|]|]; try discriminate.
  destruct (Urllib.netloc u) as [[|c n]|e]; try discriminate.
  intros H. injection H as <-. discriminate.
Qed.

Lemma domain_of_cell_url s d :
  d <> "" ->
  StoryAnalyzer.domain_of_cell (to_dict s !! "url") = Some d
  <-> domain s = Some d.
Proof.
  intros Hd. rewrite cell_url. unfold StoryAnalyzer.domain_of_cell, domain.
  destruct (url s) as [[|c u]|]; cbn [of_optstr falsy fmt].
  - change (Urllib.netloc "") with (Ok (A := string) "").
    split; discriminate.
  - destruct (Urllib.netloc (String c u)) as [[|c' n]|e].
    + split; [discriminate|]. intros H. injection H as <-. contradiction.
    + reflexivity.
    + split; [discriminate|]. intros H. injection H as <-. contradiction.
  - split; discriminate.
Qed.

Lemma occurrences_domains d l :
  d <> "" ->
  occurrences d (omap StoryAnalyzer.domain_of_cell
                      (map (fun x => to_dict x !! "url") l))
  = stories_of_domain d l.
Proof.
  intros Hd. unfold stories_of_domain.
  induction l as [|s l IH]; [reflexivity|].
  cbn [map omap list_omap]. rewrite filter_cons.
  pose proof (domain_of_cell_url s d Hd) as Hs.
  destruct (StoryAnalyzer.domain_of_cell (to_dict s !! "url")) as [d'|] eqn:Hcell.
  - rewrite occurrences_cons, IH.
    destruct (String.eqb_spec d d') as [<-|Hne].
    + rewrite decide_True by (apply Hs; reflexivity). simpl length. lia.
    + rewrite decide_False; [lia|]. intros H. apply Hs in H. congruence.
  - rewrite IH. rewrite decide_False; [reflexivity|].
    intros H. apply Hs in H. discriminate.
Qed.

(** What [get_trending_domains] returns for one story or more. *)
Lemma trending_domains_of_stories top_n s l :
  let top :=
    StoryAnalyzer.most_common top_n
      (StoryAnalyzer.Counter
         (omap StoryAnalyzer.domain_of_cell
               (map (fun x => to_dict x !! "url") (s :: l)))) in
  StoryAnalyzer.get_trending_domains top_n (StoryAnalyzer.__init__ (s :: l))
  = StoryAnalyzer.Returned top
  /\ (length top <= Z.to_nat top_n)%nat
  /\ NoDup top.*1
  /\ (forall d n, (d, n) ∈ top ->
        d <> "" /\ n = stories_of_domain d (s :: l) /\ 0 < n)
  /\ (forall i j a b, (i < j)%nat -> top !! i = Some a -> top !! j = Some b ->
                      snd b <= snd a)
  /\ (forall d, d <> "" -> 0 < stories_of_domain d (s :: l) ->
        d ∈ top.*1
        \/ (length top = Z.to_nat top_n
            /\ forall t, t ∈ top -> stories_of_domain d (s :: l) <= snd t)).
Proof.
  cbv zeta.
  set (doms := omap StoryAnalyzer.domain_of_cell
                    (map (fun x => to_dict x !! "url") (s :: l))).
  destruct (Counter_spec doms) as [Hnd Hc].
  destruct (most_common_spec top_n (StoryAnalyzer.Counter doms))
    as (Hlen & Hnodup & Hsub & Hdesc & Hcompl).
  split.
  { unfold StoryAnalyzer.get_trending_domains, StoryAnalyzer.__init__.
    cbn [StoryAnalyzer.df].
    rewrite column_of_stories by (unfold fields; set_solver). reflexivity. }
  split; [exact Hlen|]. split; [exact (Hnodup Hnd)|].
  split; [|split; [exact Hdesc|]].
  - intros d n Hin. apply Hsub, Hc in Hin as [Hin ->].
    assert (Hd : d <> "").
    { unfold doms in Hin. apply list_elem_of_omap in Hin as (cell & _ & Hcell).
      eapply domain_of_cell_nonempty, Hcell. }
    split; [exact Hd|]. split.
    + unfold doms. apply occurrences_domains, Hd.
    + apply occurrences_pos, Hin.
  - intros d Hd Hpos.
    rewrite <- (occurrences_domains d (s :: l) Hd) in Hpos |- *.
    fold doms in Hpos |- *.
    assert (Hin : (d, occurrences d doms) ∈ StoryAnalyzer.Counter doms).
    { apply Hc. split; [apply occurrences_pos, Hpos|reflexivity]. }
    destruct (Hcompl _ Hin) as [Htop|[Hfull Hle]].
    + left. apply list_elem_of_fmap. eexists. split; [|exact Htop]. reflexivity.
    + right. split; [exact Hfull|exact Hle].
Qed.

(** X27: [get_trending_domains].  Without a story the frame has no column
    [url] and the method raises [AnalysisError].  Otherwise it returns at
    most [top_n] pairs of distinct domains, none of them empty, each with
    the number of stories whose [domain] property it is, by decreasing
    number; a domain of some story that is left out has no more stories
    than any domain listed, and is left out only when [top_n] domains are
    listed. *)
Theorem X27_get_trending_domains (top_n : Z) (l : list Story) :
  match l with
  | [] =>
      StoryAnalyzer.get_trending_domains top_n (StoryAnalyzer.__init__ l)
      = StoryAnalyzer.AnalysisError "Failed to identify trending domains: 'url'"
  | _ :: _ =>
      exists top,
        StoryAnalyzer.get_trending_domains top_n (StoryAnalyzer.__init__ l)
        = StoryAnalyzer.Returned top
        /\ (length top <= Z.to_nat top_n)%nat
        /\ NoDup top.*1
        /\ (forall d n, (d, n) ∈ top ->
              d <> "" /\ n = stories_of_domain d l /\ 0 < n)
        /\ (forall i j a b,
              (i < j)%nat -> top !! i = Some a -> top !! j = Some b ->
              snd b <= snd a)
        /\ (forall d, d <> "" -> 0 < stories_of_domain d l ->
              d ∈ top.*1
              \/ (length top = Z.to_nat top_n
                  /\ forall t, t ∈ top -> stories_of_domain d l <= snd t))
  end.
Proof.
  destruct l as [|s l].
  - unfold StoryAnalyzer.get_trending_domains, StoryAnalyzer.__init__.
    cbn [StoryAnalyzer.df]. rewrite column_of_no_story. reflexivity.
  - eexists. apply (trending_domains_of_stories top_n s l).
Qed.

(** X28: [analyze_post_popularity_by_time] looks for a column [timestamp],
    and [to_dict] writes no such key (the time of a story is under
    [time]).  So for every list of stories, and whatever pandas would make
    of timestamps, the method returns the empty dictionary,
    [plot_post_distribution_by_hour] returns [None], and the frame never
    gets its [hour] column. *)
Theorem X28_post_popularity_by_time_is_always_empty
    (hours_of : list (option pyval) -> string + (list Z * list (Z * Z)))
    (l : list Story) :
  StoryAnalyzer.analyze_post_popularity_by_time hours_of
    (StoryAnalyzer.__init__ l)
  = (StoryAnalyzer.Returned [], StoryAnalyzer.__init__ l)
  /\ StoryAnalyzer.plot_post_distribution_by_hour hours_of
       (StoryAnalyzer.__init__ l)
     = (StoryAnalyzer.Returned None, StoryAnalyzer.__init__ l).
Proof.
  assert (H : StoryAnalyzer.analyze_post_popularity_by_time hours_of
                (StoryAnalyzer.__init__ l)
              = (StoryAnalyzer.Returned [], StoryAnalyzer.__init__ l)).
  { unfold StoryAnalyzer.analyze_post_popularity_by_time.
    rewrite decide_False; [reflexivity|].
    apply timestamp_is_no_column. }
  split; [exact H|].
  unfold StoryAnalyzer.plot_post_distribution_by_hour. rewrite H. reflexivity.
Qed.

(** X29: [plot_trending_domains] draws the ten most common domains, and
    needs one.  Without a story it raises [AnalysisError] over the missing
    column; when no story has a domain (every URL is relative, as the
    links to the site's own items are) it raises [AnalysisError] because
    nothing can be unpacked; otherwise it returns the bar chart of what
    [get_trending_domains] returns. *)
Theorem X29_plot_trending_domains (l : list Story) :
  let result := StoryAnalyzer.plot_trending_domains (StoryAnalyzer.__init__ l) in
  match l with
  | [] =>
      result
      = StoryAnalyzer.AnalysisError
          ("Failed to create trending domains plot: "
           +:+ "Failed to identify trending domains: 'url'")
  | _ :: _ =>
      (Forall (fun s => domain s = None \/ domain s = Some "") l
       /\ result
          = StoryAnalyzer.AnalysisError
              ("Failed to create trending domains plot: "
               +:+ "not enough values to unpack (expected 2, got 0)"))
      \/ (Exists (fun s => exists d, domain s = Some d /\ d <> "") l
          /\ exists items,
               StoryAnalyzer.get_trending_domains 10 (StoryAnalyzer.__init__ l)
               = StoryAnalyzer.Returned items
               /\ items <> []
               /\ result
                  = StoryAnalyzer.Returned
                      (StoryAnalyzer.mkFigure "Bar" (map fst items)
                         (map snd items) "Trending Domains" "Domain"
                         "Number of Stories" false))
  end.
Proof.
  cbv zeta. destruct l as [|s l].
  - unfold StoryAnalyzer.plot_trending_domains,
      StoryAnalyzer.get_trending_domains, StoryAnalyzer.__init__.
    cbn [StoryAnalyzer.df]. rewrite column_of_no_story. reflexivity.
  - destruct (trending_domains_of_stories 10 s l)
      as (Hget & Hlen & _ & Hin & _ & Hcompl).
    unfold StoryAnalyzer.plot_trending_domains. rewrite Hget.
    destruct (StoryAnalyzer.most_common 10 _) as [|item items] eqn:Htop.
    + left. split; [|reflexivity].
      apply Forall_forall. intros x Hx.
      destruct (domain x) as [[|c d]|] eqn:Hdom; [right; reflexivity| |left; reflexivity].
      exfalso.
      assert (Hpos : 0 < stories_of_domain (String c d) (s :: l)).
      { unfold stories_of_domain.
        assert (Hf : x ∈ filter (fun y => domain y = Some (String c d)) (s :: l))
          by (apply list_elem_of_filter; split; assumption).
        destruct (filter _ (s :: l)); [inversion Hf|simpl; lia]. }
      destruct (Hcompl (String c d) ltac:(discriminate) Hpos) as [H|[H _]].
      * inversion H.
      * simpl in H. lia.
    + right. split.
      * destruct item as [d n].
        destruct (Hin d n ltac:(left)) as (Hd & Hn & Hpos).
        rewrite Hn in Hpos. unfold stories_of_domain in Hpos.
        destruct (filter (fun y => domain y = Some d) (s :: l)) as [|x f] eqn:Hf;
          [simpl in Hpos; lia|].
        assert (Hx : x ∈ filter (fun y => domain y = Some d) (s :: l))
          by (rewrite Hf; left).
        apply list_elem_of_filter in Hx as [Hdx Hx].
        apply Exists_exists. exists x. split; [exact Hx|]. exists d. auto.
      * eexists. split; [reflexivity|]. split; [discriminate|reflexivity].
Qed.

End AnalysisFacts.

(** ** The further properties on concrete inputs *)

Section FurtherRuns.
Import Story Scenario.

Lemma X1_witness :
  __post_init__ (mkStory "Ask HN" None (-5) "" (-2) (Some "42") None)
  = Ok (mkStory "Ask HN" (Some "https://news.ycombinator.com/item?id=42") 0
                "unknown" 0 (Some "42") None)
  /\ title (mkStory "Ask HN" (Some "https://news.ycombinator.com/item?id=42") 0
                    "unknown" 0 (Some "42") None) <> EmptyString.
Proof.
  split; [reflexivity|].
  apply (X1_post_init_idempotent
           (mkStory "Ask HN" None (-5) "" (-2) (Some "42") None)
           (mkStory "Ask HN" (Some "https://news.ycombinator.com/item?id=42") 0
                    "unknown" 0 (Some "42") None)).
  reflexivity.
Defined.

Lemma X2_witness :
  from_dict (to_dict alpha) = Ok alpha
  /\ dom (delete "domain" (to_dict alpha)) = fields.
Proof.
  assert (H : from_dict (to_dict alpha) = Ok alpha)
    by apply from_dict_to_dict, alpha_is_record.
  split; [exact H|].
  apply (X2_from_dict_needs_exact_keys (to_dict alpha) alpha H).
Defined.

Lemma X4_witness :
  Forall is_record [alpha]
  /\ exists r,
       FileStorage.get_story_by_id "101"
         (snd (FileStorage.save_stories [alpha] FileStorage.Missing)) = Ok r
       /\ match r with
          | Some s =>
              exists before after,
                [alpha] = before ++ s :: after
                /\ story_id s = Some "101"
                /\ Forall (fun x => story_id x <> Some "101") before
          | None => Forall (fun x => story_id x <> Some "101") [alpha]
          end.
Proof.
  assert (H : Forall is_record [alpha])
    by (constructor; [exact alpha_is_record|constructor]).
  split; [exact H|].
  apply (X4_get_story_by_id_after_save [alpha] "101" FileStorage.Missing H).
Defined.



Import RetryScenario.

Lemma X12_witness :
  (exists now,
      fst (HackerNewsScraper.scrape_page (mk_env site_flaky) 1 (sync0, world0))
      = Ok (parse_body (mk_env site_flaky) now "one row"))
  /\ (exists ts,
        length ts = 2%nat
        /\ requests (snd (snd (HackerNewsScraper.scrape_page
                                 (mk_env site_flaky) 1 (sync0, world0))))
           = map (fun t => (t, HackerNewsScraper.page_url
                                 (HackerNewsScraper.config sync0) 1)) ts
             ++ requests world0)
  /\ clock world0 + (2 ^ Z.of_nat 1 - 1) * second
     <= clock (snd (snd (HackerNewsScraper.scrape_page
                           (mk_env site_flaky) 1 (sync0, world0)))).
Proof.
  apply (X12_sequential_page_takes_first_good_answer
           (mk_env site_flaky) 1 sync0 world0 1 200 "one row").
  - simpl. lia.
  - intros i Hi. replace i with 0%nat by lia. reflexivity.
  - reflexivity.
  - reflexivity.
Defined.


Lemma X14_witness :
  (exists now,
      fst (AsyncHackerNewsScraper.scrape_page (mk_env site_flaky) 1
             (async_open, world0))
      = Ok (parse_body (mk_env site_flaky) now "one row"))
  /\ (exists ts,
        length ts = 2%nat
        /\ requests (snd (snd (AsyncHackerNewsScraper.scrape_page
                                 (mk_env site_flaky) 1 (async_open, world0))))
           = map (fun t => (t, AsyncHackerNewsScraper.page_url
                                 (AsyncHackerNewsScraper.config async_open) 1)) ts
             ++ requests world0)
  /\ clock world0 + (2 ^ Z.of_nat 1 - 1) * second
     <= clock (snd (snd (AsyncHackerNewsScraper.scrape_page
                           (mk_env site_flaky) 1 (async_open, world0)))).
Proof.
  apply (X14_asynchronous_page_takes_first_good_answer
           (mk_env site_flaky) 1 async_open world0 1 200 "one row").
  - reflexivity.
  - discriminate.
  - simpl. lia.
  - intros i Hi. replace i with 0%nat by lia. reflexivity.
  - reflexivity.
  - reflexivity.
Defined.


Lemma X16_witness :
  fst (AsyncHackerNewsScraper.scrape_page (mk_env site_repeating) 1
         (async0, world0)) = Ok []
  /\ requests (snd (snd (AsyncHackerNewsScraper.scrape_page
                           (mk_env site_repeating) 1 (async0, world0))))
     = requests world0
  /\ (0 < max_retries (AsyncHackerNewsScraper.config async0) ->
      head (log (snd (snd (AsyncHackerNewsScraper.scrape_page
                             (mk_env site_repeating) 1 (async0, world0)))))
      = Some (mkLog ERROR
                ("Failed to scrape page " +:+ Py.str_int 1 +:+ ": "
                 +:+ "Failed to fetch "
                 +:+ AsyncHackerNewsScraper.page_url
                       (AsyncHackerNewsScraper.config async0) 1
                 +:+ ": " +:+ blocked_text async0))
      /\ clock world0
         + (2 ^ (max_retries (AsyncHackerNewsScraper.config async0) - 1) - 1)
           * second
         <= clock (snd (snd (AsyncHackerNewsScraper.scrape_page
                               (mk_env site_repeating) 1 (async0, world0))))).
Proof.
  apply (X16_asynchronous_page_without_session
           (mk_env site_repeating) 1 async0 world0).
  left. discriminate.
Defined.

End FurtherRuns.
